(** * Gotodo: the task lifecycle, the list viewport and the session controller

    A shallow embedding of [main.go] (the terminal task tracker with per-task
    time accounting) and the properties of its specification.

    Conventions of the embedding:
    - a Go [int] is a [Z]; the cursor, offsets and widths stay within the
      length of the task slice and the terminal size;
    - a [time.Duration] is an [int64] count of nanoseconds: additions wrap
      ([Duration_add]) and [Time.Sub] saturates ([Time_Sub]);
    - a [time.Time] is the number of nanoseconds since the zero instant
      (January 1 of year 1, UTC), so [IsZero] is a comparison with 0;
    - the wall clock is read once per event and handed to [Update] in the
      event ([ev_now]), as is the identifier [uuid.New] returns ([ev_id]);
    - a Go string is the sequence of its runes, which is what the renderer's
      [[]rune(descText)] works on;
    - a run-time panic (an index out of range) is the result [None];
    - the tasks file is a piece of state threaded through [Update];
    - the Bubble Tea components ([textinput], [viewport]), [lipgloss] and the
      calendar conversion are collaborators: what [main.go] reads and writes
      of them is modelled, their own event handling is a parameter
      ([Externals]). *)

From Stdlib Require Import ZArith Lia String Ascii.
From stdpp Require Import base decidable option list.

Local Open Scope Z_scope.

(** ** Strings *)

Definition rune := Z.
Definition gostring := list rune.

Definition ascii_rune (a : ascii) : rune := Z.of_N (N_of_ascii a).

(** The runes of an ASCII literal. *)
Definition lit (s : string) : gostring := map ascii_rune (list_ascii_of_string s).

(** [unicode.IsSpace]: the White_Space code points. *)
Definition unicode_IsSpace (r : rune) : bool :=
  ((9 <=? r) && (r <=? 13)) || (r =? 32) || (r =? 133) || (r =? 160)
  || (r =? 5760) || ((8192 <=? r) && (r <=? 8202))
  || (r =? 8232) || (r =? 8233) || (r =? 8239) || (r =? 8287) || (r =? 12288).

Fixpoint trimLeftSpace (s : gostring) : gostring :=
  match s with
  | [] => []
  | r :: rest => if unicode_IsSpace r then trimLeftSpace rest else s
  end.

(** [strings.TrimSpace]: leading and trailing white space removed. *)
Definition strings_TrimSpace (s : gostring) : gostring :=
  rev (trimLeftSpace (rev (trimLeftSpace s))).

(** ** Time *)

Definition Duration := Z.
Definition Time := Z.

Definition minDuration : Duration := - 2 ^ 63.
Definition maxDuration : Duration := 2 ^ 63 - 1.
Definition Second : Duration := 1000000000.

(** [int64] addition of two durations. *)
Definition Duration_add (a b : Duration) : Duration :=
  (a + b + 2 ^ 63) mod 2 ^ 64 - 2 ^ 63.

Definition Time_IsZero (t : Time) : bool := t =? 0.

(** [t.Sub(u)]: the difference, or the extreme duration when it does not fit. *)
Definition Time_Sub (t u : Time) : Duration :=
  if t - u <? minDuration then minDuration
  else if maxDuration <? t - u then maxDuration
  else t - u.

(** [time.Since(t)] with the clock at [now]. *)
Definition time_Since (now t : Time) : Duration := Time_Sub now t.

(** ** Tasks *)

Inductive TaskStatus := Pending | InProgress | Paused | Completed.

#[global] Instance TaskStatus_eq_dec : EqDecision TaskStatus.
Proof. solve_decision. Defined.

Definition UUID := Z.

Record Task := mkTask {
  ID : UUID;
  Description : gostring;
  Status : TaskStatus;
  TimeSpent : Duration;
  LastStartedAt : Time;
  CreatedAt : Time
}.

Definition setStatus (s : TaskStatus) (t : Task) : Task :=
  mkTask (ID t) (Description t) s (TimeSpent t) (LastStartedAt t) (CreatedAt t).

Definition setTimeSpent (d : Duration) (t : Task) : Task :=
  mkTask (ID t) (Description t) (Status t) d (LastStartedAt t) (CreatedAt t).

Definition setLastStartedAt (s : Time) (t : Task) : Task :=
  mkTask (ID t) (Description t) (Status t) (TimeSpent t) s (CreatedAt t).

(** The guarded accrual that [Update] repeats at every place that stops a
    running timer:
    [if !t.LastStartedAt.IsZero() { t.TimeSpent += time.Since(t.LastStartedAt) }]. *)
Definition accrue (now : Time) (t : Task) : Task :=
  if negb (Time_IsZero (LastStartedAt t))
  then setTimeSpent (Duration_add (TimeSpent t) (time_Since now (LastStartedAt t))) t
  else t.

(** [m.tasks[i]] for an [int] index: [None] is the index-out-of-range panic. *)
Definition index {A} (l : list A) (i : Z) : option A :=
  if 0 <=? i then l !! Z.to_nat i else None.

Definition len {A} (l : list A) : Z := Z.of_nat (length l).

(** ** Errors *)

Inductive error :=
| ErrNotExist                       (* the os error of a missing file *)
| ErrOS                             (* any other os error *)
| ErrJSON                           (* a decoding error *)
| Errorf (format : string) (cause : error).   (* fmt.Errorf(format, cause), %w *)

(** [os.IsNotExist] looks at os errors only: it does not unwrap [fmt.Errorf]. *)
Definition os_IsNotExist (e : error) : bool :=
  match e with ErrNotExist => true | _ => false end.

Definition errorSave : string := "save error: %w".
Definition errorWriteTasks : string := "write tasks: %w".
Definition errorReadTasksFile : string := "read tasks file: %w".
Definition errorUnmarshalTasks : string := "unmarshal tasks: %w".

(** ** The tasks file *)

Inductive FileState :=
| NoFile
| Unreadable
| Malformed
| Stored (ts : list Task).   (* the JSON array of these tasks *)

Record File := mkFile { fileState : FileState; writable : bool }.

Definition saveTasksToFile (f : File) (ts : list Task) : File * option error :=
  if writable f then (mkFile (Stored ts) true, None)
  else (f, Some (Errorf errorWriteTasks ErrOS)).

Definition loadTasksFromFile (f : File) : list Task * option error :=
  match fileState f with
  | NoFile => ([], Some ErrNotExist)
  | Unreadable => ([], Some (Errorf errorReadTasksFile ErrOS))
  | Malformed => ([], Some (Errorf errorUnmarshalTasks ErrJSON))
  | Stored ts => (ts, None)
  end.

(** ** The rendered rows and the components *)

(** One line of the list before styling: the fields [renderTasksView] joins. *)
Record Row := mkRow {
  rowSelected : bool;
  rowLineNumber : option Z;
  rowStatus : TaskStatus;
  rowDate : Z * Z;
  rowDescription : gostring;
  rowTime : Duration
}.

Record textinput := mkInput { Value : gostring; Focused : bool; inputWidth : Z }.

Record viewport := mkViewport {
  YOffset : Z;
  Height : Z;
  Width : Z;
  content : list Row
}.

(** Modelled from the spec: [viewport.SetYOffset] is the component's setter
    of the scroll offset; §4.3 of the spec has the new offset be the value
    passed. *)
Definition SetYOffset (n : Z) (v : viewport) : viewport :=
  mkViewport n (Height v) (Width v) (content v).

(** [viewport.SetContent], and the setters of the text input below: the
    assignments of the field they are named after. *)
Definition SetContent (rows : list Row) (v : viewport) : viewport :=
  mkViewport (YOffset v) (Height v) (Width v) rows.

Definition SetValue (s : gostring) (i : textinput) : textinput :=
  mkInput s (Focused i) (inputWidth i).

Definition Focus (i : textinput) : textinput := mkInput (Value i) true (inputWidth i).
Definition Blur (i : textinput) : textinput := mkInput (Value i) false (inputWidth i).

(** ** Messages *)

Inductive KeyMsg :=
| KeyRunes (rs : gostring)
| KeyCtrlC | KeyEnter | KeyEsc | KeyUp | KeyDown | KeyPgUp | KeyPgDown
| KeyOther.

Inductive Msg :=
| TickMsg
| Key (k : KeyMsg)
| OtherMsg.      (* a message the type switch of Update has no case for *)

Record Event := mkEvent { ev_msg : Msg; ev_now : Time; ev_id : UUID }.

(** The commands [Update] returns; [CmdInput] and [CmdViewport] stand for
    whatever the two components' own [Update] returned. *)
Inductive BaseCmd := CmdQuit | CmdBlink | CmdTick | CmdInput | CmdViewport.

Inductive Cmd :=
| Single (c : BaseCmd)
| Batch (cs : list BaseCmd).

(** The bindings of [initializeStyles]. *)
Inductive Binding :=
| Add | Delete | Toggle | Complete | Up | Down | Quit | Enter | Esc
| ScrollUp | ScrollDown | ToggleLineNumbers | ToggleCalendar.

Definition isRune (k : KeyMsg) (c : Z) : bool :=
  match k with
  | KeyRunes [r] => r =? c
  | _ => false
  end.

(** [key.Matches(msg, binding)]: the key's name is one of the binding's keys. *)
Definition Matches (k : KeyMsg) (b : Binding) : bool :=
  match b with
  | Add => isRune k 97
  | Delete => isRune k 100
  | Toggle => isRune k 115
  | Complete => isRune k 99
  | Up => match k with KeyUp => true | _ => false end
  | Down => match k with KeyDown => true | _ => false end
  | Quit => isRune k 113 || match k with KeyCtrlC => true | _ => false end
  | Enter => match k with KeyEnter => true | _ => false end
  | Esc => match k with KeyEsc => true | _ => false end
  | ScrollUp => match k with KeyPgUp => true | _ => false end
  | ScrollDown => match k with KeyPgDown => true | _ => false end
  | ToggleLineNumbers => isRune k 110
  | ToggleCalendar => isRune k 106
  end.

(** ** The collaborators *)

Class Externals := {
  (* lipgloss.Width(s): the number of terminal cells the text takes, as the
     library measures it on the whole text; the width of a run of runes
     that form one cluster need not be the sum of the widths of its runes *)
  lipgloss_Width : gostring -> Z;
  (* textinput.Model.Update on a key *)
  textinput_Update : textinput -> KeyMsg -> textinput;
  (* viewport.Model.Update on a message *)
  viewport_Update : viewport -> Msg -> viewport;
  (* (t.Month(), t.Day()) *)
  time_MonthDay : Time -> Z * Z;
  (* month and day of jalaali.ToJalaali(t.In(time.UTC).Date()) *)
  jalaali_MonthDay : Time -> Z * Z
}.

(** A terminal of one-cell runes with inert components, for the examples. *)
Definition plainTerminal : Externals := {|
  lipgloss_Width := fun s => len s;
  textinput_Update := fun i _ => i;
  viewport_Update := fun v _ => v;
  time_MonthDay := fun _ => (1, 1);
  jalaali_MonthDay := fun _ => (1, 1)
|}.

(** The measure of a terminal that counts by cluster, on text made of
    one-cell characters and the variation selector U+FE0F: a character
    followed by the selector is shown as an emoji two cells wide; alone the
    character takes one cell and the selector none. *)
Fixpoint clusterWidth (s : gostring) : Z :=
  match s with
  | [] => 0
  | r :: rest =>
      if r =? 65039 then clusterWidth rest
      else match rest with
           | r2 :: rest' =>
               if r2 =? 65039 then 2 + clusterWidth rest'
               else 1 + clusterWidth rest
           | [] => 1
           end
  end.

Definition clusterTerminal : Externals := {|
  lipgloss_Width := clusterWidth;
  textinput_Update := fun i _ => i;
  viewport_Update := fun v _ => v;
  time_MonthDay := fun _ => (1, 1);
  jalaali_MonthDay := fun _ => (1, 1)
|}.

(** ** The session state *)

Inductive appMode := modeViewTasks | modeAddTask.

#[global] Instance appMode_eq_dec : EqDecision appMode.
Proof. solve_decision. Defined.

Record model := mkModel {
  tasks : list Task;
  cursor : Z;
  input : textinput;
  vp : viewport;
  width : Z;
  height : Z;
  mode : appMode;
  helpMsg : string;
  quitting : bool;
  err : option error;
  showLineNumbers : bool;
  ready : bool;
  useJalaliCalendar : bool
}.

Definition setTasks (ts : list Task) (m : model) : model :=
  mkModel ts (cursor m) (input m) (vp m) (width m) (height m) (mode m)
    (helpMsg m) (quitting m) (err m) (showLineNumbers m) (ready m) (useJalaliCalendar m).

Definition setCursor (c : Z) (m : model) : model :=
  mkModel (tasks m) c (input m) (vp m) (width m) (height m) (mode m)
    (helpMsg m) (quitting m) (err m) (showLineNumbers m) (ready m) (useJalaliCalendar m).

Definition setInput (i : textinput) (m : model) : model :=
  mkModel (tasks m) (cursor m) i (vp m) (width m) (height m) (mode m)
    (helpMsg m) (quitting m) (err m) (showLineNumbers m) (ready m) (useJalaliCalendar m).

Definition setViewport (v : viewport) (m : model) : model :=
  mkModel (tasks m) (cursor m) (input m) v (width m) (height m) (mode m)
    (helpMsg m) (quitting m) (err m) (showLineNumbers m) (ready m) (useJalaliCalendar m).

Definition setMode (md : appMode) (m : model) : model :=
  mkModel (tasks m) (cursor m) (input m) (vp m) (width m) (height m) md
    (helpMsg m) (quitting m) (err m) (showLineNumbers m) (ready m) (useJalaliCalendar m).

Definition setHelpMsg (h : string) (m : model) : model :=
  mkModel (tasks m) (cursor m) (input m) (vp m) (width m) (height m) (mode m)
    h (quitting m) (err m) (showLineNumbers m) (ready m) (useJalaliCalendar m).

Definition setQuitting (q : bool) (m : model) : model :=
  mkModel (tasks m) (cursor m) (input m) (vp m) (width m) (height m) (mode m)
    (helpMsg m) q (err m) (showLineNumbers m) (ready m) (useJalaliCalendar m).

Definition setErr (e : option error) (m : model) : model :=
  mkModel (tasks m) (cursor m) (input m) (vp m) (width m) (height m) (mode m)
    (helpMsg m) (quitting m) e (showLineNumbers m) (ready m) (useJalaliCalendar m).

Definition setShowLineNumbers (b : bool) (m : model) : model :=
  mkModel (tasks m) (cursor m) (input m) (vp m) (width m) (height m) (mode m)
    (helpMsg m) (quitting m) (err m) b (ready m) (useJalaliCalendar m).

Definition setUseJalaliCalendar (b : bool) (m : model) : model :=
  mkModel (tasks m) (cursor m) (input m) (vp m) (width m) (height m) (mode m)
    (helpMsg m) (quitting m) (err m) (showLineNumbers m) (ready m) b.

(** [generateHelp(m.keyMap, mode)] for the key map of [initializeStyles]. *)
Definition generateHelp (md : appMode) : string :=
  match md with
  | modeViewTasks =>
      String.concat " │ "
        ["a add task"; "d delete task"; "↑/↓ nav"; "s start/pause/resume";
         "c complete task"; "n toggle line #s"; "j toggle calendar (G/J)";
         "q quit"]%string
  | modeAddTask =>
      String.concat " │ " ["enter confirm (stay)"; "esc cancel/back"]%string
  end.

(** ** The program *)

Section Program.
Context {E : Externals}.

(** [lipgloss.Width(string(r))]: the measure of the text of one rune. *)
Definition runeWidth (r : rune) : Z := lipgloss_Width [r].

(** The widths of the runes of a text added up one by one: the value of
    [currentW] once the loop of [renderTasksView] has kept these runes. *)
Definition runesWidth (s : gostring) : Z :=
  fold_right (fun r w => runeWidth r + w) 0 s.

Definition statusInProgress : gostring := 9654 :: 65039 :: lit " In Progress".
Definition cursorStr : gostring := 10095 :: lit " ".
Definition ellipsis : gostring := lit "...".

(** The widths [initializeStyles] computes once. *)
Definition statusRenderWidth : Z := lipgloss_Width statusInProgress + 1.
Definition timeRenderWidth : Z := lipgloss_Width (lit "[00:00:00]") + 1.
Definition dateRenderWidth : Z := lipgloss_Width (lit "(00/00)") + 1.
Definition lineNumberWidth : Z := lipgloss_Width (lit "999. ").

(** The time field of a row: the time spent, plus the running interval. *)
Definition timeDisplay (now : Time) (task : Task) : Duration :=
  if decide (Status task = InProgress) then
    if negb (Time_IsZero (LastStartedAt task))
    then Duration_add (TimeSpent task) (time_Since now (LastStartedAt task))
    else TimeSpent task
  else TimeSpent task.

(** The width left for the description of row [i], floored at 5. *)
Definition descAvailableWidth (m : model) (i : nat) : Z :=
  let indentStr := if cursor m =? Z.of_nat i then cursorStr else lit "  " in
  let currentLineNumberWidth := if showLineNumbers m then lineNumberWidth else 0 in
  let w := Width (vp m) - lipgloss_Width indentStr - currentLineNumberWidth
           - statusRenderWidth - dateRenderWidth - timeRenderWidth
           - lipgloss_Width (lit "   ") in
  if w <? 5 then 5 else w.

(** The loop over the runes of the description: runes are kept while the
    width so far plus the next rune fits in [limit]. *)
Fixpoint truncatedRunes (limit : Z) (currentW : Z) (runes : list rune) : list rune :=
  match runes with
  | [] => []
  | r :: rest =>
      let runeW := runeWidth r in
      if limit <? currentW + runeW then []
      else r :: truncatedRunes limit (currentW + runeW) rest
  end.

(** The description as it is shown in a budget of [avail] columns. *)
Definition descText (avail : Z) (desc : gostring) : gostring :=
  if avail <? lipgloss_Width desc
  then truncatedRunes (avail - lipgloss_Width ellipsis) 0 desc ++ ellipsis
  else desc.

Definition renderTasksView (now : Time) (m : model) : list Row :=
  imap (fun i task =>
          mkRow (cursor m =? Z.of_nat i)
                (if showLineNumbers m then Some (Z.of_nat i + 1) else None)
                (Status task)
                (if useJalaliCalendar m then jalaali_MonthDay (CreatedAt task)
                 else time_MonthDay (CreatedAt task))
                (descText (descAvailableWidth m i) (Description task))
                (timeDisplay now task))
       (tasks m).

(** The three counters of the stats bar: pending, in progress, completed. *)
Definition renderStatsBar (m : model) : Z * Z * Z :=
  fold_left (fun '(p, i, c) task =>
               match Status task with
               | Pending => (p + 1, i, c)
               | InProgress => (p, i + 1, c)
               | Completed => (p, i, c + 1)
               | Paused => (p, i, c)
               end)
            (tasks m) (0, 0, 0).

Definition ensureCursorVisible (m : model) : model :=
  if len (tasks m) =? 0 then m
  else
    let cursorLine := cursor m in
    if cursorLine <? YOffset (vp m) then
      setViewport (SetYOffset cursorLine (vp m)) m
    else if YOffset (vp m) + Height (vp m) <=? cursorLine then
      setViewport (SetYOffset (cursorLine - Height (vp m) + 1) (vp m)) m
    else m.

(** The head of the key case: a pending error is dropped on any key but the
    quit keys, unless it is the error of a missing file. *)
Definition clearErr (k : KeyMsg) (m : model) : model :=
  match err m with
  | Some e =>
      if negb (match k with KeyCtrlC => true | _ => false end) && negb (isRune k 113)
      then (if negb (os_IsNotExist e) then setErr None m else m)
      else m
  | None => m
  end.

(** What a case of the switch does: return at once, or fall to the end of
    [Update] with the commands collected so far. *)
Inductive Flow :=
| Return (m : model) (c : Cmd) (f : File)
| Continue (m : model) (cmds : list BaseCmd).

Definition flowModel (fl : Flow) : model :=
  match fl with Return m _ _ => m | Continue m _ => m end.

(** The loop of the quit case. *)
Definition pauseAll (now : Time) (ts : list Task) : list Task :=
  (fun t => if decide (Status t = InProgress)
            then setStatus Paused (accrue now t) else t) <$> ts.

(** The loop of the toggle case: every running task but the one at the cursor. *)
Definition pauseOthers (now : Time) (cur : Z) (ts : list Task) : list Task :=
  imap (fun i t => if decide (Status t = InProgress)
                   then (if negb (Z.of_nat i =? cur)
                         then setStatus Paused (accrue now t) else t)
                   else t) ts.

Definition quitCase (now : Time) (m : model) (f : File) : option Flow :=
  let m := setQuitting true m in
  let m := setTasks (pauseAll now (tasks m)) m in
  let '(f', e) := saveTasksToFile f (tasks m) in
  let m := match e with
           | Some e => setErr (Some (Errorf errorSave e)) m
           | None => m
           end in
  Some (Return m (Single CmdQuit) f').

Definition addCase (m : model) (f : File) : option Flow :=
  let m := setMode modeAddTask m in
  let m := setInput (Focus (SetValue [] (input m))) m in
  let m := setHelpMsg (generateHelp modeAddTask) m in
  Some (Return m (Single CmdBlink) f).

Definition deleteCase (m : model) (f : File) : option Flow :=
  if (0 <? len (tasks m)) && (cursor m <? len (tasks m)) then
    if cursor m <? 0 then None
    else
      let c := Z.to_nat (cursor m) in
      let m := setTasks (take c (tasks m) ++ drop (S c) (tasks m)) m in
      if (len (tasks m) <=? cursor m) && (0 <? len (tasks m)) then
        Some (Continue (setCursor (len (tasks m) - 1) m) [])
      else if len (tasks m) =? 0 then
        let m := setCursor 0 m in
        let m := setMode modeAddTask m in
        let m := setInput (Focus (input m)) m in
        let m := setHelpMsg (generateHelp modeAddTask) m in
        Some (Return m (Single CmdBlink) f)
      else Some (Continue m [])
  else Some (Continue m []).

Definition upCase (m : model) : option Flow :=
  if 0 <? len (tasks m) then
    if 0 <? cursor m then
      Some (Continue (ensureCursorVisible (setCursor (cursor m - 1) m)) [])
    else Some (Continue m [])
  else Some (Continue m []).

Definition downCase (m : model) : option Flow :=
  if 0 <? len (tasks m) then
    if cursor m <? len (tasks m) - 1 then
      Some (Continue (ensureCursorVisible (setCursor (cursor m + 1) m)) [])
    else Some (Continue m [])
  else Some (Continue m []).

(** [task := &m.tasks[m.cursor]] points into the slice; the loop over the
    other tasks never writes at the cursor, so the task read before it is
    the one updated after it. *)
Definition toggleCase (now : Time) (m : model) : option Flow :=
  if (0 <? len (tasks m)) && (cursor m <? len (tasks m)) then
    task ← index (tasks m) (cursor m);
    let c := Z.to_nat (cursor m) in
    match Status task with
    | Pending | Paused =>
        let ts := pauseOthers now (cursor m) (tasks m) in
        Some (Continue
                (setTasks (<[c := setLastStartedAt now (setStatus InProgress task)]> ts) m)
                [])
    | InProgress =>
        Some (Continue
                (setTasks (<[c := accrue now (setStatus Paused task)]> (tasks m)) m)
                [])
    | Completed => Some (Continue m [])
    end
  else Some (Continue m []).

Definition completeCase (now : Time) (m : model) : option Flow :=
  if (0 <? len (tasks m)) && (cursor m <? len (tasks m)) then
    task ← index (tasks m) (cursor m);
    let c := Z.to_nat (cursor m) in
    let task := if decide (Status task = InProgress) then accrue now task else task in
    Some (Continue (setTasks (<[c := setStatus Completed task]> (tasks m)) m) [])
  else Some (Continue m []).

Definition enterCase (now : Time) (id : UUID) (m : model) : option Flow :=
  if decide (strings_TrimSpace (Value (input m)) = []) then Some (Continue m [])
  else
    let newTask := mkTask id (Value (input m)) Pending 0 0 now in
    let m := setTasks (newTask :: tasks m) m in
    let m := setInput (SetValue [] (input m)) m in
    let m := setCursor 0 m in
    Some (Continue m []).

Definition escCase (m : model) : option Flow :=
  let m := setMode modeViewTasks m in
  let m := setInput (SetValue [] (Blur (input m))) m in
  let m := setHelpMsg (generateHelp modeViewTasks) m in
  Some (Continue m []).

(** The key case of the type switch. *)
Definition keyCase (ev : Event) (k : KeyMsg) (m : model) (f : File) : option Flow :=
  let now := ev_now ev in
  let m := clearErr k m in
  match mode m with
  | modeViewTasks =>
      if Matches k ToggleLineNumbers then
        let m := setShowLineNumbers (negb (showLineNumbers m)) m in
        Some (Continue (setViewport (SetContent (renderTasksView now m) (vp m)) m) [])
      else if Matches k ToggleCalendar then
        let m := setUseJalaliCalendar (negb (useJalaliCalendar m)) m in
        Some (Continue (setViewport (SetContent (renderTasksView now m) (vp m)) m) [])
      else if Matches k Quit then quitCase now m f
      else if Matches k Add then addCase m f
      else if Matches k Delete then deleteCase m f
      else if Matches k Up then upCase m
      else if Matches k Down then downCase m
      else if Matches k Toggle then toggleCase now m
      else if Matches k Complete then completeCase now m
      else Some (Continue m [])
  | modeAddTask =>
      if Matches k Enter then enterCase now (ev_id ev) m
      else if Matches k Esc then escCase m
      else Some (Continue (setInput (textinput_Update (input m) k) m) [CmdInput])
  end.

(** The end of [Update]: the cursor is brought back into the slice, the
    list is rendered again and the message is passed on to the viewport. *)
Definition finish (ev : Event) (m : model) (cmds : list BaseCmd) : model * Cmd :=
  let m :=
    if 0 <? len (tasks m) then
      let m := if len (tasks m) <=? cursor m
               then setCursor (len (tasks m) - 1) m else m in
      if cursor m <? 0 then setCursor 0 m else m
    else setCursor 0 m in
  let m := setViewport (SetContent (renderTasksView (ev_now ev) m) (vp m)) m in
  let m := setViewport (viewport_Update (vp m) (ev_msg ev)) m in
  (m, Batch (cmds ++ [CmdViewport])).

(** [Update] on the tick, key and unhandled messages (the window-size case
    lays the screen out through [lipgloss] and is left out). *)
Definition Update (ev : Event) (m : model) (f : File) : option (model * Cmd * File) :=
  match ev_msg ev with
  | TickMsg => Some (m, Single CmdTick, f)
  | Key k =>
      flow ← keyCase ev k m f;
      match flow with
      | Return m c f' => Some (m, c, f')
      | Continue m cmds => Some (finish ev m cmds, f)
      end
  | OtherMsg => Some (finish ev m [], f)
  end.

(** The error [View] shows, on the screen or in the farewell. *)
Definition shownError (m : model) : option error :=
  match err m with
  | Some e => if negb (os_IsNotExist e) then Some e else None
  | None => None
  end.

Inductive Body :=
| BodyInput (i : textinput)
| BodyNoTasks
| BodyList (v : viewport).

Inductive Frame :=
| Initializing
| Farewell (errorLine : option error)
| Screen (errorBand : option error) (stats : Z * Z * Z) (jalali : bool)
         (body : Body) (help : string).

Definition View (m : model) : Frame :=
  if negb (ready m) then Initializing
  else if quitting m then Farewell (shownError m)
  else Screen (shownError m) (renderStatsBar m) (useJalaliCalendar m)
         (match mode m with
          | modeAddTask => BodyInput (input m)
          | modeViewTasks =>
              if len (tasks m) =? 0 then BodyNoTasks else BodyList (vp m)
          end)
         (helpMsg m).

(** [initialModel]: the model, and the error written to the standard error
    stream if any. *)
Definition initialModel (f : File) : model * option error :=
  let '(loadedTasks, loadErr) := loadTasksFromFile f in
  let logged := match loadErr with
                | Some e => if negb (os_IsNotExist e) then Some e else None
                | None => None
                end in
  let ti := mkInput [] false 50 in
  let v := mkViewport 0 20 80 [] in
  let startAdding := (len loadedTasks =? 0) && negb (bool_decide (is_Some loadErr)) in
  let md := if startAdding then modeAddTask else modeViewTasks in
  (mkModel loadedTasks 0 (if startAdding then Focus ti else Blur ti) v 0 0 md
     (generateHelp md) false loadErr false false false,
   logged).

(** ** Sessions *)

Definition toggleKey : KeyMsg := KeyRunes [115].
Definition completeKey : KeyMsg := KeyRunes [99].
Definition quitKey : KeyMsg := KeyRunes [113].

(** A toggle action at time [now] after the cursor was put at [c]. *)
Definition toggleAt (c : nat) (now : Time) (m : model) (f : File)
  : option (model * Cmd * File) :=
  Update (mkEvent (Key toggleKey) now 0) (setCursor (Z.of_nat c) m) f.

(** The states observed after each toggle of a sequence. *)
Fixpoint runToggles (steps : list (nat * Time)) (m : model) (f : File)
  : option (list model) :=
  match steps with
  | [] => Some []
  | (c, now) :: rest =>
      r ← toggleAt c now m f;
      states ← runToggles rest r.1.1 r.2;
      Some (r.1.1 :: states)
  end.

(** The states observed after each event of a session. *)
Fixpoint run (evs : list Event) (m : model) (f : File) : option (list model) :=
  match evs with
  | [] => Some []
  | ev :: rest =>
      r ← Update ev m f;
      states ← run rest r.1.1 r.2;
      Some (r.1.1 :: states)
  end.

(** The number of running tasks, and invariant I1. *)
Definition inProgressCount (ts : list Task) : nat :=
  length (filter (fun t => Status t = InProgress) ts).

Definition I1 (m : model) : Prop := (inProgressCount (tasks m) <= 1)%nat.

End Program.

(** ** Words of the specification *)

Definition running (t : Task) : Prop := Status t = InProgress.

(** [t'] is [t] stopped at [now]: paused, its running interval added to the
    time spent (nothing is added when the start instant is the zero time),
    every other field kept. *)
Definition stoppedAt (now : Time) (t t' : Task) : Prop :=
  t' = mkTask (ID t) (Description t) Paused
         (if Time_IsZero (LastStartedAt t) then TimeSpent t
          else Duration_add (TimeSpent t) (time_Since now (LastStartedAt t)))
         (LastStartedAt t) (CreatedAt t).

(** A text with nothing but white space in it (the empty text is one). *)
Definition blank (s : gostring) : Prop := Forall (fun r => unicode_IsSpace r = true) s.

(** The fields of the session that the boundary moves of the cursor leave
    as they are: all but the pending error and the viewport. *)
Definition sameSession (m m' : model) : Prop :=
  tasks m' = tasks m /\ cursor m' = cursor m /\ input m' = input m /\
  width m' = width m /\ height m' = height m /\ mode m' = mode m /\
  helpMsg m' = helpMsg m /\ quitting m' = quitting m /\
  showLineNumbers m' = showLineNumbers m /\ ready m' = ready m /\
  useJalaliCalendar m' = useJalaliCalendar m.

(** ** Example sessions *)

Definition exampleTask (id : UUID) (s : TaskStatus) (spent : Duration) (started : Time) : Task :=
  mkTask id (lit "write report") s spent started 63000000000000000000.

(** A session in the list view, on a terminal of 80 by 24. *)
Definition viewing (ts : list Task) (c : Z) (e : option error) (v : viewport) : model :=
  mkModel ts c (mkInput [] false 50) v 80 24 modeViewTasks
    (generateHelp modeViewTasks) false e false true false.

(** A session in the input view with [text] typed in. *)
Definition adding (ts : list Task) (text : gostring) : model :=
  mkModel ts 0 (mkInput text true 50) (mkViewport 0 20 80 []) 80 24 modeAddTask
    (generateHelp modeAddTask) false None false true false.

Definition screen : viewport := mkViewport 0 20 80 [].

(** A clock reading of the present day, in nanoseconds since the zero time. *)
Definition today : Time := 63900000000000000000.

Definition emptyFile : File := mkFile NoFile true.

(** A stored task that claims to be in progress with no start instant. *)
Definition craftedTask : Task := exampleTask 1 InProgress (90 * Second) 0.

(** Two tasks, the second of them running since [today]. *)
Definition twoTasks : list Task :=
  [exampleTask 1 Pending 0 0; exampleTask 2 InProgress (30 * Second) today].

Definition twentyTasks : list Task := replicate 20 (exampleTask 1 Pending 0 0).

(** The session after a quit whose save failed. *)
Definition failedQuit : model :=
  mkModel [exampleTask 1 Paused (30 * Second) today] 0 (mkInput [] false 50) screen
    80 24 modeViewTasks (generateHelp modeViewTasks) true
    (Some (Errorf errorSave (Errorf errorWriteTasks ErrOS))) false true false.

(** ** The duration formatter *)

Definition Minute : Duration := 60 * Second.
Definition Hour : Duration := 60 * Minute.

(** [int64] subtraction and multiplication of durations. *)
Definition Duration_sub (a b : Duration) : Duration :=
  (a - b + 2 ^ 63) mod 2 ^ 64 - 2 ^ 63.

Definition Duration_mul (a b : Duration) : Duration :=
  (a * b + 2 ^ 63) mod 2 ^ 64 - 2 ^ 63.

(** [lessThanHalf(x, y)] of package time: [uint64(x)+uint64(x) < uint64(y)]. *)
Definition lessThanHalf (x y : Duration) : bool :=
  (x mod 2 ^ 64 + x mod 2 ^ 64) mod 2 ^ 64 <? y mod 2 ^ 64.

(** [d.Round(m)]: the nearest multiple of [m], halves away from zero, the
    extreme duration when the result does not fit. *)
Definition Duration_Round (d m : Duration) : Duration :=
  if m <=? 0 then d
  else
    let r := Z.rem d m in
    if d <? 0 then
      let r := - r in
      if lessThanHalf r m then Duration_add d r
      else
        let d1 := Duration_add (Duration_sub d m) r in
        if d1 <? d then d1 else minDuration
    else
      if lessThanHalf r m then Duration_sub d r
      else
        let d1 := Duration_sub (Duration_add d m) r in
        if d <? d1 then d1 else maxDuration.

(** The decimal digits of a number that is not negative, most significant
    first; [fuel] bounds the number of digits. *)
Fixpoint digitsOf (fuel : nat) (n : Z) (acc : gostring) : gostring :=
  match fuel with
  | O => acc
  | S fuel' =>
      if n <? 10 then (48 + n) :: acc
      else digitsOf fuel' (n / 10) ((48 + n mod 10) :: acc)
  end.

Definition decimal (n : Z) : gostring := digitsOf (S (Z.to_nat (Z.log2 n))) n [].

(** The verb [%02d] of [fmt.Sprintf]: at least two characters, padded with
    zeros after the sign. *)
Definition Sprintf_02d (n : Z) : gostring :=
  if n <? 0 then 45 :: decimal (- n)
  else replicate (2 - length (decimal n)) 48 ++ decimal n.

(** The three integers [formatDuration] prints: hours, minutes, seconds. *)
Definition formatDuration_hms (d : Duration) : Z * Z * Z :=
  let d := Duration_Round d Second in
  let h := Z.quot d Hour in
  let d := Duration_sub d (Duration_mul h Hour) in
  let m := Z.quot d Minute in
  let d := Duration_sub d (Duration_mul m Minute) in
  let s := Z.quot d Second in
  (h, m, s).

Definition formatDuration (d : Duration) : gostring :=
  let '(h, m, s) := formatDuration_hms d in
  Sprintf_02d h ++ lit ":" ++ Sprintf_02d m ++ lit ":" ++ Sprintf_02d s.

(** ** More words for the session *)

(** The cursor points into the store, or is 0 on an empty store. *)
Definition validCursor (m : model) : Prop :=
  0 <= cursor m /\ cursor m < Z.max 1 (len (tasks m)).

(** The help text is the one of the mode. *)
Definition helpInStep (m : model) : Prop := helpMsg m = generateHelp (mode m).

(** A duration is an [int64]. *)
Definition fitsDuration (d : Z) : Prop := minDuration <= d <= maxDuration.

(** The number of tasks with a given status. *)
Definition countStatus (s : TaskStatus) (ts : list Task) : Z :=
  Z.of_nat (length (filter (fun t => Status t = s) ts)).

Definition deleteKey : KeyMsg := KeyRunes [100].
Definition addKey : KeyMsg := KeyRunes [97].

(** A key other than the two the head of the key case leaves errors to. *)
Definition clearsErrors (k : KeyMsg) : bool :=
  negb (match k with KeyCtrlC => true | _ => false end) && negb (isRune k 113).

(** A list view too narrow for its descriptions. *)
Definition narrowScreen : viewport := mkViewport 0 20 40 [].

Definition garbledFile : File := mkFile Malformed true.

Definition threeTasks : list Task :=
  [exampleTask 1 Pending 0 0; exampleTask 2 InProgress (30 * Second) today;
   exampleTask 3 Completed (45 * Second) today].

(** Six play signs, each followed by the variation selector U+FE0F, and a
    task described by them. *)
Definition playSigns : gostring := concat (replicate 6 [9654; 65039]).

Definition playTask : Task := mkTask 1 playSigns Pending 0 0 today.

(** A list view that leaves ten columns to a description. *)
Definition playScreen : viewport := mkViewport 0 20 49 [].

(** * Properties *)

(** ** Slices and indices *)

Lemma index_Some {A} (l : list A) (i : Z) (x : A) :
  index l i = Some x <-> 0 <= i /\ l !! Z.to_nat i = Some x.
Proof.
  unfold index. destruct (Z.leb_spec 0 i); split.
  - intros; split; [lia | done].
  - intros [_ ?]; done.
  - discriminate.
  - intros [? _]; lia.
Qed.

Lemma index_in_range {A} (l : list A) (i : Z) :
  0 <= i -> i < len l -> exists x, index l i = Some x /\ l !! Z.to_nat i = Some x.
Proof.
  intros H0 Hlt. unfold len in Hlt.
  destruct (lookup_lt_is_Some_2 l (Z.to_nat i)) as [x Hx]; [lia |].
  exists x. split; [apply index_Some; split; [lia | done] | done].
Qed.

Lemma index_of_nat {A} (l : list A) (n : nat) : index l (Z.of_nat n) = l !! n.
Proof.
  unfold index. destruct (Z.leb_spec 0 (Z.of_nat n)); [| lia].
  by rewrite Nat2Z.id.
Qed.

(** ** Counting the running tasks *)

Lemma inProgressCount_cons t l :
  inProgressCount (t :: l) =
  if decide (Status t = InProgress) then S (inProgressCount l) else inProgressCount l.
Proof.
  unfold inProgressCount. rewrite filter_cons.
  destruct (decide (Status t = InProgress)); reflexivity.
Qed.

Lemma inProgressCount_app l1 l2 :
  inProgressCount (l1 ++ l2) = (inProgressCount l1 + inProgressCount l2)%nat.
Proof. unfold inProgressCount. by rewrite filter_app, length_app. Qed.

Lemma inProgressCount_zero l :
  inProgressCount l = 0%nat <-> forall i t, l !! i = Some t -> ~ running t.
Proof.
  induction l as [| a l IH].
  - split; [intros _ i t Hi; destruct i; discriminate | reflexivity].
  - rewrite inProgressCount_cons. split.
    + intros Hc [| i] t Hi; simpl in Hi.
      * injection Hi as <-. destruct (decide (Status a = InProgress)); [discriminate | done].
      * destruct (decide (Status a = InProgress)); [discriminate |].
        eapply (proj1 IH Hc); eassumption.
    + intros Hall. destruct (decide (Status a = InProgress)) as [Ha | Ha].
      * exfalso. by apply (Hall 0%nat a).
      * apply IH. intros i t Hi. by apply (Hall (S i) t).
Qed.

(** At most one running task: no two positions hold a running task. *)
Lemma inProgressCount_le_1 l :
  (inProgressCount l <= 1)%nat <->
  forall i j ti tj, l !! i = Some ti -> l !! j = Some tj ->
                    running ti -> running tj -> i = j.
Proof.
  induction l as [| a l IH].
  - split; [intros _ i j ti tj Hi; destruct i; discriminate | simpl; intros; unfold inProgressCount; simpl; lia].
  - rewrite inProgressCount_cons. split.
    + intros Hc i j ti tj Hi Hj Ri Rj.
      destruct (decide (Status a = InProgress)) as [Ha | Ha].
      * assert (Hz : inProgressCount l = 0%nat) by lia.
        pose proof (proj1 (inProgressCount_zero l) Hz) as Hnone.
        destruct i as [| i], j as [| j]; simpl in *; try done.
        -- exfalso. by apply (Hnone j tj).
        -- exfalso. by apply (Hnone i ti).
        -- exfalso. by apply (Hnone i ti).
      * destruct i as [| i], j as [| j]; simpl in *.
        -- done.
        -- injection Hi as <-. done.
        -- injection Hj as <-. done.
        -- f_equal. eapply (proj1 IH Hc); eassumption.
    + intros Hu. destruct (decide (Status a = InProgress)) as [Ha | Ha].
      * assert (Hz : inProgressCount l = 0%nat); [| lia].
        apply inProgressCount_zero. intros i t Hi Ri.
        specialize (Hu 0%nat (S i) a t eq_refl Hi Ha Ri). discriminate.
      * apply IH. intros i j ti tj Hi Hj Ri Rj.
        specialize (Hu (S i) (S j) ti tj Hi Hj Ri Rj). by injection Hu.
Qed.

(** A list whose running tasks are all running tasks of [l], position by
    position, has no more of them than [l]. *)
Lemma inProgressCount_le_1_mono l l' :
  (forall i t', l' !! i = Some t' -> running t' ->
                exists t, l !! i = Some t /\ running t) ->
  (inProgressCount l <= 1)%nat -> (inProgressCount l' <= 1)%nat.
Proof.
  intros Hsub Hl. apply inProgressCount_le_1.
  intros i j ti tj Hi Hj Ri Rj.
  destruct (Hsub i ti Hi Ri) as (ui & Hui & Rui).
  destruct (Hsub j tj Hj Rj) as (uj & Huj & Ruj).
  eapply (proj1 (inProgressCount_le_1 l) Hl); eauto.
Qed.

Section Lifecycle.
Context {E : Externals}.

(** ** What the common parts of [Update] leave alone *)

Lemma clearErr_cases k m : clearErr k m = m \/ clearErr k m = setErr None m.
Proof.
  unfold clearErr. destruct (err m) as [e |]; [| by left].
  destruct (negb _ && negb _); [| by left].
  destruct (negb (os_IsNotExist e)); [by right | by left].
Qed.

Lemma clearErr_tasks k m : tasks (clearErr k m) = tasks m.
Proof. destruct (clearErr_cases k m) as [-> | ->]; reflexivity. Qed.

Lemma clearErr_cursor k m : cursor (clearErr k m) = cursor m.
Proof. destruct (clearErr_cases k m) as [-> | ->]; reflexivity. Qed.

Lemma clearErr_mode k m : mode (clearErr k m) = mode m.
Proof. destruct (clearErr_cases k m) as [-> | ->]; reflexivity. Qed.

Lemma clearErr_input k m : input (clearErr k m) = input m.
Proof. destruct (clearErr_cases k m) as [-> | ->]; reflexivity. Qed.

Lemma clearErr_vp k m : vp (clearErr k m) = vp m.
Proof. destruct (clearErr_cases k m) as [-> | ->]; reflexivity. Qed.

(** No key sets an error that was not there. *)
Lemma clearErr_err k m : err (clearErr k m) = None \/ err (clearErr k m) = err m.
Proof. destruct (clearErr_cases k m) as [-> | ->]; [by right | by left]. Qed.

Lemma ensureCursorVisible_tasks m : tasks (ensureCursorVisible m) = tasks m.
Proof.
  unfold ensureCursorVisible.
  destruct (len (tasks m) =? 0); [done |].
  destruct (cursor m <? YOffset (vp m)); [done |].
  destruct (YOffset (vp m) + Height (vp m) <=? cursor m); done.
Qed.

Lemma ensureCursorVisible_cursor m : cursor (ensureCursorVisible m) = cursor m.
Proof.
  unfold ensureCursorVisible.
  destruct (len (tasks m) =? 0); [done |].
  destruct (cursor m <? YOffset (vp m)); [done |].
  destruct (YOffset (vp m) + Height (vp m) <=? cursor m); done.
Qed.

Lemma finish_tasks ev m cmds : tasks (finish ev m cmds).1 = tasks m.
Proof.
  unfold finish; simpl.
  destruct (0 <? len (tasks m)); [| done].
  destruct (len (tasks m) <=? cursor m); simpl.
  - destruct (len (tasks m) - 1 <? 0); done.
  - destruct (cursor m <? 0); done.
Qed.

Lemma finish_cursor ev m cmds :
  0 <= cursor (finish ev m cmds).1 /\
  (0 <= cursor m < len (tasks m) -> cursor (finish ev m cmds).1 = cursor m).
Proof.
  unfold finish; simpl.
  destruct (Z.ltb_spec 0 (len (tasks m))); simpl; [| split; lia].
  destruct (Z.leb_spec (len (tasks m)) (cursor m)); simpl.
  - destruct (Z.ltb_spec (len (tasks m) - 1) 0); simpl; split; lia.
  - destruct (Z.ltb_spec (cursor m) 0); simpl; split; lia.
Qed.

Lemma finish_mode ev m cmds : mode (finish ev m cmds).1 = mode m.
Proof.
  unfold finish; simpl.
  destruct (0 <? len (tasks m)); [| done].
  destruct (len (tasks m) <=? cursor m); simpl.
  - destruct (len (tasks m) - 1 <? 0); done.
  - destruct (cursor m <? 0); done.
Qed.

Lemma finish_err ev m cmds : err (finish ev m cmds).1 = err m.
Proof.
  unfold finish; simpl.
  destruct (0 <? len (tasks m)); [| done].
  destruct (len (tasks m) <=? cursor m); simpl.
  - destruct (len (tasks m) - 1 <? 0); done.
  - destruct (cursor m <? 0); done.
Qed.

(** ** The two loops *)

Lemma pauseOthers_lookup now cur ts i :
  pauseOthers now cur ts !! i =
  (fun t => if decide (Status t = InProgress)
            then (if negb (Z.of_nat i =? cur)
                  then setStatus Paused (accrue now t) else t)
            else t) <$> ts !! i.
Proof. unfold pauseOthers. by rewrite list_lookup_imap. Qed.

Lemma pauseOthers_length now cur ts : length (pauseOthers now cur ts) = length ts.
Proof. unfold pauseOthers. by rewrite length_imap. Qed.

Lemma pauseAll_lookup now ts i :
  pauseAll now ts !! i =
  (fun t => if decide (Status t = InProgress)
            then setStatus Paused (accrue now t) else t) <$> ts !! i.
Proof. unfold pauseAll. by rewrite list_lookup_fmap. Qed.

Lemma accrue_Status now t : Status (accrue now t) = Status t.
Proof. unfold accrue. destruct (negb _); reflexivity. Qed.

Lemma accrue_LastStartedAt now t : LastStartedAt (accrue now t) = LastStartedAt t.
Proof. unfold accrue. destruct (negb _); reflexivity. Qed.

(** The accrual adds nothing when the start instant is the zero time. *)
Lemma accrue_zero now t : LastStartedAt t = 0 -> accrue now t = t.
Proof. intros H. unfold accrue, Time_IsZero. rewrite H. reflexivity. Qed.

(** Within the range of a [Duration] the accrual adds the elapsed interval. *)
Lemma accrue_exact now t :
  LastStartedAt t <> 0 ->
  minDuration <= now - LastStartedAt t <= maxDuration ->
  minDuration <= TimeSpent t + (now - LastStartedAt t) <= maxDuration ->
  TimeSpent (accrue now t) = TimeSpent t + (now - LastStartedAt t).
Proof.
  intros Hnz Hd Hs. unfold accrue, Time_IsZero.
  destruct (Z.eqb_spec (LastStartedAt t) 0) as [| _]; [done |]. simpl.
  unfold time_Since, Time_Sub.
  destruct (Z.ltb_spec (now - LastStartedAt t) minDuration); [lia |].
  destruct (Z.ltb_spec maxDuration (now - LastStartedAt t)); [lia |].
  unfold Duration_add. unfold minDuration, maxDuration in *.
  rewrite Z.mod_small; lia.
Qed.

Lemma pauseAll_none_running now ts i t :
  pauseAll now ts !! i = Some t -> ~ running t.
Proof.
  rewrite pauseAll_lookup. destruct (ts !! i) as [u |]; [| discriminate].
  simpl. intros [= <-]. unfold running.
  destruct (decide (Status u = InProgress)); simpl; [discriminate | done].
Qed.

End Lifecycle.

Section Cases.
Context {E : Externals}.

(** ** The toggle case *)

Lemma toggleCase_out now m :
  len (tasks m) <= cursor m -> toggleCase now m = Some (Continue m []).
Proof.
  intros H. unfold toggleCase.
  destruct (Z.ltb_spec 0 (len (tasks m))); simpl; [| done].
  destruct (Z.ltb_spec (cursor m) (len (tasks m))); [lia | done].
Qed.

Lemma toggleCase_at now m t :
  0 <= cursor m -> tasks m !! Z.to_nat (cursor m) = Some t ->
  toggleCase now m =
  Some (Continue
          match Status t with
          | Pending | Paused =>
              setTasks (<[Z.to_nat (cursor m) :=
                            setLastStartedAt now (setStatus InProgress t)]>
                          (pauseOthers now (cursor m) (tasks m))) m
          | InProgress =>
              setTasks (<[Z.to_nat (cursor m) := accrue now (setStatus Paused t)]>
                          (tasks m)) m
          | Completed => m
          end []).
Proof.
  intros H0 Ht. unfold toggleCase.
  pose proof (lookup_lt_Some _ _ _ Ht) as Hlt.
  assert (Hc : cursor m < len (tasks m)) by (unfold len; lia).
  destruct (Z.ltb_spec 0 (len (tasks m))); [| lia].
  destruct (Z.ltb_spec (cursor m) (len (tasks m))); [| lia]. simpl.
  rewrite (proj2 (index_Some (tasks m) (cursor m) t)); [| done]. simpl.
  destruct (Status t); reflexivity.
Qed.

Lemma toggleCase_total now m :
  0 <= cursor m ->
  exists m', toggleCase now m = Some (Continue m' []) /\
             cursor m' = cursor m /\ mode m' = mode m /\
             length (tasks m') = length (tasks m).
Proof.
  intros H0. destruct (Z.lt_ge_cases (cursor m) (len (tasks m))) as [Hlt | Hge].
  - destruct (index_in_range (tasks m) (cursor m) H0 Hlt) as (t & _ & Ht).
    rewrite (toggleCase_at now m t H0 Ht). eexists; split; [reflexivity |].
    destruct (Status t); simpl;
      rewrite ?length_insert, ?pauseOthers_length; done.
  - rewrite (toggleCase_out now m Hge). by exists m.
Qed.

Lemma toggleCase_I1 now m fl :
  toggleCase now m = Some fl ->
  (inProgressCount (tasks m) <= 1)%nat ->
  (inProgressCount (tasks (flowModel fl)) <= 1)%nat.
Proof.
  intros Hfl HI.
  destruct (Z.lt_ge_cases (cursor m) 0) as [Hneg | H0].
  { (* a negative cursor: the guard holds and the access panics, or the slice is empty *)
    unfold toggleCase in Hfl.
    destruct ((0 <? len (tasks m)) && (cursor m <? len (tasks m))).
    - unfold index in Hfl. destruct (Z.leb_spec 0 (cursor m)); [lia | discriminate].
    - by injection Hfl as <-. }
  destruct (Z.lt_ge_cases (cursor m) (len (tasks m))) as [Hlt | Hge].
  2:{ rewrite (toggleCase_out now m Hge) in Hfl. by injection Hfl as <-. }
  destruct (index_in_range (tasks m) (cursor m) H0 Hlt) as (t & _ & Ht).
  rewrite (toggleCase_at now m t H0 Ht) in Hfl. injection Hfl as <-. simpl.
  set (c := Z.to_nat (cursor m)) in *.
  assert (Hstart :
    (inProgressCount
       (<[c := setLastStartedAt now (setStatus InProgress t)]>
          (pauseOthers now (cursor m) (tasks m))) <= 1)%nat).
  { apply inProgressCount_le_1.
    assert (Honly : forall i u,
      <[c := setLastStartedAt now (setStatus InProgress t)]>
        (pauseOthers now (cursor m) (tasks m)) !! i = Some u -> running u -> i = c).
    { intros i u Hi Ru. destruct (decide (i = c)) as [| Hne]; [done | exfalso].
      rewrite list_lookup_insert_ne in Hi by done.
      rewrite pauseOthers_lookup in Hi.
      destruct (tasks m !! i) as [v |]; [| discriminate]. simpl in Hi.
      injection Hi as <-. unfold running in Ru.
      destruct (decide (Status v = InProgress)) as [Hv | Hv]; [| done].
      destruct (Z.eqb_spec (Z.of_nat i) (cursor m)) as [Heq | _]; simpl in Ru.
      - apply Hne. subst c. rewrite <- Heq. by rewrite Nat2Z.id.
      - discriminate. }
    intros i j ti tj Hi Hj Ri Rj.
    rewrite (Honly i ti Hi Ri), (Honly j tj Hj Rj). reflexivity. }
  destruct (Status t) eqn:Hst; simpl; try done.
  eapply inProgressCount_le_1_mono; [| exact HI].
  intros i u Hi Ru. destruct (decide (i = c)) as [-> | Hne].
  - rewrite list_lookup_insert_eq in Hi by (by eapply lookup_lt_Some).
    injection Hi as <-. unfold running in Ru. by rewrite accrue_Status in Ru.
  - rewrite list_lookup_insert_ne in Hi by done. eauto.
Qed.

(** ** The complete case *)

Lemma completeCase_out now m :
  len (tasks m) <= cursor m -> completeCase now m = Some (Continue m []).
Proof.
  intros H. unfold completeCase.
  destruct (Z.ltb_spec 0 (len (tasks m))); simpl; [| done].
  destruct (Z.ltb_spec (cursor m) (len (tasks m))); [lia | done].
Qed.

Lemma completeCase_at now m t :
  0 <= cursor m -> tasks m !! Z.to_nat (cursor m) = Some t ->
  completeCase now m =
  Some (Continue
          (setTasks (<[Z.to_nat (cursor m) :=
                        setStatus Completed
                          (if decide (Status t = InProgress) then accrue now t else t)]>
                      (tasks m)) m) []).
Proof.
  intros H0 Ht. unfold completeCase.
  pose proof (lookup_lt_Some _ _ _ Ht) as Hlt.
  destruct (Z.ltb_spec 0 (len (tasks m))); [| unfold len in *; lia].
  destruct (Z.ltb_spec (cursor m) (len (tasks m))); [| unfold len in *; lia]. simpl.
  rewrite (proj2 (index_Some (tasks m) (cursor m) t)); done.
Qed.

Lemma completeCase_total now m :
  0 <= cursor m ->
  exists m', completeCase now m = Some (Continue m' []) /\
             cursor m' = cursor m /\ mode m' = mode m /\
             length (tasks m') = length (tasks m).
Proof.
  intros H0. destruct (Z.lt_ge_cases (cursor m) (len (tasks m))) as [Hlt | Hge].
  - destruct (index_in_range (tasks m) (cursor m) H0 Hlt) as (t & _ & Ht).
    rewrite (completeCase_at now m t H0 Ht). eexists; split; [reflexivity |].
    simpl. by rewrite length_insert.
  - rewrite (completeCase_out now m Hge). by exists m.
Qed.

Lemma completeCase_I1 now m fl :
  completeCase now m = Some fl ->
  (inProgressCount (tasks m) <= 1)%nat ->
  (inProgressCount (tasks (flowModel fl)) <= 1)%nat.
Proof.
  intros Hfl HI.
  destruct (Z.lt_ge_cases (cursor m) 0) as [Hneg | H0].
  { unfold completeCase in Hfl.
    destruct ((0 <? len (tasks m)) && (cursor m <? len (tasks m))).
    - unfold index in Hfl. destruct (Z.leb_spec 0 (cursor m)); [lia | discriminate].
    - by injection Hfl as <-. }
  destruct (Z.lt_ge_cases (cursor m) (len (tasks m))) as [Hlt | Hge].
  2:{ rewrite (completeCase_out now m Hge) in Hfl. by injection Hfl as <-. }
  destruct (index_in_range (tasks m) (cursor m) H0 Hlt) as (t & _ & Ht).
  rewrite (completeCase_at now m t H0 Ht) in Hfl. injection Hfl as <-. simpl.
  eapply inProgressCount_le_1_mono; [| exact HI].
  intros i u Hi Ru. destruct (decide (i = Z.to_nat (cursor m))) as [-> | Hne].
  - rewrite list_lookup_insert_eq in Hi by (by eapply lookup_lt_Some).
    injection Hi as <-. discriminate.
  - rewrite list_lookup_insert_ne in Hi by done. eauto.
Qed.

End Cases.

Section Sessions.
Context {E : Externals}.

Lemma inProgressCount_delete c l :
  (inProgressCount (take c l ++ drop (S c) l) <= inProgressCount l)%nat.
Proof.
  destruct (l !! c) as [x |] eqn:Hc.
  - rewrite <- (take_drop_middle l c x Hc) at 3.
    rewrite !inProgressCount_app, inProgressCount_cons.
    destruct (decide (Status x = InProgress)); lia.
  - apply lookup_ge_None in Hc.
    rewrite take_ge, drop_ge by lia. rewrite app_nil_r. lia.
Qed.

(** The "In Progress" figure of the stats bar is the number of running
    tasks that invariant I1 bounds. *)
Lemma renderStatsBar_inProgress m :
  (renderStatsBar m).1.2 = Z.of_nat (inProgressCount (tasks m)).
Proof.
  unfold renderStatsBar.
  assert (H : forall ts p i c,
    (fold_left (fun '(p, i, c) task =>
                  match Status task with
                  | Pending => (p + 1, i, c)
                  | InProgress => (p, i + 1, c)
                  | Completed => (p, i, c + 1)
                  | Paused => (p, i, c)
                  end) ts (p, i, c)).1.2 = i + Z.of_nat (inProgressCount ts)).
  { induction ts as [| t ts IH]; intros p i c; simpl; [unfold inProgressCount; simpl; lia |].
    rewrite inProgressCount_cons.
    destruct (Status t); rewrite IH;
      destruct (decide (_ = InProgress)); try discriminate; try done; lia. }
  rewrite H. lia.
Qed.

Lemma quitCase_I1 now m f fl :
  quitCase now m f = Some fl -> (inProgressCount (tasks (flowModel fl)) <= 1)%nat.
Proof.
  unfold quitCase. simpl. destruct (saveTasksToFile f _) as [f' [e |]];
    intros [= <-]; simpl;
    (assert (Hz : inProgressCount (pauseAll now (tasks m)) = 0%nat);
     [apply inProgressCount_zero; intros i t; apply pauseAll_none_running | lia]).
Qed.

Lemma deleteCase_I1 m f fl :
  deleteCase m f = Some fl ->
  (inProgressCount (tasks m) <= 1)%nat ->
  (inProgressCount (tasks (flowModel fl)) <= 1)%nat.
Proof.
  unfold deleteCase. intros Hfl HI.
  pose proof (inProgressCount_delete (Z.to_nat (cursor m)) (tasks m)) as Hd.
  destruct ((0 <? len (tasks m)) && (cursor m <? len (tasks m)));
    [| by injection Hfl as <-].
  destruct (cursor m <? 0); [discriminate |]. simpl in Hfl.
  destruct (_ && _); [injection Hfl as <-; simpl; lia |].
  destruct (_ =? 0); injection Hfl as <-; simpl; lia.
Qed.

Lemma deleteCase_total m f :
  0 <= cursor m ->
  exists fl, deleteCase m f = Some fl /\
             match fl with Return m' _ _ => 0 <= cursor m' | Continue _ _ => True end.
Proof.
  intros H0. unfold deleteCase.
  destruct ((0 <? len (tasks m)) && (cursor m <? len (tasks m)));
    [| by eexists].
  destruct (Z.ltb_spec (cursor m) 0); [lia |]. simpl.
  destruct (_ && _); [by eexists |].
  destruct (_ =? 0); eexists; (split; [reflexivity |]); simpl; lia.
Qed.

Lemma enterCase_I1 now id m fl :
  enterCase now id m = Some fl ->
  (inProgressCount (tasks m) <= 1)%nat ->
  (inProgressCount (tasks (flowModel fl)) <= 1)%nat.
Proof.
  unfold enterCase. destruct (decide _); intros [= <-] HI; simpl; [done |].
  by rewrite inProgressCount_cons.
Qed.

(** One key: unless the cursor is negative the case returns, and it keeps
    the running tasks at no more than one. *)
Lemma keyCase_total ev k m f :
  0 <= cursor m ->
  exists fl, keyCase ev k m f = Some fl /\
             match fl with Return m' _ _ => 0 <= cursor m' | Continue _ _ => True end.
Proof.
  intros H0. unfold keyCase.
  assert (Hc : 0 <= cursor (clearErr k m)) by (by rewrite clearErr_cursor).
  destruct (mode (clearErr k m)).
  - destruct (Matches k ToggleLineNumbers); [by eexists |].
    destruct (Matches k ToggleCalendar); [by eexists |].
    destruct (Matches k Quit).
    { unfold quitCase. destruct (saveTasksToFile f _) as [f' [e |]];
        eexists; (split; [reflexivity | done]). }
    destruct (Matches k Add); [eexists; split; [reflexivity | done] |].
    destruct (Matches k Delete); [by apply deleteCase_total |].
    destruct (Matches k Up).
    { unfold upCase. destruct (0 <? _); [destruct (0 <? _) |]; by eexists. }
    destruct (Matches k Down).
    { unfold downCase. destruct (0 <? _); [destruct (_ <? _) |]; by eexists. }
    destruct (Matches k Toggle).
    { destruct (toggleCase_total (ev_now ev) _ Hc) as (m' & -> & _). by eexists. }
    destruct (Matches k Complete).
    { destruct (completeCase_total (ev_now ev) _ Hc) as (m' & -> & _). by eexists. }
    by eexists.
  - destruct (Matches k Enter).
    { unfold enterCase. destruct (decide _); by eexists. }
    destruct (Matches k Esc); by eexists.
Qed.

Lemma keyCase_I1 ev k m f fl :
  keyCase ev k m f = Some fl ->
  (inProgressCount (tasks m) <= 1)%nat ->
  (inProgressCount (tasks (flowModel fl)) <= 1)%nat.
Proof.
  unfold keyCase. intros Hfl HI. rewrite <- (clearErr_tasks k m) in HI.
  destruct (mode (clearErr k m)).
  - destruct (Matches k ToggleLineNumbers); [by injection Hfl as <- |].
    destruct (Matches k ToggleCalendar); [by injection Hfl as <- |].
    destruct (Matches k Quit); [by eapply quitCase_I1 |].
    destruct (Matches k Add); [by injection Hfl as <- |].
    destruct (Matches k Delete); [by eapply deleteCase_I1 |].
    destruct (Matches k Up).
    { unfold upCase in Hfl.
      destruct (0 <? _); [destruct (0 <? _) |]; injection Hfl as <-; simpl;
        rewrite ?ensureCursorVisible_tasks; done. }
    destruct (Matches k Down).
    { unfold downCase in Hfl.
      destruct (0 <? _); [destruct (_ <? _) |]; injection Hfl as <-; simpl;
        rewrite ?ensureCursorVisible_tasks; done. }
    destruct (Matches k Toggle); [by eapply toggleCase_I1 |].
    destruct (Matches k Complete); [by eapply completeCase_I1 |].
    by injection Hfl as <-.
  - destruct (Matches k Enter); [by eapply enterCase_I1 |].
    destruct (Matches k Esc); by injection Hfl as <-.
Qed.

Lemma Update_I1 ev m f r :
  Update ev m f = Some r -> I1 m -> I1 r.1.1.
Proof.
  unfold Update, I1. intros Hr HI. destruct (ev_msg ev) as [| k |].
  - by injection Hr as <-.
  - destruct (keyCase ev k m f) as [fl |] eqn:Hk; [| discriminate]. simpl in Hr.
    pose proof (keyCase_I1 _ _ _ _ _ Hk HI) as HI'.
    destruct fl; injection Hr as <-; cbn [fst flowModel] in *; [done |].
    by rewrite finish_tasks.
  - injection Hr as <-. cbn [fst]. by rewrite finish_tasks.
Qed.

Lemma Update_total ev m f :
  0 <= cursor m -> exists r, Update ev m f = Some r /\ 0 <= cursor r.1.1.
Proof.
  intros H0. unfold Update. destruct (ev_msg ev) as [| k |].
  - by eexists.
  - destruct (keyCase_total ev k m f H0) as (fl & -> & Hfl). simpl.
    destruct fl; eexists; (split; [reflexivity |]); cbn [fst]; [done |].
    apply finish_cursor.
  - eexists; split; [reflexivity |]. cbn [fst]. apply finish_cursor.
Qed.

Lemma run_I1 evs : forall m f,
  I1 m -> 0 <= cursor m ->
  exists states, run evs m f = Some states /\
                 length states = length evs /\ Forall I1 states.
Proof.
  induction evs as [| ev evs IH]; intros m f HI H0.
  - exists []. by repeat split.
  - simpl. destruct (Update_total ev m f H0) as (r & Hr & Hc). rewrite Hr. simpl.
    pose proof (Update_I1 _ _ _ _ Hr HI) as HI'.
    destruct (IH r.1.1 r.2 HI' Hc) as (states & -> & Hlen & Hall). simpl.
    eexists; split; [reflexivity |]. split; [simpl; lia | by constructor].
Qed.

Lemma runToggles_I1 steps : forall m f,
  I1 m ->
  exists states, runToggles steps m f = Some states /\
                 length states = length steps /\ Forall I1 states.
Proof.
  induction steps as [| [c now] steps IH]; intros m f HI.
  - exists []. by repeat split.
  - simpl. unfold toggleAt.
    destruct (Update_total (mkEvent (Key toggleKey) now 0) (setCursor (Z.of_nat c) m) f)
      as (r & Hr & Hc); [simpl; lia |]. rewrite Hr. simpl.
    assert (HI' : I1 r.1.1) by (by eapply Update_I1; [exact Hr |]).
    destruct (IH r.1.1 r.2 HI') as (states & -> & Hlen & Hall). simpl.
    eexists; split; [reflexivity |]. split; [simpl; lia | by constructor].
Qed.

End Sessions.

Section Keys.
Context {E : Externals}.

(** ** [Update] on the keys of the lifecycle *)

Lemma Update_toggle_eq now id m f :
  mode m = modeViewTasks ->
  Update (mkEvent (Key toggleKey) now id) m f =
  (fl ← toggleCase now (clearErr toggleKey m);
   match fl with
   | Return m c f' => Some (m, c, f')
   | Continue m cmds => Some (finish (mkEvent (Key toggleKey) now id) m cmds, f)
   end).
Proof.
  intros Hm. unfold Update, keyCase. cbn [ev_msg ev_now].
  rewrite clearErr_mode, Hm. reflexivity.
Qed.

Lemma Update_complete_eq now id m f :
  mode m = modeViewTasks ->
  Update (mkEvent (Key completeKey) now id) m f =
  (fl ← completeCase now (clearErr completeKey m);
   match fl with
   | Return m c f' => Some (m, c, f')
   | Continue m cmds => Some (finish (mkEvent (Key completeKey) now id) m cmds, f)
   end).
Proof.
  intros Hm. unfold Update, keyCase. cbn [ev_msg ev_now].
  rewrite clearErr_mode, Hm. reflexivity.
Qed.

Lemma Update_quit_eq now id m f :
  mode m = modeViewTasks ->
  Update (mkEvent (Key quitKey) now id) m f =
  (let m1 := setTasks (pauseAll now (tasks m)) (setQuitting true m) in
   let r := saveTasksToFile f (tasks m1) in
   Some (match r.2 with
         | Some e => setErr (Some (Errorf errorSave e)) m1
         | None => m1
         end, Single CmdQuit, r.1)).
Proof.
  intros Hm. unfold Update, keyCase. cbn [ev_msg ev_now].
  assert (Hq : clearErr quitKey m = m).
  { unfold clearErr. destruct (err m); reflexivity. }
  rewrite Hq, Hm. cbn [Matches isRune toggleKey quitKey]. simpl.
  unfold quitCase. destruct (saveTasksToFile f _) as [f' [e |]]; reflexivity.
Qed.

(** The toggle key in the list view: the case does not panic, and the store
    after [Update] is the store the case leaves. *)
Lemma Update_toggle_view now id m f :
  mode m = modeViewTasks -> 0 <= cursor m ->
  exists m1 m' cmd,
    toggleCase now (clearErr toggleKey m) = Some (Continue m1 []) /\
    Update (mkEvent (Key toggleKey) now id) m f = Some (m', cmd, f) /\
    tasks m' = tasks m1 /\ mode m' = modeViewTasks /\
    (cursor m < len (tasks m) -> cursor m' = cursor m).
Proof.
  intros Hm H0. rewrite (Update_toggle_eq now id m f Hm).
  destruct (toggleCase_total now (clearErr toggleKey m)) as (m1 & Ht & Hc & Hmd & Hlen);
    [by rewrite clearErr_cursor |].
  rewrite Ht. cbn [mbind option_bind].
  pose proof (finish_tasks (mkEvent (Key toggleKey) now id) m1 []) as Hft.
  pose proof (finish_mode (mkEvent (Key toggleKey) now id) m1 []) as Hfm.
  pose proof (proj2 (finish_cursor (mkEvent (Key toggleKey) now id) m1 [])) as Hfc.
  destruct (finish (mkEvent (Key toggleKey) now id) m1 []) as [m' cmd].
  cbn [fst] in *. exists m1, m', cmd. split; [done |]. split; [done |].
  split; [done |]. split.
  - by rewrite Hfm, Hmd, clearErr_mode.
  - intros Hlt. rewrite clearErr_cursor in Hc. rewrite <- Hc. apply Hfc.
    rewrite Hc. unfold len. rewrite Hlen, clearErr_tasks. unfold len in Hlt. lia.
Qed.

Lemma Update_complete_view now id m f :
  mode m = modeViewTasks -> 0 <= cursor m ->
  exists m1 m' cmd,
    completeCase now (clearErr completeKey m) = Some (Continue m1 []) /\
    Update (mkEvent (Key completeKey) now id) m f = Some (m', cmd, f) /\
    tasks m' = tasks m1 /\ mode m' = modeViewTasks /\
    (cursor m < len (tasks m) -> cursor m' = cursor m).
Proof.
  intros Hm H0. rewrite (Update_complete_eq now id m f Hm).
  destruct (completeCase_total now (clearErr completeKey m)) as (m1 & Ht & Hc & Hmd & Hlen);
    [by rewrite clearErr_cursor |].
  rewrite Ht. cbn [mbind option_bind].
  pose proof (finish_tasks (mkEvent (Key completeKey) now id) m1 []) as Hft.
  pose proof (finish_mode (mkEvent (Key completeKey) now id) m1 []) as Hfm.
  pose proof (proj2 (finish_cursor (mkEvent (Key completeKey) now id) m1 [])) as Hfc.
  destruct (finish (mkEvent (Key completeKey) now id) m1 []) as [m' cmd].
  cbn [fst] in *. exists m1, m', cmd. split; [done |]. split; [done |].
  split; [done |]. split.
  - by rewrite Hfm, Hmd, clearErr_mode.
  - intros Hlt. rewrite clearErr_cursor in Hc. rewrite <- Hc. apply Hfc.
    rewrite Hc. unfold len. rewrite Hlen, clearErr_tasks. unfold len in Hlt. lia.
Qed.

(** The store after a toggle with the cursor on task [t] at position [c]. *)
Lemma Update_toggle_at now id m f c t :
  mode m = modeViewTasks -> cursor m = Z.of_nat c -> tasks m !! c = Some t ->
  exists m' cmd,
    Update (mkEvent (Key toggleKey) now id) m f = Some (m', cmd, f) /\
    mode m' = modeViewTasks /\ cursor m' = Z.of_nat c /\
    tasks m' =
      match Status t with
      | Pending | Paused =>
          <[c := setLastStartedAt now (setStatus InProgress t)]>
            (pauseOthers now (Z.of_nat c) (tasks m))
      | InProgress => <[c := accrue now (setStatus Paused t)]> (tasks m)
      | Completed => tasks m
      end.
Proof.
  intros Hm Hc Ht.
  destruct (Update_toggle_view now id m f Hm) as (m1 & m' & cmd & H1 & HU & Hts & Hmd & Hcur);
    [lia |].
  exists m', cmd. split; [done |]. split; [done |].
  pose proof (lookup_lt_Some _ _ _ Ht) as Hlt.
  split; [rewrite <- Hc; apply Hcur; unfold len; lia |].
  rewrite (toggleCase_at now (clearErr toggleKey m) t) in H1.
  - injection H1 as <-. rewrite Hts.
    destruct (Status t); cbn [tasks setTasks];
      rewrite ?clearErr_cursor, ?clearErr_tasks, ?Hc, ?Nat2Z.id; reflexivity.
  - rewrite clearErr_cursor. lia.
  - by rewrite clearErr_cursor, clearErr_tasks, Hc, Nat2Z.id.
Qed.

Lemma Update_complete_at now id m f c t :
  mode m = modeViewTasks -> cursor m = Z.of_nat c -> tasks m !! c = Some t ->
  exists m' cmd,
    Update (mkEvent (Key completeKey) now id) m f = Some (m', cmd, f) /\
    mode m' = modeViewTasks /\ cursor m' = Z.of_nat c /\
    tasks m' =
      <[c := setStatus Completed
               (if decide (Status t = InProgress) then accrue now t else t)]> (tasks m).
Proof.
  intros Hm Hc Ht.
  destruct (Update_complete_view now id m f Hm) as (m1 & m' & cmd & H1 & HU & Hts & Hmd & Hcur);
    [lia |].
  exists m', cmd. split; [done |]. split; [done |].
  pose proof (lookup_lt_Some _ _ _ Ht) as Hlt.
  split; [rewrite <- Hc; apply Hcur; unfold len; lia |].
  rewrite (completeCase_at now (clearErr completeKey m) t) in H1.
  - injection H1 as <-. by rewrite Hts, clearErr_cursor, clearErr_tasks, Hc, Nat2Z.id.
  - rewrite clearErr_cursor. lia.
  - by rewrite clearErr_cursor, clearErr_tasks, Hc, Nat2Z.id.
Qed.

(** With the cursor past the end of the store both keys leave the store as
    it is. *)
Lemma Update_toggle_out now id m f :
  mode m = modeViewTasks -> 0 <= cursor m -> len (tasks m) <= cursor m ->
  exists m' cmd,
    Update (mkEvent (Key toggleKey) now id) m f = Some (m', cmd, f) /\
    tasks m' = tasks m.
Proof.
  intros Hm H0 Hge.
  destruct (Update_toggle_view now id m f Hm H0) as (m1 & m' & cmd & H1 & HU & Hts & _).
  exists m', cmd. split; [done |].
  rewrite toggleCase_out in H1 by (by rewrite clearErr_cursor, clearErr_tasks).
  injection H1 as <-. by rewrite Hts, clearErr_tasks.
Qed.

Lemma Update_complete_out now id m f :
  mode m = modeViewTasks -> 0 <= cursor m -> len (tasks m) <= cursor m ->
  exists m' cmd,
    Update (mkEvent (Key completeKey) now id) m f = Some (m', cmd, f) /\
    tasks m' = tasks m.
Proof.
  intros Hm H0 Hge.
  destruct (Update_complete_view now id m f Hm H0) as (m1 & m' & cmd & H1 & HU & Hts & _).
  exists m', cmd. split; [done |].
  rewrite completeCase_out in H1 by (by rewrite clearErr_cursor, clearErr_tasks).
  injection H1 as <-. by rewrite Hts, clearErr_tasks.
Qed.

End Keys.

(** * The specification, property by property *)

Section Toggle.
Context {E : Externals}.

Lemma stoppedAt_pause_accrue now t : stoppedAt now t (setStatus Paused (accrue now t)).
Proof.
  unfold stoppedAt, accrue. destruct (Time_IsZero (LastStartedAt t)); reflexivity.
Qed.

Lemma stoppedAt_accrue_pause now t : stoppedAt now t (accrue now (setStatus Paused t)).
Proof.
  unfold stoppedAt, accrue. simpl. destruct (Time_IsZero (LastStartedAt t)); reflexivity.
Qed.

(** C1. Invariant I1: from a store with at most one task in progress, every
    sequence of toggle actions, each at a cursor position of its own, and
    every sequence of events of a session, runs to its end and shows at most
    one task in progress after each action. A toggle that starts the task at
    the cursor stops, within the same action, every other task in progress
    (paused, its interval accrued), so that the started task is the only
    one in progress. *)
Theorem toggle_keeps_at_most_one_in_progress :
  (forall steps m f,
      I1 m ->
      exists states, runToggles steps m f = Some states /\
                     length states = length steps /\ Forall I1 states) /\
  (forall evs m f,
      I1 m -> 0 <= cursor m ->
      exists states, run evs m f = Some states /\
                     length states = length evs /\ Forall I1 states) /\
  (forall now id m f c t,
      mode m = modeViewTasks -> cursor m = Z.of_nat c -> tasks m !! c = Some t ->
      Status t = Pending \/ Status t = Paused ->
      exists m' cmd,
        Update (mkEvent (Key toggleKey) now id) m f = Some (m', cmd, f) /\
        length (tasks m') = length (tasks m) /\
        tasks m' !! c = Some (setLastStartedAt now (setStatus InProgress t)) /\
        (forall i u, i <> c -> tasks m !! i = Some u ->
                     exists u', tasks m' !! i = Some u' /\
                                if decide (Status u = InProgress)
                                then stoppedAt now u u' else u' = u) /\
        (forall i u', tasks m' !! i = Some u' -> Status u' = InProgress -> i = c)).
Proof.
  split; [intros; by apply runToggles_I1 |].
  split; [intros; by apply run_I1 |].
  intros now id m f c t Hm Hc Ht Hst.
  destruct (Update_toggle_at now id m f c t Hm Hc Ht) as (m' & cmd & HU & _ & _ & Hts).
  exists m', cmd. split; [done |].
  pose proof (lookup_lt_Some _ _ _ Ht) as Hlt.
  assert (Hts' : tasks m' = <[c := setLastStartedAt now (setStatus InProgress t)]>
                              (pauseOthers now (Z.of_nat c) (tasks m))).
  { destruct Hst as [Hst | Hst]; by rewrite Hst in Hts. }
  clear Hts. rewrite Hts'.
  assert (Hother : forall i, i <> c ->
    <[c := setLastStartedAt now (setStatus InProgress t)]>
      (pauseOthers now (Z.of_nat c) (tasks m)) !! i =
    (fun u => if decide (Status u = InProgress)
              then setStatus Paused (accrue now u) else u) <$> tasks m !! i).
  { intros i Hne. rewrite list_lookup_insert_ne by done.
    rewrite pauseOthers_lookup. destruct (tasks m !! i) as [u |]; [| done]. simpl.
    destruct (Z.eqb_spec (Z.of_nat i) (Z.of_nat c)); [lia | done]. }
  split; [by rewrite length_insert, pauseOthers_length |].
  split; [apply list_lookup_insert_eq; by rewrite pauseOthers_length |].
  split.
  - intros i u Hne Hu. rewrite (Hother i Hne), Hu. simpl.
    eexists; split; [reflexivity |].
    destruct (decide (Status u = InProgress)); [apply stoppedAt_pause_accrue | done].
  - intros i u' Hi Hrun. destruct (decide (i = c)) as [| Hne]; [done | exfalso].
    rewrite (Hother i Hne) in Hi. destruct (tasks m !! i) as [u |]; [| discriminate].
    simpl in Hi. injection Hi as <-.
    destruct (decide (Status u = InProgress)); simpl in Hrun; [discriminate | done].
Qed.

(** C2. With the cursor on a task in progress whose start
    instant is set, a toggle pauses the task and adds to its time spent
    exactly now − last_started_at, as long as the interval and the sum fit a
    Duration; when the start instant is the zero time the task is paused and
    nothing is added. A task with no time spent, started by a toggle at a
    clock reading t0 other than the zero time and toggled again at t0 + 5 s,
    ends paused with 5 seconds spent. *)
Theorem toggle_in_progress_pauses_and_accrues :
  (forall now id m f c t,
      mode m = modeViewTasks -> cursor m = Z.of_nat c -> tasks m !! c = Some t ->
      Status t = InProgress ->
      exists m' cmd t',
        Update (mkEvent (Key toggleKey) now id) m f = Some (m', cmd, f) /\
        tasks m' !! c = Some t' /\ stoppedAt now t t' /\
        (LastStartedAt t = 0 -> TimeSpent t' = TimeSpent t) /\
        (LastStartedAt t <> 0 ->
         minDuration <= now - LastStartedAt t <= maxDuration ->
         minDuration <= TimeSpent t + (now - LastStartedAt t) <= maxDuration ->
         TimeSpent t' = TimeSpent t + (now - LastStartedAt t))) /\
  (forall t0 id1 id2 m f t,
      mode m = modeViewTasks -> cursor m = 0 -> tasks m !! 0%nat = Some t ->
      Status t = Pending \/ Status t = Paused -> TimeSpent t = 0 -> t0 <> 0 ->
      exists m1 cmd1 m2 cmd2 t2,
        Update (mkEvent (Key toggleKey) t0 id1) m f = Some (m1, cmd1, f) /\
        Update (mkEvent (Key toggleKey) (t0 + 5 * Second) id2) m1 f = Some (m2, cmd2, f) /\
        tasks m2 !! 0%nat = Some t2 /\
        Status t2 = Paused /\ TimeSpent t2 = 5 * Second).
Proof.
  assert (Hgen : forall now id m f c t,
      mode m = modeViewTasks -> cursor m = Z.of_nat c -> tasks m !! c = Some t ->
      Status t = InProgress ->
      exists m' cmd,
        Update (mkEvent (Key toggleKey) now id) m f = Some (m', cmd, f) /\
        tasks m' !! c = Some (accrue now (setStatus Paused t))).
  { intros now id m f c t Hm Hc Ht Hst.
    destruct (Update_toggle_at now id m f c t Hm Hc Ht) as (m' & cmd & HU & _ & _ & Hts).
    rewrite Hst in Hts. exists m', cmd. split; [done |].
    rewrite Hts. apply list_lookup_insert_eq. by eapply lookup_lt_Some. }
  split.
  - intros now id m f c t Hm Hc Ht Hst.
    destruct (Hgen now id m f c t Hm Hc Ht Hst) as (m' & cmd & HU & Hc').
    exists m', cmd, (accrue now (setStatus Paused t)).
    split; [done |]. split; [done |]. split; [apply stoppedAt_accrue_pause |].
    split.
    + intros Hz. by rewrite accrue_zero.
    + intros Hnz Hd Hs. by rewrite accrue_exact.
  - intros t0 id1 id2 m f t Hm Hc Ht Hst Hts Hnz.
    destruct (Update_toggle_at t0 id1 m f 0%nat t Hm Hc Ht)
      as (m1 & cmd1 & HU1 & Hm1 & Hc1 & Hts1).
    assert (Ht1 : tasks m1 !! 0%nat = Some (setLastStartedAt t0 (setStatus InProgress t))).
    { assert (Hts1' : tasks m1 = <[0%nat := setLastStartedAt t0 (setStatus InProgress t)]>
                                  (pauseOthers t0 (Z.of_nat 0) (tasks m))).
      { destruct Hst as [Hst | Hst]; by rewrite Hst in Hts1. }
      rewrite Hts1'. apply list_lookup_insert_eq. rewrite pauseOthers_length.
      by eapply lookup_lt_Some. }
    destruct (Hgen (t0 + 5 * Second) id2 m1 f 0%nat _ Hm1 Hc1 Ht1 eq_refl)
      as (m2 & cmd2 & HU2 & Ht2).
    exists m1, cmd1, m2, cmd2, (accrue (t0 + 5 * Second) (setStatus Paused (setLastStartedAt t0 (setStatus InProgress t)))).
    split; [done |]. split; [done |]. split; [done |].
    split; [by rewrite accrue_Status |].
    rewrite accrue_exact; simpl; unfold minDuration, maxDuration, Second; lia.
Qed.

End Toggle.

Section Quit.
Context {E : Externals}.

Lemma Matches_Quit k : Matches k Quit = true -> k = quitKey \/ k = KeyCtrlC.
Proof.
  destruct k as [rs | | | | | | | |]; simpl; try discriminate; [| by right].
  destruct rs as [| r [| r' rs]]; simpl; try discriminate.
  rewrite orb_false_r. intros Hr. apply Z.eqb_eq in Hr. subst. by left.
Qed.

Lemma Update_quit_any k now id m f :
  Matches k Quit = true -> mode m = modeViewTasks ->
  Update (mkEvent (Key k) now id) m f =
  (let m1 := setTasks (pauseAll now (tasks m)) (setQuitting true m) in
   let r := saveTasksToFile f (tasks m1) in
   Some (match r.2 with
         | Some e => setErr (Some (Errorf errorSave e)) m1
         | None => m1
         end, Single CmdQuit, r.1)).
Proof.
  intros Hk Hm. destruct (Matches_Quit k Hk) as [-> | ->].
  - by apply Update_quit_eq.
  - unfold Update, keyCase. cbn [ev_msg ev_now].
    assert (Hq : clearErr KeyCtrlC m = m).
    { unfold clearErr. destruct (err m); reflexivity. }
    rewrite Hq, Hm. simpl.
    unfold quitCase. destruct (saveTasksToFile f _) as [f' [e |]]; reflexivity.
Qed.

(** C3. On the quit action (either quit key, in the list view) [Update]
    returns the quit command; the store it hands to [saveTasksToFile] is the
    session's store in which every task that was in progress is paused with
    its interval accrued and every other task is as it was; no task of it is
    in progress; and when the file can be written it holds exactly that
    store afterwards. *)
Theorem quit_pauses_before_saving :
  forall k now id m f,
    Matches k Quit = true -> mode m = modeViewTasks ->
    exists m' f',
      Update (mkEvent (Key k) now id) m f = Some (m', Single CmdQuit, f') /\
      quitting m' = true /\
      (writable f = true -> f' = mkFile (Stored (tasks m')) true /\ err m' = err m) /\
      (writable f = false ->
       f' = f /\ err m' = Some (Errorf errorSave (Errorf errorWriteTasks ErrOS))) /\
      length (tasks m') = length (tasks m) /\
      (forall i t, tasks m !! i = Some t ->
                   exists t', tasks m' !! i = Some t' /\
                              if decide (Status t = InProgress)
                              then stoppedAt now t t' else t' = t) /\
      (forall i t', tasks m' !! i = Some t' -> Status t' <> InProgress).
Proof.
  intros k now id m f Hk Hm. rewrite (Update_quit_any k now id m f Hk Hm).
  cbn zeta. cbn [tasks setTasks setQuitting].
  set (ts := pauseAll now (tasks m)).
  assert (Hlen : length ts = length (tasks m)).
  { unfold ts, pauseAll. by rewrite length_fmap. }
  assert (Hlook : forall i t, tasks m !! i = Some t ->
                   exists t', ts !! i = Some t' /\
                              if decide (Status t = InProgress)
                              then stoppedAt now t t' else t' = t).
  { intros i t Hi. unfold ts. rewrite pauseAll_lookup, Hi. simpl.
    eexists; split; [reflexivity |].
    destruct (decide (Status t = InProgress)); [apply stoppedAt_pause_accrue | done]. }
  assert (Hnone : forall i t', ts !! i = Some t' -> Status t' <> InProgress).
  { intros i t' Hi. by apply (pauseAll_none_running now (tasks m) i t'). }
  unfold saveTasksToFile. destruct (writable f) eqn:Hw; cbn [fst snd];
    do 2 eexists; (split; [reflexivity |]); cbn [tasks setErr quitting err setTasks setQuitting];
    repeat split; intros; try done; eauto.
Qed.

End Quit.

Section Viewport.
Context {E : Externals}.

(** C4. On a store that is not empty [ensureCursorVisible] moves the
    scroll offset to the cursor when the cursor is above the window, to
    cursor − height + 1 when it is at or below the window's end, and leaves
    it where it is otherwise; nothing else of the session changes. With a
    window of height 5 above the cursor of a list of 20 tasks, the cursor at
    index 17 brings the offset to 13. For an empty store the function
    returns the session as it is. *)
Theorem ensureCursorVisible_offset :
  (forall m,
      tasks m <> [] ->
      let m' := ensureCursorVisible m in
      (cursor m < YOffset (vp m) -> YOffset (vp m') = cursor m) /\
      (YOffset (vp m) <= cursor m -> YOffset (vp m) + Height (vp m) <= cursor m ->
       YOffset (vp m') = cursor m - Height (vp m) + 1) /\
      (YOffset (vp m) <= cursor m < YOffset (vp m) + Height (vp m) ->
       YOffset (vp m') = YOffset (vp m)) /\
      Height (vp m') = Height (vp m) /\ Width (vp m') = Width (vp m) /\
      content (vp m') = content (vp m) /\
      sameSession m m' /\ err m' = err m) /\
  (forall m,
      length (tasks m) = 20%nat -> cursor m = 17 -> Height (vp m) = 5 ->
      YOffset (vp m) <= 12 ->
      YOffset (vp (ensureCursorVisible m)) = 13) /\
  (forall m, tasks m = [] -> ensureCursorVisible m = m).
Proof.
  split; [| split].
  - intros m Hne m'. subst m'. unfold ensureCursorVisible.
    assert (Hlen : (len (tasks m) =? 0) = false).
    { apply Z.eqb_neq. unfold len. destruct (tasks m); [done | simpl; lia]. }
    rewrite Hlen.
    destruct (Z.ltb_spec (cursor m) (YOffset (vp m)));
      [| destruct (Z.leb_spec (YOffset (vp m) + Height (vp m)) (cursor m))];
      simpl; unfold sameSession; simpl; repeat split; intros; try done; lia.
  - intros m Hlen Hc Hh Ho. unfold ensureCursorVisible.
    unfold len. rewrite Hlen. simpl.
    destruct (Z.ltb_spec (cursor m) (YOffset (vp m))); [lia |].
    destruct (Z.leb_spec (YOffset (vp m) + Height (vp m)) (cursor m)); [| lia].
    simpl. lia.
  - intros m Hnil. unfold ensureCursorVisible. by rewrite Hnil.
Qed.

End Viewport.

Section Rendering.
Context {E : Externals}.

(** The loop keeps a prefix of the runes whose widths, added up one by one,
    stay within the limit, and stops at the first rune that would pass it. *)
Lemma truncatedRunes_prefix limit runes : forall w,
  w <= limit ->
  exists kept dropped,
    runes = kept ++ dropped /\
    truncatedRunes limit w runes = kept /\
    w + runesWidth kept <= limit /\
    match dropped with
    | [] => True
    | r :: _ => limit < w + runesWidth kept + runeWidth r
    end.
Proof.
  induction runes as [| r runes IH]; intros w Hw.
  - exists [], []. simpl. repeat split; try done; lia.
  - simpl. destruct (Z.ltb_spec limit (w + runeWidth r)) as [Hover | Hfit].
    + exists [], (r :: runes). simpl. repeat split; try done; lia.
    + destruct (IH (w + runeWidth r) Hfit) as (kept & dropped & -> & Hk & Hwd & Hd).
      exists (r :: kept), dropped. simpl. rewrite Hk.
      repeat split; try done; [lia |]. destruct dropped; [done | lia].
Qed.

(** The budget of a row is never under five columns. *)
Lemma descAvailableWidth_floor m i : 5 <= descAvailableWidth m i.
Proof.
  unfold descAvailableWidth. cbn zeta.
  match goal with |- context [if ?b <? 5 then _ else _] =>
    destruct (Z.ltb_spec b 5) end; lia.
Qed.

(** A description wider than the budget is cut between two of its runes:
    the runes kept are those the loop could add up within the budget less
    the dots. *)
Lemma descText_cut avail desc :
  lipgloss_Width ellipsis <= avail ->
  avail < lipgloss_Width desc ->
  exists kept dropped,
    desc = kept ++ dropped /\
    descText avail desc = kept ++ ellipsis /\
    runesWidth kept <= avail - lipgloss_Width ellipsis /\
    match dropped with
    | [] => True
    | r :: _ => avail - lipgloss_Width ellipsis < runesWidth kept + runeWidth r
    end.
Proof.
  intros Hdots Hwide. unfold descText.
  destruct (Z.ltb_spec avail (lipgloss_Width desc)); [| lia].
  destruct (truncatedRunes_prefix (avail - lipgloss_Width ellipsis) desc 0)
    as (kept & dropped & Hdesc & Hk & Hw & Hd); [lia |].
  exists kept, dropped. rewrite Hk.
  split; [done |]. split; [done |]. split; [lia |].
  destruct dropped; [done | lia].
Qed.

End Rendering.

(** C5. The shown description can be wider than its budget. On a terminal
    that measures by cluster, the description of six play signs, each one
    followed by U+FE0F, is 12 cells wide, and the row leaves it 10: the
    description is to be cut. The loop adds up the widths of its runes one
    at a time, 1 for a sign and 0 for a selector, 6 in all, which is within
    the 7 cells the dots leave; it keeps all twelve runes and appends the
    dots. The row shows a text of 15 cells in a budget of 10. *)
Theorem truncated_description_overflows_budget :
  let m := viewing [playTask] 0 None playScreen in
  descAvailableWidth (E := clusterTerminal) m 0 = 10 /\
  lipgloss_Width (Externals := clusterTerminal) playSigns = 12 /\
  runesWidth (E := clusterTerminal) playSigns = 6 /\
  lipgloss_Width (Externals := clusterTerminal) (lit "...") = 3 /\
  descText (E := clusterTerminal) 10 playSigns = playSigns ++ lit "..." /\
  exists row,
    renderTasksView (E := clusterTerminal) today m !! 0%nat = Some row /\
    rowDescription row = playSigns ++ lit "..." /\
    lipgloss_Width (Externals := clusterTerminal) (rowDescription row) = 15 /\
    descAvailableWidth (E := clusterTerminal) m 0
      < lipgloss_Width (Externals := clusterTerminal) (rowDescription row).
Proof.
  cbv zeta. do 5 (split; [by vm_compute |]).
  eexists. split; [by vm_compute |]. by vm_compute.
Qed.


Section Guards.
Context {E : Externals}.

Lemma Update_quit_lookup k now id m f i t :
  Matches k Quit = true -> mode m = modeViewTasks -> tasks m !! i = Some t ->
  exists m' cmd f',
    Update (mkEvent (Key k) now id) m f = Some (m', cmd, f') /\
    tasks m' !! i =
      Some (if decide (Status t = InProgress) then setStatus Paused (accrue now t) else t).
Proof.
  intros Hk Hm Ht. rewrite (Update_quit_any k now id m f Hk Hm). cbn zeta.
  do 3 eexists. split; [reflexivity |].
  destruct (saveTasksToFile f _).2; cbn [tasks setErr setTasks];
    by rewrite pauseAll_lookup, Ht.
Qed.

(** C7. A task in progress whose start instant is the zero time gets no time
    added anywhere: after a toggle, a complete or a quit, wherever the
    cursor is, [Update] returns and the task's time spent is what it was;
    with the cursor on it the toggle leaves it paused and the complete leaves
    it completed, all other fields kept; and the time the renderer shows
    for it is its time spent. *)
Theorem zero_start_adds_no_time :
  forall now id m f i t,
    mode m = modeViewTasks -> 0 <= cursor m ->
    tasks m !! i = Some t -> Status t = InProgress -> LastStartedAt t = 0 ->
    (forall k, k = toggleKey \/ k = completeKey \/ Matches k Quit = true ->
       exists m' cmd f' t',
         Update (mkEvent (Key k) now id) m f = Some (m', cmd, f') /\
         tasks m' !! i = Some t' /\ TimeSpent t' = TimeSpent t) /\
    (cursor m = Z.of_nat i ->
       (exists m' cmd, Update (mkEvent (Key toggleKey) now id) m f = Some (m', cmd, f) /\
                       tasks m' !! i = Some (setStatus Paused t)) /\
       (exists m' cmd, Update (mkEvent (Key completeKey) now id) m f = Some (m', cmd, f) /\
                       tasks m' !! i = Some (setStatus Completed t))) /\
    (forall k, Matches k Quit = true ->
       exists m' cmd f', Update (mkEvent (Key k) now id) m f = Some (m', cmd, f') /\
                         tasks m' !! i = Some (setStatus Paused t)) /\
    timeDisplay now t = TimeSpent t /\
    (exists row, renderTasksView now m !! i = Some row /\ rowTime row = TimeSpent t).
Proof.
  intros now id m f i t Hm H0 Ht Hst Hz.
  pose proof (lookup_lt_Some _ _ _ Ht) as Hlt.
  assert (Hacc : accrue now t = t) by (by apply accrue_zero).
  assert (Hquit : forall k, Matches k Quit = true ->
       exists m' cmd f', Update (mkEvent (Key k) now id) m f = Some (m', cmd, f') /\
                         tasks m' !! i = Some (setStatus Paused t)).
  { intros k Hk. destruct (Update_quit_lookup k now id m f i t Hk Hm Ht)
      as (m' & cmd & f' & HU & Hi).
    exists m', cmd, f'. split; [done |]. rewrite Hi, Hacc.
    by destruct (decide (Status t = InProgress)). }
  assert (Htoggle : cursor m = Z.of_nat i ->
       exists m' cmd, Update (mkEvent (Key toggleKey) now id) m f = Some (m', cmd, f) /\
                      tasks m' !! i = Some (setStatus Paused t)).
  { intros Hc. destruct (Update_toggle_at now id m f i t Hm Hc Ht)
      as (m' & cmd & HU & _ & _ & Hts).
    exists m', cmd. split; [done |]. rewrite Hts, Hst.
    rewrite list_lookup_insert_eq by done. by rewrite accrue_zero. }
  assert (Hcomplete : cursor m = Z.of_nat i ->
       exists m' cmd, Update (mkEvent (Key completeKey) now id) m f = Some (m', cmd, f) /\
                      tasks m' !! i = Some (setStatus Completed t)).
  { intros Hc. destruct (Update_complete_at now id m f i t Hm Hc Ht)
      as (m' & cmd & HU & _ & _ & Hts).
    exists m', cmd. split; [done |]. rewrite Hts.
    rewrite list_lookup_insert_eq by done.
    destruct (decide (Status t = InProgress)); by rewrite ?Hacc. }
  split; [| split; [by auto | split; [done | split]]].
  - intros k [-> | [-> | Hk]].
    + (* toggle *)
      destruct (Z.lt_ge_cases (cursor m) (len (tasks m))) as [Hin | Hout].
      2:{ destruct (Update_toggle_out now id m f Hm H0 Hout) as (m' & cmd & HU & Hts).
          exists m', cmd, f, t. by rewrite Hts. }
      destruct (decide (cursor m = Z.of_nat i)) as [Hc | Hc].
      { destruct (Htoggle Hc) as (m' & cmd & HU & Hi).
        by exists m', cmd, f, (setStatus Paused t). }
      destruct (index_in_range (tasks m) (cursor m) H0 Hin) as (u & _ & Hu).
      destruct (Update_toggle_at now id m f (Z.to_nat (cursor m)) u Hm)
        as (m' & cmd & HU & _ & _ & Hts); [lia | done |].
      assert (Hne : Z.to_nat (cursor m) <> i) by lia.
      exists m', cmd, f.
      assert (Hpaused :
        <[Z.to_nat (cursor m) := setLastStartedAt now (setStatus InProgress u)]>
          (pauseOthers now (Z.of_nat (Z.to_nat (cursor m))) (tasks m)) !! i
        = Some (setStatus Paused t)).
      { rewrite list_lookup_insert_ne by done.
        rewrite pauseOthers_lookup, Ht. simpl.
        destruct (decide (Status t = InProgress)); [| done].
        destruct (Z.eqb_spec (Z.of_nat i) (Z.of_nat (Z.to_nat (cursor m)))); [lia |].
        simpl. by rewrite Hacc. }
      rewrite Hts. destruct (Status u).
      * by exists (setStatus Paused t).
      * exists t. by rewrite list_lookup_insert_ne.
      * by exists (setStatus Paused t).
      * by exists t.
    + (* complete *)
      destruct (Z.lt_ge_cases (cursor m) (len (tasks m))) as [Hin | Hout].
      2:{ destruct (Update_complete_out now id m f Hm H0 Hout) as (m' & cmd & HU & Hts).
          exists m', cmd, f, t. by rewrite Hts. }
      destruct (decide (cursor m = Z.of_nat i)) as [Hc | Hc].
      { destruct (Hcomplete Hc) as (m' & cmd & HU & Hi).
        by exists m', cmd, f, (setStatus Completed t). }
      destruct (index_in_range (tasks m) (cursor m) H0 Hin) as (u & _ & Hu).
      destruct (Update_complete_at now id m f (Z.to_nat (cursor m)) u Hm)
        as (m' & cmd & HU & _ & _ & Hts); [lia | done |].
      exists m', cmd, f, t. rewrite Hts.
      rewrite list_lookup_insert_ne by lia. done.
    + destruct (Hquit k Hk) as (m' & cmd & f' & HU & Hi).
      by exists m', cmd, f', (setStatus Paused t).
  - unfold timeDisplay, Time_IsZero. rewrite Hz. simpl.
    by destruct (decide (Status t = InProgress)).
  - unfold renderTasksView. rewrite list_lookup_imap, Ht. simpl.
    eexists; split; [reflexivity |]. simpl.
    unfold timeDisplay, Time_IsZero. rewrite Hz. simpl.
    by destruct (decide (Status t = InProgress)).
Qed.

(** ** Outside the domain of the two actions *)

Lemma Update_empty_store k now id m f :
  k = toggleKey \/ k = completeKey -> tasks m = [] ->
  exists m' cmd, Update (mkEvent (Key k) now id) m f = Some (m', cmd, f) /\ tasks m' = [].
Proof.
  intros Hk Hnil. unfold Update, keyCase. cbn [ev_msg ev_now].
  pose proof (clearErr_tasks k m) as Hct. rewrite Hnil in Hct.
  destruct (mode (clearErr k m)).
  - destruct Hk as [-> | ->]; cbn [Matches isRune toggleKey completeKey]; simpl;
      unfold toggleCase, completeCase; rewrite Hct; simpl;
      (destruct (finish _ _ _) as [m' cmd] eqn:Hf; exists m', cmd; split; [done |];
       match type of Hf with finish ?ev ?mm ?cc = _ =>
         pose proof (finish_tasks ev mm cc) as Hft end;
       rewrite Hf in Hft; simpl in Hft; by rewrite Hft).
  - destruct Hk as [-> | ->]; cbn [Matches isRune toggleKey completeKey]; simpl;
      (destruct (finish _ _ _) as [m' cmd] eqn:Hf; exists m', cmd; split; [done |];
       match type of Hf with finish ?ev ?mm ?cc = _ =>
         pose proof (finish_tasks ev mm cc) as Hft end;
       rewrite Hf in Hft; simpl in Hft; by rewrite Hft).
Qed.

(** C10. On an empty store the toggle and the complete keys return without a
    panic and leave the store empty, whatever the mode and the cursor. With
    the cursor on a completed task, the toggle and the complete leave the whole
    store as it is: the same tasks in the same order, each with the status,
    time spent and start instant it had. *)
Theorem toggle_complete_noop_outside_domain :
  (forall k now id m f,
      k = toggleKey \/ k = completeKey -> tasks m = [] ->
      exists m' cmd,
        Update (mkEvent (Key k) now id) m f = Some (m', cmd, f) /\ tasks m' = []) /\
  (forall now id m f c t,
      mode m = modeViewTasks -> cursor m = Z.of_nat c -> tasks m !! c = Some t ->
      Status t = Completed ->
      (exists m' cmd,
          Update (mkEvent (Key toggleKey) now id) m f = Some (m', cmd, f) /\
          tasks m' = tasks m) /\
      (exists m' cmd,
          Update (mkEvent (Key completeKey) now id) m f = Some (m', cmd, f) /\
          tasks m' = tasks m)).
Proof.
  split; [apply Update_empty_store |].
  intros now id m f c t Hm Hc Ht Hst. split.
  - destruct (Update_toggle_at now id m f c t Hm Hc Ht) as (m' & cmd & HU & _ & _ & Hts).
    exists m', cmd. split; [done |]. by rewrite Hts, Hst.
  - destruct (Update_complete_at now id m f c t Hm Hc Ht) as (m' & cmd & HU & _ & _ & Hts).
    exists m', cmd. split; [done |]. rewrite Hts.
    destruct (decide (Status t = InProgress)) as [Hr | _]; [congruence |].
    apply list_insert_id. rewrite Ht. f_equal. destruct t; simpl in *. by subst.
Qed.

End Guards.

Section Adding.
Context {E : Externals}.

Lemma trimLeftSpace_nil s : trimLeftSpace s = [] <-> blank s.
Proof.
  unfold blank. induction s as [| r s IH]; simpl.
  - split; [constructor | done].
  - destruct (unicode_IsSpace r) eqn:Hr.
    + rewrite IH. split; [by constructor | by inversion 1].
    + split; [discriminate | inversion 1; congruence].
Qed.

Lemma trimLeftSpace_blank s : blank (trimLeftSpace s) -> trimLeftSpace s = [].
Proof.
  unfold blank. induction s as [| r s IH]; simpl; [done |].
  destruct (unicode_IsSpace r) eqn:Hr; [done |].
  inversion 1; congruence.
Qed.

Lemma blank_rev s : blank (rev s) <-> blank s.
Proof.
  unfold blank. rewrite !List.Forall_forall.
  split; intros H r Hr; apply H; [by apply List.in_rev in Hr | by apply List.in_rev].
Qed.

(** The trimmed text is empty exactly when the text is blank. *)
Lemma strings_TrimSpace_nil s : strings_TrimSpace s = [] <-> blank s.
Proof.
  unfold strings_TrimSpace. split.
  - intros H. apply (f_equal (@rev rune)) in H. rewrite rev_involutive in H. simpl in H.
    apply trimLeftSpace_nil, blank_rev, trimLeftSpace_blank in H.
    by apply trimLeftSpace_nil.
  - intros H. apply trimLeftSpace_nil in H. by rewrite H.
Qed.

Lemma Update_enter_eq now id m f :
  mode m = modeAddTask ->
  Update (mkEvent (Key KeyEnter) now id) m f =
  (fl ← enterCase now id (clearErr KeyEnter m);
   match fl with
   | Return m c f' => Some (m, c, f')
   | Continue m cmds => Some (finish (mkEvent (Key KeyEnter) now id) m cmds, f)
   end).
Proof.
  intros Hm. unfold Update, keyCase. cbn [ev_msg ev_now ev_id].
  rewrite clearErr_mode, Hm. reflexivity.
Qed.

(** C8. Submitting the input (the enter key in the input view): a blank
    text creates no task, leaves the store as it is and sets no error;
    any other text puts a new pending task, with that text, no time spent
    and no start instant, at the front of the store and the cursor on it,
    at index 0. *)
Theorem add_validates_and_prepends :
  forall now id m f,
    mode m = modeAddTask ->
    exists m' cmd,
      Update (mkEvent (Key KeyEnter) now id) m f = Some (m', cmd, f) /\
      (blank (Value (input m)) ->
       tasks m' = tasks m /\ (err m' = None \/ err m' = err m)) /\
      (~ blank (Value (input m)) ->
       tasks m' = mkTask id (Value (input m)) Pending 0 0 now :: tasks m /\
       cursor m' = 0 /\ (err m' = None \/ err m' = err m)).
Proof.
  intros now id m f Hm. rewrite (Update_enter_eq now id m f Hm).
  unfold enterCase. rewrite clearErr_input.
  destruct (decide (strings_TrimSpace (Value (input m)) = [])) as [Hb | Hb];
    cbn [mbind option_bind];
    match goal with |- context [finish ?ev ?mm ?cc] =>
      pose proof (finish_tasks ev mm cc) as Hft;
      pose proof (finish_err ev mm cc) as Hfe;
      pose proof (proj2 (finish_cursor ev mm cc)) as Hfc;
      destruct (finish ev mm cc) as [m' cmd] end;
    cbn [fst] in *; exists m', cmd; (split; [done |]).
  - apply strings_TrimSpace_nil in Hb. split; [| done].
    intros _. rewrite Hft, Hfe, clearErr_tasks. split; [done | apply clearErr_err].
  - split; [intros Hbl; by apply strings_TrimSpace_nil in Hbl |].
    intros _. simpl in *. rewrite Hft, Hfe, clearErr_tasks.
    split; [done |]. split; [| apply clearErr_err].
    apply Hfc. unfold len. simpl. lia.
Qed.

End Adding.

Section Navigation.
Context {E : Externals}.

Lemma clearErr_same k m :
  sameSession m (clearErr k m) /\ vp (clearErr k m) = vp m /\
  (forall now, renderTasksView now (clearErr k m) = renderTasksView now m).
Proof.
  destruct (clearErr_cases k m) as [-> | ->]; unfold sameSession; by repeat split.
Qed.

Lemma clearErr_navigation k m :
  k = KeyUp \/ k = KeyDown ->
  err (clearErr k m) =
  match err m with
  | Some e => if os_IsNotExist e then Some e else None
  | None => None
  end.
Proof.
  intros [-> | ->]; unfold clearErr; destruct (err m) as [e |] eqn:He; simpl;
    [destruct (os_IsNotExist e); simpl; done | done
    | destruct (os_IsNotExist e); simpl; done | done].
Qed.

(** What [Update] does of a navigation key when the case moves nothing. *)
Lemma finish_in_range ev m :
  0 <= cursor m < len (tasks m) ->
  (finish ev m []).1 =
  setViewport (viewport_Update (SetContent (renderTasksView (ev_now ev) m) (vp m)) (ev_msg ev)) m.
Proof.
  intros [H0 Hlt]. unfold finish.
  destruct (Z.ltb_spec 0 (len (tasks m))); [| lia].
  destruct (Z.leb_spec (len (tasks m)) (cursor m)); [lia |].
  destruct (Z.ltb_spec (cursor m) 0); [lia |]. reflexivity.
Qed.

(** C9. In the list view of a store that is not
    empty, the up key with the cursor at index 0 and the down key with the
    cursor at the last index leave the cursor where it is: there is no
    wraparound. The store, the input, the mode, the help text, the sizes
    and the display toggles are as they were. As on every key, a pending
    error other than the error of a missing file is dropped, and the list
    is rendered again into the viewport, which is handed the key. *)
Theorem boundary_moves_keep_cursor :
  forall now id m f,
    mode m = modeViewTasks -> tasks m <> [] ->
    (cursor m = 0 ->
     exists m' cmd,
       Update (mkEvent (Key KeyUp) now id) m f = Some (m', cmd, f) /\
       cursor m' = 0 /\ sameSession m m' /\
       err m' = match err m with
                | Some e => if os_IsNotExist e then Some e else None
                | None => None
                end /\
       vp m' = viewport_Update (SetContent (renderTasksView now m) (vp m)) (Key KeyUp)) /\
    (cursor m = len (tasks m) - 1 ->
     exists m' cmd,
       Update (mkEvent (Key KeyDown) now id) m f = Some (m', cmd, f) /\
       cursor m' = len (tasks m) - 1 /\ sameSession m m' /\
       err m' = match err m with
                | Some e => if os_IsNotExist e then Some e else None
                | None => None
                end /\
       vp m' = viewport_Update (SetContent (renderTasksView now m) (vp m)) (Key KeyDown)).
Proof.
  intros now id m f Hm Hne.
  assert (Hlen : 0 < len (tasks m)).
  { unfold len. destruct (tasks m); [done | simpl; lia]. }
  split; intros Hc.
  - pose proof (clearErr_same KeyUp m) as (Hs & Hv & Hr).
    pose proof (clearErr_navigation KeyUp m (or_introl eq_refl)) as He.
    unfold Update, keyCase. cbn [ev_msg ev_now].
    rewrite clearErr_mode, Hm. cbn [Matches isRune]. simpl.
    unfold upCase. rewrite clearErr_tasks, clearErr_cursor, Hc.
    destruct (Z.ltb_spec 0 (len (tasks m))); [| lia]. simpl.
    pose proof (finish_in_range (mkEvent (Key KeyUp) now id) (clearErr KeyUp m)) as Hf.
    rewrite clearErr_tasks, clearErr_cursor, Hc in Hf. specialize (Hf ltac:(lia)).
    destruct (finish _ _ _) as [m' cmd]. cbn [fst ev_now ev_msg] in Hf. subst m'.
    do 2 eexists. split; [reflexivity |]. rewrite Hr, Hv.
    unfold sameSession in *. simpl. rewrite clearErr_cursor. by repeat split; try apply Hs.
  - pose proof (clearErr_same KeyDown m) as (Hs & Hv & Hr).
    pose proof (clearErr_navigation KeyDown m (or_intror eq_refl)) as He.
    unfold Update, keyCase. cbn [ev_msg ev_now].
    rewrite clearErr_mode, Hm. cbn [Matches isRune]. simpl.
    unfold downCase. rewrite clearErr_tasks, clearErr_cursor, Hc.
    destruct (Z.ltb_spec 0 (len (tasks m))); [| lia].
    destruct (Z.ltb_spec (len (tasks m) - 1) (len (tasks m) - 1)); [lia |]. simpl.
    pose proof (finish_in_range (mkEvent (Key KeyDown) now id) (clearErr KeyDown m)) as Hf.
    rewrite clearErr_tasks, clearErr_cursor, Hc in Hf. specialize (Hf ltac:(lia)).
    destruct (finish _ _ _) as [m' cmd]. cbn [fst ev_now ev_msg] in Hf. subst m'.
    do 2 eexists. split; [reflexivity |]. rewrite Hr, Hv.
    unfold sameSession in *. simpl. rewrite clearErr_cursor. by repeat split; try apply Hs.
Qed.

End Navigation.

(** * Example sessions, step by step *)

Lemma toggle_keeps_at_most_one_in_progress_witness :
  I1 (viewing twoTasks 0 None screen) /\
  (exists states,
      runToggles (E := plainTerminal)
        [(0%nat, today + 5 * Second); (1%nat, today + 9 * Second); (7%nat, today + 12 * Second)]
        (viewing twoTasks 0 None screen) emptyFile = Some states /\
      length states = 3%nat /\ Forall I1 states) /\
  (exists m' cmd,
      Update (E := plainTerminal) (mkEvent (Key toggleKey) (today + 5 * Second) 0)
        (viewing twoTasks 0 None screen) emptyFile = Some (m', cmd, emptyFile) /\
      tasks m' !! 1%nat =
        Some (exampleTask 2 Paused (35 * Second) today)).
Proof.
  assert (HI : I1 (viewing twoTasks 0 None screen)) by (vm_compute; lia).
  split; [exact HI |]. split.
  - exact (proj1 (@toggle_keeps_at_most_one_in_progress plainTerminal) _ _ _ HI).
  - destruct (proj2 (proj2 (@toggle_keeps_at_most_one_in_progress plainTerminal))
                (today + 5 * Second) 0 (viewing twoTasks 0 None screen) emptyFile
                0%nat (exampleTask 1 Pending 0 0) eq_refl eq_refl eq_refl
                (or_introl eq_refl))
      as (m' & cmd & HU & _ & _ & Hother & _).
    exists m', cmd. split; [exact HU |].
    destruct (Hother 1%nat (exampleTask 2 InProgress (30 * Second) today)
                ltac:(lia) eq_refl) as (u' & Hu' & Hstop).
    rewrite Hu'. f_equal. vm_compute in Hstop. exact Hstop.
Defined.

(** Scenario B on a fresh task: started at [today], toggled 5 s later. *)
Lemma toggle_in_progress_pauses_and_accrues_witness :
  exists m1 cmd1 m2 cmd2 t2,
    Update (E := plainTerminal) (mkEvent (Key toggleKey) today 0)
      (viewing [exampleTask 1 Pending 0 0] 0 None screen) emptyFile
      = Some (m1, cmd1, emptyFile) /\
    Update (E := plainTerminal) (mkEvent (Key toggleKey) (today + 5 * Second) 0) m1 emptyFile
      = Some (m2, cmd2, emptyFile) /\
    tasks m2 !! 0%nat = Some t2 /\ Status t2 = Paused /\ TimeSpent t2 = 5 * Second.
Proof.
  apply (proj2 (@toggle_in_progress_pauses_and_accrues plainTerminal)
           today 0 0 (viewing [exampleTask 1 Pending 0 0] 0 None screen) emptyFile
           (exampleTask 1 Pending 0 0)).
  - reflexivity.
  - reflexivity.
  - reflexivity.
  - left. reflexivity.
  - reflexivity.
  - unfold today. lia.
Defined.

(** The toggle of a task in progress with no start instant adds nothing,
    where [now − last_started_at] is the whole clock reading. *)
Lemma toggle_in_progress_zero_start_counterexample :
  mode (viewing [craftedTask] 0 None screen) = modeViewTasks /\
  cursor (viewing [craftedTask] 0 None screen) = 0 /\
  tasks (viewing [craftedTask] 0 None screen) !! 0%nat = Some craftedTask /\
  Status craftedTask = InProgress /\
  exists m' cmd t',
    Update (E := plainTerminal) (mkEvent (Key toggleKey) today 0)
      (viewing [craftedTask] 0 None screen) emptyFile = Some (m', cmd, emptyFile) /\
    tasks m' !! 0%nat = Some t' /\
    Status t' = Paused /\
    TimeSpent t' = TimeSpent craftedTask /\
    TimeSpent t' <> TimeSpent craftedTask + (today - LastStartedAt craftedTask).
Proof.
  repeat split; try reflexivity.
  do 3 eexists. split; [vm_compute; reflexivity |].
  split; [reflexivity |]. split; [reflexivity |]. split; [reflexivity |].
  vm_compute. discriminate.
Qed.

Lemma quit_pauses_before_saving_witness :
  exists m' f',
    Update (E := plainTerminal) (mkEvent (Key quitKey) (today + 5 * Second) 0)
      (viewing twoTasks 1 None screen) emptyFile = Some (m', Single CmdQuit, f') /\
    fileState f' = Stored (tasks m') /\
    tasks m' = [exampleTask 1 Pending 0 0; exampleTask 2 Paused (35 * Second) today].
Proof.
  destruct (@quit_pauses_before_saving plainTerminal quitKey (today + 5 * Second) 0
              (viewing twoTasks 1 None screen) emptyFile eq_refl eq_refl)
    as (m' & f' & HU & _ & Hw & _ & _ & _ & _).
  exists m', f'. split; [exact HU |].
  destruct (Hw eq_refl) as [-> _]. split; [reflexivity |].
  vm_compute in HU. injection HU as <- _. reflexivity.
Defined.

(** Scenario E. *)
Lemma ensureCursorVisible_offset_witness :
  YOffset (vp (ensureCursorVisible
                 (viewing twentyTasks 17 None (mkViewport 0 5 80 [])))) = 13.
Proof.
  apply (proj1 (proj2 ensureCursorVisible_offset)).
  - reflexivity.
  - reflexivity.
  - reflexivity.
  - simpl. lia.
Defined.

(** On an empty store the offset stays above the cursor. *)
Lemma ensureCursorVisible_empty_counterexample :
  cursor (viewing [] 0 None (mkViewport 2 5 80 []))
    < YOffset (vp (viewing [] 0 None (mkViewport 2 5 80 []))) /\
  YOffset (vp (ensureCursorVisible (viewing [] 0 None (mkViewport 2 5 80 [])))) = 2 /\
  YOffset (vp (ensureCursorVisible (viewing [] 0 None (mkViewport 2 5 80 []))))
    <> cursor (viewing [] 0 None (mkViewport 2 5 80 [])).
Proof. simpl. lia. Qed.

(** The error of the missing file is in the session state. *)
Lemma missing_file_error_recorded_counterexample :
  err (initialModel (mkFile NoFile true)).1 = Some ErrNotExist /\
  err (initialModel (mkFile NoFile true)).1 <> None.
Proof. split; [reflexivity | discriminate]. Qed.

(** The crafted task under the three keys and in the renderer. *)
Lemma zero_start_adds_no_time_witness :
  (exists m' cmd,
      Update (E := plainTerminal) (mkEvent (Key toggleKey) today 0)
        (viewing [craftedTask] 0 None screen) emptyFile = Some (m', cmd, emptyFile) /\
      tasks m' !! 0%nat = Some (setStatus Paused craftedTask)) /\
  (exists m' cmd f',
      Update (E := plainTerminal) (mkEvent (Key KeyCtrlC) today 0)
        (viewing [craftedTask] 0 None screen) emptyFile = Some (m', cmd, f') /\
      tasks m' !! 0%nat = Some (setStatus Paused craftedTask)) /\
  timeDisplay today craftedTask = 90 * Second.
Proof.
  destruct (@zero_start_adds_no_time plainTerminal today 0
              (viewing [craftedTask] 0 None screen) emptyFile 0%nat craftedTask
              eq_refl ltac:(simpl; lia) eq_refl eq_refl eq_refl)
    as (_ & Hcur & Hquit & Htime & _).
  split; [exact (proj1 (Hcur eq_refl)) |].
  split; [exact (Hquit KeyCtrlC eq_refl) |].
  exact Htime.
Defined.

(** Scenario A. *)
Lemma add_validates_and_prepends_witness :
  exists m' cmd,
    Update (E := plainTerminal) (mkEvent (Key KeyEnter) today 7)
      (adding [] (lit "Buy milk")) emptyFile = Some (m', cmd, emptyFile) /\
    tasks m' = [mkTask 7 (lit "Buy milk") Pending 0 0 today] /\
    cursor m' = 0.
Proof.
  destruct (@add_validates_and_prepends plainTerminal today 7
              (adding [] (lit "Buy milk")) emptyFile eq_refl)
    as (m' & cmd & HU & _ & Hadd).
  exists m', cmd. split; [exact HU |].
  assert (Hnb : ~ blank (Value (input (adding [] (lit "Buy milk"))))).
  { intros Hb. inversion Hb; discriminate. }
  destruct (Hadd Hnb) as (Hts & Hc & _). split; [exact Hts | exact Hc].
Defined.

Lemma boundary_moves_keep_cursor_witness :
  (exists m' cmd,
      Update (E := plainTerminal) (mkEvent (Key KeyUp) today 0)
        (viewing twoTasks 0 None screen) emptyFile = Some (m', cmd, emptyFile) /\
      cursor m' = 0) /\
  (exists m' cmd,
      Update (E := plainTerminal) (mkEvent (Key KeyDown) today 0)
        (viewing twoTasks 1 None screen) emptyFile = Some (m', cmd, emptyFile) /\
      cursor m' = 1).
Proof.
  split.
  - destruct (proj1 (@boundary_moves_keep_cursor plainTerminal today 0
                       (viewing twoTasks 0 None screen) emptyFile eq_refl
                       ltac:(discriminate)) eq_refl)
      as (m' & cmd & HU & Hc & _).
    exists m', cmd. split; [exact HU | exact Hc].
  - destruct (proj2 (@boundary_moves_keep_cursor plainTerminal today 0
                       (viewing twoTasks 1 None screen) emptyFile eq_refl
                       ltac:(discriminate)) eq_refl)
      as (m' & cmd & HU & Hc & _).
    exists m', cmd. split; [exact HU | exact Hc].
Defined.

(** The up key at index 0 drops the error of the failed save. *)
Lemma boundary_move_drops_error_counterexample :
  tasks failedQuit <> [] /\ cursor failedQuit = 0 /\
  exists m' cmd,
    Update (E := plainTerminal) (mkEvent (Key KeyUp) today 0) failedQuit emptyFile
      = Some (m', cmd, emptyFile) /\
    cursor m' = 0 /\
    err failedQuit = Some (Errorf errorSave (Errorf errorWriteTasks ErrOS)) /\
    err m' = None /\
    err m' <> err failedQuit.
Proof.
  split; [discriminate |]. split; [reflexivity |].
  do 2 eexists. split; [vm_compute; reflexivity |].
  repeat split; discriminate.
Qed.

Lemma toggle_complete_noop_outside_domain_witness :
  (exists m' cmd,
      Update (E := plainTerminal) (mkEvent (Key toggleKey) today 0)
        (viewing [] 0 (Some ErrNotExist) screen) emptyFile = Some (m', cmd, emptyFile) /\
      tasks m' = []) /\
  (exists m' cmd,
      Update (E := plainTerminal) (mkEvent (Key toggleKey) today 0)
        (viewing [exampleTask 1 Completed (30 * Second) today] 0 None screen) emptyFile
        = Some (m', cmd, emptyFile) /\
      tasks m' = [exampleTask 1 Completed (30 * Second) today]).
Proof.
  split.
  - exact (proj1 (@toggle_complete_noop_outside_domain plainTerminal) toggleKey today 0
             (viewing [] 0 (Some ErrNotExist) screen) emptyFile (or_introl eq_refl) eq_refl).
  - exact (proj1 (proj2 (@toggle_complete_noop_outside_domain plainTerminal) today 0
             (viewing [exampleTask 1 Completed (30 * Second) today] 0 None screen) emptyFile
             0%nat (exampleTask 1 Completed (30 * Second) today)
             eq_refl eq_refl eq_refl eq_refl)).
Defined.

(** * More of the program *)

Section KeyCases.
Context {E : Externals}.

(** ** The shape of what a key case returns *)

Lemma clearErr_helpMsg k m : helpMsg (clearErr k m) = helpMsg m.
Proof. destruct (clearErr_cases k m) as [-> | ->]; reflexivity. Qed.

Lemma clearErr_quitting k m : quitting (clearErr k m) = quitting m.
Proof. destruct (clearErr_cases k m) as [-> | ->]; reflexivity. Qed.

Lemma finish_shape ev m cmds :
  exists c v, (finish ev m cmds).1 = setViewport v (setCursor c m) /\
              0 <= c < Z.max 1 (len (tasks m)).
Proof.
  unfold finish. cbn [fst].
  destruct (Z.ltb_spec 0 (len (tasks m))).
  - destruct (Z.leb_spec (len (tasks m)) (cursor m)); cbn [cursor setCursor].
    + destruct (Z.ltb_spec (len (tasks m) - 1) 0); [lia |].
      do 2 eexists; split; [reflexivity | lia].
    + destruct (Z.ltb_spec (cursor m) 0).
      * do 2 eexists; split; [reflexivity | lia].
      * exists (cursor m). eexists. split; [by destruct m | lia].
  - do 2 eexists; split; [reflexivity | lia].
Qed.

(** Every way out of the key case, with the session it leaves: [mc] is the
    session after the head of the case. *)
Lemma keyCase_inv ev k m f fl :
  keyCase ev k m f = Some fl ->
  let mc := clearErr k m in
  (mode m = modeViewTasks /\
   ((exists v, fl = Continue (setViewport v (setShowLineNumbers (negb (showLineNumbers mc)) mc)) [] /\
               Matches k ToggleLineNumbers = true) \/
    (exists v, fl = Continue (setViewport v (setUseJalaliCalendar (negb (useJalaliCalendar mc)) mc)) [] /\
               Matches k ToggleCalendar = true) \/
    (Matches k Quit = true /\ quitCase (ev_now ev) mc f = Some fl) \/
    (Matches k Quit = false /\
     ((Matches k Add = true /\ addCase mc f = Some fl) \/
      (Matches k Delete = true /\ deleteCase mc f = Some fl) \/
      (Matches k Up = true /\ upCase mc = Some fl) \/
      (Matches k Down = true /\ downCase mc = Some fl) \/
      (Matches k Toggle = true /\ toggleCase (ev_now ev) mc = Some fl) \/
      (Matches k Complete = true /\ completeCase (ev_now ev) mc = Some fl) \/
      (Matches k Delete = false /\ Matches k Toggle = false /\
       Matches k Complete = false /\ fl = Continue mc []))))) \/
  (mode m = modeAddTask /\
   ((Matches k Enter = true /\ enterCase (ev_now ev) (ev_id ev) mc = Some fl) \/
    (Matches k Enter = false /\
     (fl = Continue (setHelpMsg (generateHelp modeViewTasks)
                       (setInput (SetValue [] (Blur (input mc)))
                          (setMode modeViewTasks mc))) [] \/
      fl = Continue (setInput (textinput_Update (input mc) k) mc) [CmdInput])))).
Proof.
  intros H mc. unfold keyCase in H. fold mc in H.
  assert (Hmode : mode mc = mode m) by apply clearErr_mode.
  destruct (mode mc); [left | right]; (split; [done |]).
  - destruct (Matches k ToggleLineNumbers) eqn:?.
    { left. injection H as <-. by eexists. }
    destruct (Matches k ToggleCalendar) eqn:?.
    { right; left. injection H as <-. by eexists. }
    destruct (Matches k Quit) eqn:?; [by right; right; left |].
    do 3 right. split; [done |].
    destruct (Matches k Add) eqn:?; [by left |].
    destruct (Matches k Delete) eqn:?; [by right; left |].
    destruct (Matches k Up) eqn:?; [by right; right; left |].
    destruct (Matches k Down) eqn:?; [by do 3 right; left |].
    destruct (Matches k Toggle) eqn:?; [by do 4 right; left |].
    destruct (Matches k Complete) eqn:?; [by do 5 right; left |].
    do 6 right. by injection H as <-.
  - destruct (Matches k Enter) eqn:?; [by left |].
    right. split; [done |].
    destruct (Matches k Esc); injection H as <-; [by left | by right].
Qed.

Lemma setTasks_same m : setTasks (tasks m) m = m.
Proof. by destruct m. Qed.

Lemma toggleCase_shape now m fl :
  toggleCase now m = Some fl ->
  exists ts, fl = Continue (setTasks ts m) [] /\ length ts = length (tasks m).
Proof.
  intros H. unfold toggleCase in H.
  destruct (_ && _); [| injection H as <-; exists (tasks m); by rewrite setTasks_same].
  destruct (index _ _) as [task |]; [| discriminate]. simpl in H.
  destruct (Status task); injection H as <-;
    try (eexists; split; [reflexivity |];
         by rewrite length_insert, ?pauseOthers_length).
  exists (tasks m). by rewrite setTasks_same.
Qed.

Lemma completeCase_shape now m fl :
  completeCase now m = Some fl ->
  exists ts, fl = Continue (setTasks ts m) [] /\ length ts = length (tasks m).
Proof.
  intros H. unfold completeCase in H.
  destruct (_ && _); [| injection H as <-; exists (tasks m); by rewrite setTasks_same].
  destruct (index _ _) as [task |]; [| discriminate]. simpl in H.
  injection H as <-. eexists; split; [reflexivity |]. by rewrite length_insert.
Qed.

Lemma quitCase_shape now m f fl :
  quitCase now m f = Some fl ->
  exists e f', fl = Return (setErr e (setTasks (pauseAll now (tasks m)) (setQuitting true m)))
                      (Single CmdQuit) f'.
Proof.
  unfold quitCase. simpl. destruct (saveTasksToFile f _) as [f' [e |]];
    intros [= <-]; [by do 2 eexists |].
  exists (err m), f'. by destruct m.
Qed.

(** The delete case: nothing, or the task at the cursor taken out, with
    the cursor brought back, or the move to the input view. *)
Lemma deleteCase_shape m f fl :
  deleteCase m f = Some fl ->
  (fl = Continue m [] /\ ~ (0 < len (tasks m) /\ cursor m < len (tasks m))) \/
  0 <= cursor m < len (tasks m) /\
  let ts := take (Z.to_nat (cursor m)) (tasks m) ++ drop (S (Z.to_nat (cursor m))) (tasks m) in
  ((ts <> [] /\ exists c, fl = Continue (setCursor c (setTasks ts m)) [] /\
                          c = Z.min (cursor m) (len ts - 1)) \/
   (ts = [] /\
    fl = Return (setHelpMsg (generateHelp modeAddTask)
                   (setInput (Focus (input m))
                      (setMode modeAddTask (setCursor 0 (setTasks ts m)))))
           (Single CmdBlink) f)).
Proof.
  intros H. unfold deleteCase in H.
  destruct (Z.ltb_spec 0 (len (tasks m))); simpl in H;
    [| injection H as <-; left; split; [done | lia]].
  destruct (Z.ltb_spec (cursor m) (len (tasks m)));
    [| injection H as <-; left; split; [done | lia]].
  destruct (Z.ltb_spec (cursor m) 0); [discriminate |].
  right. split; [lia |]. intros ts. cbn [tasks setTasks cursor] in H. fold ts in H.
  assert (Hnil : ts = [] <-> len ts = 0).
  { unfold len. destruct ts; simpl; split; intros; try done; lia. }
  assert (Hpos : 0 <= len ts) by (unfold len; lia).
  destruct (Z.leb_spec (len ts) (cursor m)); simpl in H.
  - destruct (Z.ltb_spec 0 (len ts)).
    + injection H as <-. left. split; [rewrite Hnil; lia |].
      eexists; split; [reflexivity | lia].
    + destruct (Z.eqb_spec (len ts) 0); [| lia].
      injection H as <-. right. split; [by apply Hnil | done].
  - destruct (Z.eqb_spec (len ts) 0); [lia |].
    injection H as <-. left. split; [rewrite Hnil; lia |].
    exists (cursor m). split; [by destruct m | lia].
Qed.

Lemma ensureCursorVisible_shape m : exists v, ensureCursorVisible m = setViewport v m.
Proof.
  unfold ensureCursorVisible.
  destruct (len (tasks m) =? 0); [exists (vp m); by destruct m |].
  destruct (cursor m <? YOffset (vp m)); [by eexists |].
  destruct (_ <=? _); [by eexists | exists (vp m); by destruct m].
Qed.

(** The two navigation cases: the cursor moved by one inside the store,
    and the viewport brought along. *)
Lemma upCase_shape m fl :
  upCase m = Some fl ->
  exists v, fl = Continue (setViewport v (setCursor (if (0 <? len (tasks m)) && (0 <? cursor m)
                                                     then cursor m - 1 else cursor m) m)) [].
Proof.
  unfold upCase. intros H.
  destruct (0 <? len (tasks m)); simpl.
  - destruct (0 <? cursor m); injection H as <-.
    + destruct (ensureCursorVisible_shape (setCursor (cursor m - 1) m)) as [v ->]. by exists v.
    + exists (vp m). by destruct m.
  - injection H as <-. exists (vp m). by destruct m.
Qed.

Lemma downCase_shape m fl :
  downCase m = Some fl ->
  exists v, fl = Continue (setViewport v (setCursor (if (0 <? len (tasks m)) && (cursor m <? len (tasks m) - 1)
                                                     then cursor m + 1 else cursor m) m)) [].
Proof.
  unfold downCase. intros H.
  destruct (0 <? len (tasks m)); simpl.
  - destruct (cursor m <? len (tasks m) - 1); injection H as <-.
    + destruct (ensureCursorVisible_shape (setCursor (cursor m + 1) m)) as [v ->]. by exists v.
    + exists (vp m). by destruct m.
  - injection H as <-. exists (vp m). by destruct m.
Qed.

Lemma enterCase_shape now id m fl :
  enterCase now id m = Some fl ->
  (blank (Value (input m)) /\ fl = Continue m []) \/
  (~ blank (Value (input m)) /\
   fl = Continue (setCursor 0 (setInput (SetValue [] (input m))
                    (setTasks (mkTask id (Value (input m)) Pending 0 0 now :: tasks m) m))) []).
Proof.
  unfold enterCase. intros H. destruct (decide _) as [Hb | Hb]; injection H as <-.
  - left. split; [| done]. unfold blank.
    unfold strings_TrimSpace in Hb.
    apply (f_equal (@rev rune)) in Hb. rewrite rev_involutive in Hb. simpl in Hb.
    assert (Hl : forall s, trimLeftSpace s = [] <-> Forall (fun r => unicode_IsSpace r = true) s).
    { induction s as [| r s IH]; simpl; [split; [constructor | done] |].
      destruct (unicode_IsSpace r) eqn:Hr.
      - rewrite IH. split; [by constructor | by inversion 1].
      - split; [discriminate | inversion 1; congruence]. }
    assert (Hk : forall s, Forall (fun r => unicode_IsSpace r = true) (trimLeftSpace s) ->
                           trimLeftSpace s = []).
    { induction s as [| r s IH]; simpl; [done |].
      destruct (unicode_IsSpace r) eqn:Hr; [done | inversion 1; congruence]. }
    apply Hl in Hb. apply Hl, Hk.
    rewrite List.Forall_forall in *. intros r Hr. apply Hb. by apply List.in_rev in Hr.
  - right. split; [| done]. intros Hbl. apply Hb.
    unfold strings_TrimSpace.
    assert (Hl : forall s, Forall (fun r => unicode_IsSpace r = true) s -> trimLeftSpace s = []).
    { induction s as [| r s IH]; simpl; [done |]. inversion 1; subst.
      destruct (unicode_IsSpace r); [auto | discriminate]. }
    rewrite (Hl _ Hbl). reflexivity.
Qed.

End KeyCases.

Section Frames.
Context {E : Externals}.

(** What [Update] returns, by the kind of message. *)
Lemma Update_inv ev m f m' c f' :
  Update ev m f = Some (m', c, f') ->
  (ev_msg ev = TickMsg /\ m' = m /\ c = Single CmdTick /\ f' = f) \/
  (ev_msg ev = OtherMsg /\ f' = f /\ c = Batch [CmdViewport] /\
   exists c0 v, m' = setViewport v (setCursor c0 m) /\ 0 <= c0 < Z.max 1 (len (tasks m))) \/
  (exists k fl, ev_msg ev = Key k /\ keyCase ev k m f = Some fl /\
     match fl with
     | Return mr cr fr => m' = mr /\ c = cr /\ f' = fr
     | Continue mk cmds =>
         f' = f /\ c = Batch (cmds ++ [CmdViewport]) /\
         exists c0 v, m' = setViewport v (setCursor c0 mk) /\
                      0 <= c0 < Z.max 1 (len (tasks mk))
     end).
Proof.
  unfold Update. intros H. destruct (ev_msg ev) as [| k |].
  - left. by injection H as <- <- <-.
  - right; right. destruct (keyCase ev k m f) as [fl |] eqn:Hfl; [| discriminate].
    simpl in H. exists k, fl. split; [done |]. split; [done |].
    destruct fl as [mr cr fr | mk cmds].
    + by injection H as <- <- <-.
    + destruct (finish_shape ev mk cmds) as (c0 & v & Hs & Hc).
      unfold finish in H, Hs. cbn [fst] in Hs. injection H as <- <- <-.
      split; [done |]. split; [done |]. by exists c0, v.
  - right; left. destruct (finish_shape ev m []) as (c0 & v & Hs & Hc).
    unfold finish in H, Hs. cbn [fst] in Hs. injection H as <- <- <-.
    split; [done |]. split; [done |]. split; [done |]. by exists c0, v.
Qed.

#[local] Arguments Matches : simpl never.

Ltac key_leaves H :=
  let Hmode := fresh "Hmode" in
  let Hk := fresh "Hk" in
  let Hnq := fresh "Hnq" in
  let v := fresh "v" in
  apply keyCase_inv in H; cbv zeta in H;
  destruct H as
    [[Hmode [(v & -> & Hk) | [(v & -> & Hk) | [[Hk H] | [Hnq
       [[Hk H] | [[Hk H] | [[Hk H] | [[Hk H] | [[Hk H] | [[Hk H] | (? & ? & ? & ->)]]]]]]]]]]]
    | [Hmode [[Hk H] | [Hk [-> | ->]]]]];
  [ | | apply quitCase_shape in H as (? & ? & ->)
  | unfold addCase in H; injection H as <-
  | apply deleteCase_shape in H as [(-> & ?) | (? & [(? & ? & -> & ?) | (? & ->)])]
  | apply upCase_shape in H as [? ->]
  | apply downCase_shape in H as [? ->]
  | apply toggleCase_shape in H as (? & -> & ?)
  | apply completeCase_shape in H as (? & -> & ?)
  |
  | apply enterCase_shape in H as [(? & ->) | (? & ->)]
  | | ].

Lemma keyCase_valid ev k m f fl :
  validCursor m -> keyCase ev k m f = Some fl ->
  match fl with Return m' _ _ => validCursor m' | Continue _ _ => True end.
Proof.
  intros [H0 Hlt] H. rewrite <- (clearErr_cursor k m) in H0, Hlt.
  rewrite <- (clearErr_tasks k m) in Hlt.
  key_leaves H; try done; unfold validCursor; simpl.
  - unfold len in *. unfold pauseAll. by rewrite length_fmap.
  - lia.
Qed.

Lemma keyCase_help ev k m f fl :
  helpInStep m -> keyCase ev k m f = Some fl -> helpInStep (flowModel fl).
Proof.
  unfold helpInStep. intros Hh H.
  rewrite <- (clearErr_helpMsg k m), <- (clearErr_mode k m) in Hh.
  key_leaves H; simpl; done.
Qed.

Lemma keyCase_quit_only ev k m f fl :
  keyCase ev k m f = Some fl ->
  (mode m = modeViewTasks /\ Matches k Quit = true) \/
  match fl with
  | Return m' c f' => f' = f /\ c = Single CmdBlink /\ quitting m' = quitting m
  | Continue m' _ => quitting m' = quitting m
  end.
Proof.
  intros H. pose proof (clearErr_quitting k m) as Hq.
  key_leaves H; simpl; auto.
Qed.

Lemma keyCase_store ev k m f fl :
  keyCase ev k m f = Some fl ->
  tasks (flowModel fl) = tasks m \/
  (mode m = modeViewTasks /\
   (Matches k Delete || Matches k Toggle || Matches k Complete || Matches k Quit) = true) \/
  (mode m = modeAddTask /\ Matches k Enter = true /\ ~ blank (Value (input m))).
Proof.
  intros H. pose proof (clearErr_tasks k m) as Ht. pose proof (clearErr_input k m) as Hi.
  key_leaves H; simpl; auto;
    try (right; left; split; [done |];
         match goal with Hm : Matches _ _ = true |- _ => rewrite Hm end;
         by rewrite ?orb_true_r).
  right; right. by rewrite <- Hi.
Qed.

Lemma keyCase_err ev k m f fl :
  keyCase ev k m f = Some fl ->
  (mode m = modeViewTasks /\ Matches k Quit = true) \/
  err (flowModel fl) = err (clearErr k m).
Proof. intros H. key_leaves H; simpl; auto. Qed.

End Frames.

Section SessionRules.
Context {E : Externals}.

#[local] Arguments Matches : simpl never.

Lemma initialModel_validCursor f0 : validCursor (initialModel f0).1.
Proof.
  unfold initialModel, validCursor.
  destruct (loadTasksFromFile f0) as [ts e]. simpl. unfold len. lia.
Qed.

Lemma Update_validCursor ev m f :
  validCursor m -> exists r, Update ev m f = Some r /\ validCursor r.1.1.
Proof.
  intros Hv. destruct (Update_total ev m f (proj1 Hv)) as (r & Hr & _).
  exists r. split; [done |]. destruct r as [[m' c] f']. cbn [fst].
  destruct (Update_inv _ _ _ _ _ _ Hr)
    as [(_ & -> & _) | [(_ & _ & _ & c0 & v & -> & Hc) | (k & fl & _ & Hfl & Hres)]];
    [done | done |].
  pose proof (keyCase_valid _ _ _ _ _ Hv Hfl) as Hret.
  destruct fl as [mr cr fr | mk cmds].
  - by destruct Hres as (-> & _).
  - by destruct Hres as (_ & _ & c0 & v & -> & Hc).
Qed.

(** X1. The cursor always points into the store: from a session whose
    cursor is 0 on an empty store or an index of the store otherwise, every
    message is handled without a panic and leaves such a session; the
    session [initialModel] builds is one, whatever the tasks file holds, so
    every session runs to the end of any sequence of messages with a valid
    cursor after each. *)
Theorem cursor_stays_in_store :
  (forall ev m f,
      validCursor m -> exists r, Update ev m f = Some r /\ validCursor r.1.1) /\
  (forall f0, validCursor (initialModel f0).1) /\
  (forall evs f0,
      exists states, run evs (initialModel f0).1 f0 = Some states /\
                     length states = length evs /\ Forall validCursor states).
Proof.
  split; [apply Update_validCursor |]. split; [apply initialModel_validCursor |].
  intros evs f0. generalize (initialModel_validCursor f0).
  generalize (initialModel f0).1 as m. generalize f0 as f. clear f0.
  induction evs as [| ev evs IH]; intros f m Hv.
  - exists []. by repeat split.
  - simpl. destruct (Update_validCursor ev m f Hv) as (r & -> & Hv'). simpl.
    destruct (IH r.2 r.1.1 Hv') as (states & -> & Hlen & Hall). simpl.
    eexists; split; [reflexivity |]. split; [simpl; lia | by constructor].
Qed.

(** X2. The help line follows the mode: if the help text of a session is
    the one [generateHelp] gives for its mode, it still is after any message,
    and it is so in the session [initialModel] builds. *)
Theorem help_text_follows_mode :
  (forall ev m f r,
      helpInStep m -> Update ev m f = Some r -> helpInStep r.1.1) /\
  (forall f0, helpInStep (initialModel f0).1).
Proof.
  split.
  - intros ev m f [[m' c] f'] Hh Hr. cbn [fst].
    destruct (Update_inv _ _ _ _ _ _ Hr)
      as [(_ & -> & _) | [(_ & _ & _ & c0 & v & -> & Hc) | (k & fl & _ & Hfl & Hres)]];
      [done | done |].
    pose proof (keyCase_help _ _ _ _ _ Hh Hfl) as Hh'.
    destruct fl as [mr cr fr | mk cmds].
    + by destruct Hres as (-> & _).
    + by destruct Hres as (_ & _ & c0 & v & -> & Hc).
  - intros f0. unfold initialModel, helpInStep.
    by destruct (loadTasksFromFile f0) as [ts e].
Qed.

(** X3. Only a quit key in the list view ends the session or touches the
    tasks file: when [Update] returns the quit command, a changed file or a
    changed quitting flag, the message was a key bound to quit and the
    session was in the list view. In the input view no key quits. *)
Theorem only_quit_key_quits_and_saves :
  forall ev m f m' c f',
    Update ev m f = Some (m', c, f') ->
    c = Single CmdQuit \/ f' <> f \/ quitting m' <> quitting m ->
    exists k, ev_msg ev = Key k /\ mode m = modeViewTasks /\ Matches k Quit = true.
Proof.
  intros ev m f m' c f' Hr Hq.
  destruct (Update_inv _ _ _ _ _ _ Hr)
    as [(_ & -> & -> & ->) | [(_ & -> & -> & c0 & v & -> & Hc) | (k & fl & Hk & Hfl & Hres)]].
  - exfalso. destruct Hq as [Hq | [Hq | Hq]]; [discriminate | done | done].
  - exfalso. destruct Hq as [Hq | [Hq | Hq]]; [discriminate | done | done].
  - exists k. split; [done |].
    destruct (keyCase_quit_only _ _ _ _ _ Hfl) as [Hquit | Hno]; [done | exfalso].
    destruct fl as [mr cr fr | mk cmds].
    + destruct Hres as (-> & -> & ->). destruct Hno as (-> & -> & Hqq).
      destruct Hq as [Hq | [Hq | Hq]]; [discriminate | done | done].
    + destruct Hres as (-> & -> & c0 & v & -> & Hc). simpl in Hq.
      destruct Hq as [Hq | [Hq | Hq]]; [discriminate | done | done].
Qed.

(** X4. The store changes only by its own keys: if the tasks after a
    message are not the tasks before it, the message was, in the list view,
    a key bound to delete, toggle, complete or quit, or, in the input view,
    the enter key on a text that is not blank. *)
Theorem store_changes_only_by_its_keys :
  forall ev m f m' c f',
    Update ev m f = Some (m', c, f') ->
    tasks m' <> tasks m ->
    exists k, ev_msg ev = Key k /\
      ((mode m = modeViewTasks /\
        (Matches k Delete || Matches k Toggle || Matches k Complete || Matches k Quit) = true) \/
       (mode m = modeAddTask /\ Matches k Enter = true /\ ~ blank (Value (input m)))).
Proof.
  intros ev m f m' c f' Hr Hne.
  destruct (Update_inv _ _ _ _ _ _ Hr)
    as [(_ & -> & _) | [(_ & _ & _ & c0 & v & -> & Hc) | (k & fl & Hk & Hfl & Hres)]];
    [done | done |].
  exists k. split; [done |].
  destruct (keyCase_store _ _ _ _ _ Hfl) as [Hsame | Hkeys]; [exfalso | done].
  apply Hne. rewrite <- Hsame.
  destruct fl as [mr cr fr | mk cmds].
  - by destruct Hres as (-> & _).
  - by destruct Hres as (_ & _ & c0 & v & -> & Hc).
Qed.

Lemma clearsErrors_shown k m : clearsErrors k = true -> shownError (clearErr k m) = None.
Proof.
  unfold clearsErrors, clearErr, shownError. intros Hk.
  destruct (err m) as [e |] eqn:He; [| by rewrite He].
  rewrite Hk. destruct (os_IsNotExist e) eqn:Hne; simpl; [| done].
  by rewrite He, Hne.
Qed.

(** X5. An error is shown until the next key: after any key other than
    the two quit keys ("q" and ctrl+c), in either view, the session holds
    no error that [View] would show, and holds no error it did not hold
    before; a tick or a message that is not a key leaves the error as
    it is. *)
Theorem next_key_clears_shown_error :
  (forall k now id m f m' c f',
      clearsErrors k = true ->
      Update (mkEvent (Key k) now id) m f = Some (m', c, f') ->
      shownError m' = None /\ (err m' = None \/ err m' = err m)) /\
  (forall ev m f m' c f',
      ev_msg ev = TickMsg \/ ev_msg ev = OtherMsg ->
      Update ev m f = Some (m', c, f') -> err m' = err m).
Proof.
  split.
  - intros k now id m f m' c f' Hk Hr.
    assert (Hnq : Matches k Quit = false).
    { unfold clearsErrors in Hk. unfold Matches.
      destruct (isRune k 113); [by rewrite andb_false_r in Hk |].
      by destruct k. }
    destruct (Update_inv _ _ _ _ _ _ Hr)
      as [(Hm & _) | [(Hm & _) | (k' & fl & Hk' & Hfl & Hres)]];
      [discriminate | discriminate |].
    cbn [ev_msg] in Hk'. injection Hk' as <-.
    destruct (keyCase_err _ _ _ _ _ Hfl) as [[_ Hquit] | He]; [congruence |].
    assert (Hm' : err m' = err (clearErr k m)).
    { rewrite <- He. destruct fl as [mr cr fr | mk cmds].
      - by destruct Hres as (-> & _).
      - by destruct Hres as (_ & _ & c0 & v & -> & Hc). }
    split.
    + pose proof (clearsErrors_shown k m Hk) as Hs.
      unfold shownError in *. by rewrite Hm'.
    + rewrite Hm'. apply clearErr_err.
  - intros ev m f m' c f' Hmsg Hr.
    destruct (Update_inv _ _ _ _ _ _ Hr)
      as [(_ & -> & _) | [(_ & _ & _ & c0 & v & -> & Hc) | (k & fl & Hk & _)]];
      [done | done |].
    destruct Hmsg as [Hmsg | Hmsg]; congruence.
Qed.

End SessionRules.

Section Editing.
Context {E : Externals}.

Lemma Update_delete_eq now id m f :
  mode m = modeViewTasks ->
  Update (mkEvent (Key deleteKey) now id) m f =
  (fl ← deleteCase (clearErr deleteKey m) f;
   match fl with
   | Return m c f' => Some (m, c, f')
   | Continue m cmds => Some (finish (mkEvent (Key deleteKey) now id) m cmds, f)
   end).
Proof.
  intros Hm. unfold Update, keyCase. cbn [ev_msg ev_now].
  rewrite clearErr_mode, Hm. reflexivity.
Qed.

Lemma Update_up_eq now id m f :
  mode m = modeViewTasks ->
  Update (mkEvent (Key KeyUp) now id) m f =
  (fl ← upCase (clearErr KeyUp m);
   match fl with
   | Return m c f' => Some (m, c, f')
   | Continue m cmds => Some (finish (mkEvent (Key KeyUp) now id) m cmds, f)
   end).
Proof.
  intros Hm. unfold Update, keyCase. cbn [ev_msg ev_now].
  rewrite clearErr_mode, Hm. reflexivity.
Qed.

Lemma Update_down_eq now id m f :
  mode m = modeViewTasks ->
  Update (mkEvent (Key KeyDown) now id) m f =
  (fl ← downCase (clearErr KeyDown m);
   match fl with
   | Return m c f' => Some (m, c, f')
   | Continue m cmds => Some (finish (mkEvent (Key KeyDown) now id) m cmds, f)
   end).
Proof.
  intros Hm. unfold Update, keyCase. cbn [ev_msg ev_now].
  rewrite clearErr_mode, Hm. reflexivity.
Qed.

(** The end of [Update] brings the cursor to the nearest index of the store. *)
Lemma finish_cursor_exact ev m cmds :
  cursor (finish ev m cmds).1 = Z.max 0 (Z.min (cursor m) (len (tasks m) - 1)).
Proof.
  unfold finish. cbn [fst].
  destruct (Z.ltb_spec 0 (len (tasks m))); cbn [cursor setViewport setCursor].
  - destruct (Z.leb_spec (len (tasks m)) (cursor m)); cbn [cursor setCursor].
    + destruct (Z.ltb_spec (len (tasks m) - 1) 0); cbn [cursor setCursor]; lia.
    + destruct (Z.ltb_spec (cursor m) 0); cbn [cursor setCursor]; lia.
  - unfold len in *. lia.
Qed.

Lemma delete_lookup {A} (l : list A) c :
  (forall i, (i < c)%nat -> (take c l ++ drop (S c) l) !! i = l !! i) /\
  (forall i, (c <= i)%nat -> (take c l ++ drop (S c) l) !! i = l !! S i).
Proof.
  split; intros i Hi.
  - destruct (decide (c <= length l)%nat).
    + rewrite lookup_app_l by (rewrite length_take; lia). by apply lookup_take_lt.
    + rewrite take_ge, drop_ge by lia. by rewrite app_nil_r.
  - destruct (decide (c <= length l)%nat).
    + rewrite lookup_app_r by (rewrite length_take; lia).
      rewrite lookup_drop, length_take. f_equal. lia.
    + rewrite take_ge, drop_ge by lia. rewrite app_nil_r.
      rewrite !(lookup_ge_None_2 l) by lia. done.
Qed.

(** X6. The delete key in the list view, with the cursor on a task: the
    task at the cursor leaves the store and nothing else does; the tasks
    before it keep their index, the tasks after it move up by one; the file
    is not touched; the cursor stays on the same index, or moves to the new
    last index when the last task of the list was deleted; and the session
    stays in the list view as long as a task is left. *)
Theorem delete_removes_task_at_cursor :
  forall now id m f c t,
    mode m = modeViewTasks -> cursor m = Z.of_nat c -> tasks m !! c = Some t ->
    exists m' cmd,
      Update (mkEvent (Key deleteKey) now id) m f = Some (m', cmd, f) /\
      tasks m' = take c (tasks m) ++ drop (S c) (tasks m) /\
      S (length (tasks m')) = length (tasks m) /\
      (forall i, (i < c)%nat -> tasks m' !! i = tasks m !! i) /\
      (forall i, (c <= i)%nat -> tasks m' !! i = tasks m !! S i) /\
      cursor m' = Z.max 0 (Z.min (Z.of_nat c) (len (tasks m) - 2)) /\
      (tasks m' <> [] -> mode m' = modeViewTasks).
Proof.
  intros now id m f c t Hm Hc Ht.
  pose proof (lookup_lt_Some _ _ _ Ht) as Hlt.
  rewrite (Update_delete_eq now id m f Hm).
  destruct (deleteCase_total (clearErr deleteKey m) f) as (fl & Hfl & _);
    [rewrite clearErr_cursor; lia |].
  rewrite Hfl. cbn [mbind option_bind].
  assert (Hlen : S (length (take c (tasks m) ++ drop (S c) (tasks m))) = length (tasks m)).
  { rewrite length_app, length_take, length_drop. lia. }
  destruct (delete_lookup (tasks m) c) as [Hbefore Hafter].
  apply deleteCase_shape in Hfl.
  rewrite clearErr_cursor, clearErr_tasks, Hc, Nat2Z.id in Hfl. cbv zeta in Hfl.
  destruct Hfl as [(_ & Hguard) | (_ & [(Hne & c' & -> & Hc') | (Hnil & ->)])].
  - exfalso. apply Hguard. unfold len. lia.
  - set (ts := take c (tasks m) ++ drop (S c) (tasks m)) in *.
    match goal with |- context [finish ?ev ?mm ?cc] =>
      pose proof (finish_tasks ev mm cc) as Hft;
      pose proof (finish_mode ev mm cc) as Hfm;
      pose proof (proj2 (finish_cursor ev mm cc)) as Hfc;
      destruct (finish ev mm cc) as [m' cmd] end.
    cbn [fst tasks cursor mode setCursor setTasks] in *.
    exists m', cmd. split; [done |]. rewrite Hft.
    split; [done |]. split; [done |]. split; [done |]. split; [done |].
    assert (Hts : len ts = len (tasks m) - 1) by (unfold len; lia).
    assert (Hpos : 0 < len ts).
    { unfold len. destruct ts; [done | simpl; lia]. }
    split.
    + rewrite Hfc by lia. lia.
    + intros _. by rewrite Hfm, clearErr_mode.
  - do 2 eexists. split; [reflexivity |]. cbn [tasks cursor mode setTasks setCursor setMode setInput setHelpMsg].
    split; [done |]. split; [done |]. split; [done |]. split; [done |].
    split; [| done].
    assert (Hts : length (tasks m) = 1%nat) by (rewrite Hnil in Hlen; simpl in Hlen; lia).
    unfold len. rewrite Hts. lia.
Qed.

(** X7. Deleting the only task of the store moves the session to the input
    view: the store is empty, the cursor is 0, the input is focused with
    the text it held, the help line is the one of the input view, and
    [Update] returns the blink command at once, without rendering the list
    again or passing the key to the viewport. *)
Theorem delete_last_task_opens_input :
  forall now id m f t,
    mode m = modeViewTasks -> cursor m = 0 -> tasks m = [t] ->
    exists m',
      Update (mkEvent (Key deleteKey) now id) m f = Some (m', Single CmdBlink, f) /\
      tasks m' = [] /\ cursor m' = 0 /\ mode m' = modeAddTask /\
      input m' = Focus (input m) /\
      helpMsg m' = generateHelp modeAddTask /\
      vp m' = vp m /\ quitting m' = quitting m.
Proof.
  intros now id m f t Hm Hc Ht.
  rewrite (Update_delete_eq now id m f Hm).
  destruct (deleteCase_total (clearErr deleteKey m) f) as (fl & Hfl & _);
    [rewrite clearErr_cursor; lia |].
  rewrite Hfl. cbn [mbind option_bind].
  apply deleteCase_shape in Hfl.
  rewrite clearErr_cursor, clearErr_tasks, Hc, Ht in Hfl. cbv zeta in Hfl. simpl in Hfl.
  destruct Hfl as [(_ & Hguard) | (_ & [(Hne & _) | (_ & ->)])].
  - exfalso. apply Hguard. unfold len. simpl. lia.
  - done.
  - eexists. split; [reflexivity |]. simpl.
    by rewrite clearErr_input, clearErr_vp, clearErr_quitting.
Qed.

(** X8. The two navigation keys in the list view, from a valid cursor:
    the up key moves the cursor to the index before it and the down key to
    the index after it, each stopping at its end of the store; neither
    changes the store, the mode or the file. *)
Theorem navigation_moves_cursor_by_one :
  forall now id m f,
    mode m = modeViewTasks -> validCursor m ->
    (exists m' cmd,
        Update (mkEvent (Key KeyUp) now id) m f = Some (m', cmd, f) /\
        cursor m' = Z.max 0 (cursor m - 1) /\
        tasks m' = tasks m /\ mode m' = modeViewTasks) /\
    (exists m' cmd,
        Update (mkEvent (Key KeyDown) now id) m f = Some (m', cmd, f) /\
        cursor m' = Z.min (cursor m + 1) (Z.max 0 (len (tasks m) - 1)) /\
        tasks m' = tasks m /\ mode m' = modeViewTasks).
Proof.
  intros now id m f Hm [H0 Hlt]. split.
  - rewrite (Update_up_eq now id m f Hm).
    destruct (upCase (clearErr KeyUp m)) as [fl |] eqn:Hfl;
      [| unfold upCase in Hfl; by repeat destruct (_ <? _)].
    cbn [mbind option_bind]. apply upCase_shape in Hfl as [v ->].
    rewrite clearErr_tasks, clearErr_cursor.
    match goal with |- context [finish ?ev ?mm ?cc] =>
      pose proof (finish_tasks ev mm cc) as Hft;
      pose proof (finish_mode ev mm cc) as Hfm;
      pose proof (finish_cursor_exact ev mm cc) as Hfc;
      destruct (finish ev mm cc) as [m' cmd] end.
    cbn [fst tasks cursor mode setCursor setViewport] in *.
    exists m', cmd. split; [done |]. rewrite Hft, Hfm, Hfc, clearErr_tasks, clearErr_mode.
    split; [| done].
    destruct (Z.ltb_spec 0 (len (tasks m))); destruct (Z.ltb_spec 0 (cursor m));
      simpl; lia.
  - rewrite (Update_down_eq now id m f Hm).
    destruct (downCase (clearErr KeyDown m)) as [fl |] eqn:Hfl;
      [| unfold downCase in Hfl; by repeat destruct (_ <? _)].
    cbn [mbind option_bind]. apply downCase_shape in Hfl as [v ->].
    rewrite clearErr_tasks, clearErr_cursor.
    match goal with |- context [finish ?ev ?mm ?cc] =>
      pose proof (finish_tasks ev mm cc) as Hft;
      pose proof (finish_mode ev mm cc) as Hfm;
      pose proof (finish_cursor_exact ev mm cc) as Hfc;
      destruct (finish ev mm cc) as [m' cmd] end.
    cbn [fst tasks cursor mode setCursor setViewport] in *.
    exists m', cmd. split; [done |]. rewrite Hft, Hfm, Hfc, clearErr_tasks, clearErr_mode.
    split; [| done].
    destruct (Z.ltb_spec 0 (len (tasks m)));
      destruct (Z.ltb_spec (cursor m) (len (tasks m) - 1)); simpl; lia.
Qed.

End Editing.

Section Offset.
Context {E : Externals}.

Lemma ensureCursorVisible_cases m :
  tasks m <> [] ->
  (cursor m < YOffset (vp m) /\
   ensureCursorVisible m = setViewport (SetYOffset (cursor m) (vp m)) m) \/
  (YOffset (vp m) + Height (vp m) <= cursor m /\ YOffset (vp m) <= cursor m /\
   ensureCursorVisible m =
     setViewport (SetYOffset (cursor m - Height (vp m) + 1) (vp m)) m) \/
  (YOffset (vp m) <= cursor m < YOffset (vp m) + Height (vp m) /\
   ensureCursorVisible m = m).
Proof.
  intros Hne. unfold ensureCursorVisible.
  assert (Hlen : (len (tasks m) =? 0) = false).
  { apply Z.eqb_neq. unfold len. destruct (tasks m); [done | simpl; lia]. }
  rewrite Hlen.
  destruct (Z.ltb_spec (cursor m) (YOffset (vp m))); [by left |].
  destruct (Z.leb_spec (YOffset (vp m) + Height (vp m)) (cursor m));
    [right; left; by repeat split | right; right; split; [lia | done]].
Qed.

(** X9. [ensureCursorVisible] establishes the relation it tests: on a store
    that is not empty and a viewport whose [Height] is at least 1, the
    offset it leaves satisfies [YOffset <= cursor < YOffset + Height]; a
    session in which this already holds is returned as it is; and a second
    call changes nothing. The relation is between the three numbers only:
    which rows the component draws within that height, given its bordered
    style, is not modelled. *)
Theorem ensureCursorVisible_offset_brackets_cursor :
  forall m,
    tasks m <> [] -> 1 <= Height (vp m) ->
    let m' := ensureCursorVisible m in
    YOffset (vp m') <= cursor m' < YOffset (vp m') + Height (vp m') /\
    (YOffset (vp m) <= cursor m < YOffset (vp m) + Height (vp m) -> m' = m) /\
    ensureCursorVisible m' = m'.
Proof.
  intros m Hne Hh m'. subst m'.
  assert (Hstable : forall n, tasks n <> [] ->
            YOffset (vp n) <= cursor n < YOffset (vp n) + Height (vp n) ->
            ensureCursorVisible n = n).
  { intros n Hn Hin. destruct (ensureCursorVisible_cases n Hn)
      as [(? & _) | [(? & _) | (_ & ->)]]; [lia | lia | done]. }
  destruct (ensureCursorVisible_cases m Hne)
    as [(Hup & ->) | [(Hdn & Hoff & ->) | (Hin & ->)]].
  - split; [simpl; lia |]. split; [lia |]. apply Hstable; [done | simpl; lia].
  - split; [simpl; lia |]. split; [lia |]. apply Hstable; [done | simpl; lia].
  - split; [done |]. split; [done |]. by apply Hstable.
Qed.

End Offset.

Section TimeAccounting.
Context {E : Externals}.

Lemma Time_Sub_same t : Time_Sub t t = 0.
Proof.
  unfold Time_Sub, minDuration, maxDuration. rewrite Z.sub_diag.
  destruct (Z.ltb_spec 0 (- 2 ^ 63)); [lia |].
  destruct (Z.ltb_spec (2 ^ 63 - 1) 0); [lia | done].
Qed.

Lemma Duration_add_0 d : fitsDuration d -> Duration_add d 0 = d.
Proof.
  unfold fitsDuration, Duration_add, minDuration, maxDuration. intros H.
  rewrite Z.add_0_r, Z.mod_small; lia.
Qed.

(** The time shown for a task that is not running is its time spent; for a
    running task it is what the guarded accrual would store. *)
Lemma timeDisplay_idle now t : Status t <> InProgress -> timeDisplay now t = TimeSpent t.
Proof. unfold timeDisplay. by destruct (decide (Status t = InProgress)). Qed.

Lemma timeDisplay_running now t :
  Status t = InProgress -> timeDisplay now t = TimeSpent (accrue now t).
Proof.
  unfold timeDisplay, accrue. intros Hr.
  destruct (decide (Status t = InProgress)); [| done].
  by destruct (negb (Time_IsZero (LastStartedAt t))).
Qed.

Lemma timeDisplay_stopped now s t :
  s <> InProgress ->
  timeDisplay now (setStatus s (if decide (Status t = InProgress) then accrue now t else t))
  = timeDisplay now t.
Proof.
  intros Hs. rewrite timeDisplay_idle by done.
  destruct (decide (Status t = InProgress)) as [Hr | Hr]; simpl.
  - by rewrite timeDisplay_running.
  - by rewrite timeDisplay_idle.
Qed.

Lemma timeDisplay_started now t :
  Status t <> InProgress -> fitsDuration (TimeSpent t) ->
  timeDisplay now (setLastStartedAt now (setStatus InProgress t)) = timeDisplay now t.
Proof.
  intros Hr Hf. rewrite (timeDisplay_idle now t Hr).
  unfold timeDisplay. simpl. destruct (negb (Time_IsZero now)); [| done].
  unfold time_Since. by rewrite Time_Sub_same, Duration_add_0.
Qed.

Lemma Update_toggle_time now id m f i t m' c f' :
  mode m = modeViewTasks -> 0 <= cursor m ->
  Update (mkEvent (Key toggleKey) now id) m f = Some (m', c, f') ->
  tasks m !! i = Some t -> fitsDuration (TimeSpent t) ->
  exists t', tasks m' !! i = Some t' /\ timeDisplay now t' = timeDisplay now t /\
             ID t' = ID t /\ Description t' = Description t /\ CreatedAt t' = CreatedAt t.
Proof.
  intros Hm H0 HU Ht Hf.
  destruct (Z.lt_ge_cases (cursor m) (len (tasks m))) as [Hin | Hout].
  2:{ destruct (Update_toggle_out now id m f Hm H0 Hout) as (m1 & c1 & HU1 & Hts).
      rewrite HU1 in HU. injection HU as <- _ _. exists t. by rewrite Hts. }
  destruct (index_in_range (tasks m) (cursor m) H0 Hin) as (u & _ & Hu).
  destruct (Update_toggle_at now id m f (Z.to_nat (cursor m)) u Hm)
    as (m1 & c1 & HU1 & _ & _ & Hts); [lia | done |].
  rewrite HU1 in HU. injection HU as <- _ _. rewrite Hts. clear Hts HU1.
  set (cn := Z.to_nat (cursor m)) in *.
  pose proof (lookup_lt_Some _ _ _ Hu) as Hlt.
  destruct (decide (i = cn)) as [-> | Hne].
  - assert (u = t) by congruence. subst u.
    destruct (Status t) eqn:Hst.
    + rewrite list_lookup_insert_eq by (by rewrite pauseOthers_length).
      eexists; split; [reflexivity |]. split; [| done].
      apply timeDisplay_started; [congruence | done].
    + rewrite list_lookup_insert_eq by done.
      eexists; split; [reflexivity |]. split.
      * rewrite (timeDisplay_running now t Hst), timeDisplay_idle
          by (rewrite accrue_Status; discriminate).
        unfold accrue. simpl. by destruct (negb _).
      * unfold accrue. simpl. by destruct (negb _).
    + rewrite list_lookup_insert_eq by (by rewrite pauseOthers_length).
      eexists; split; [reflexivity |]. split; [| done].
      apply timeDisplay_started; [congruence | done].
    + by exists t.
  - assert (Hpaused :
      pauseOthers now (Z.of_nat cn) (tasks m) !! i =
      Some (if decide (Status t = InProgress) then setStatus Paused (accrue now t) else t)).
    { rewrite pauseOthers_lookup, Ht. simpl.
      destruct (decide (Status t = InProgress)); [| done].
      destruct (Z.eqb_spec (Z.of_nat i) (Z.of_nat cn)); [lia | done]. }
    assert (Hres : exists t',
      (if decide (Status t = InProgress) then setStatus Paused (accrue now t) else t) = t' /\
      timeDisplay now t' = timeDisplay now t /\
      ID t' = ID t /\ Description t' = Description t /\ CreatedAt t' = CreatedAt t).
    { eexists; split; [reflexivity |].
      destruct (decide (Status t = InProgress)) as [Hr | Hr]; [| done].
      rewrite (timeDisplay_running now t Hr), timeDisplay_idle by discriminate.
      unfold accrue. by destruct (negb _). }
    destruct Hres as (t' & Heq & Hres). rewrite Heq in Hpaused.
    destruct (Status u).
    + exists t'. by rewrite list_lookup_insert_ne.
    + exists t. by rewrite list_lookup_insert_ne.
    + exists t'. by rewrite list_lookup_insert_ne.
    + by exists t.
Qed.

Lemma Update_complete_time now id m f i t m' c f' :
  mode m = modeViewTasks -> 0 <= cursor m ->
  Update (mkEvent (Key completeKey) now id) m f = Some (m', c, f') ->
  tasks m !! i = Some t ->
  exists t', tasks m' !! i = Some t' /\ timeDisplay now t' = timeDisplay now t /\
             ID t' = ID t /\ Description t' = Description t /\ CreatedAt t' = CreatedAt t.
Proof.
  intros Hm H0 HU Ht.
  destruct (Z.lt_ge_cases (cursor m) (len (tasks m))) as [Hin | Hout].
  2:{ destruct (Update_complete_out now id m f Hm H0 Hout) as (m1 & c1 & HU1 & Hts).
      rewrite HU1 in HU. injection HU as <- _ _. exists t. by rewrite Hts. }
  destruct (index_in_range (tasks m) (cursor m) H0 Hin) as (u & _ & Hu).
  destruct (Update_complete_at now id m f (Z.to_nat (cursor m)) u Hm)
    as (m1 & c1 & HU1 & _ & _ & Hts); [lia | done |].
  rewrite HU1 in HU. injection HU as <- _ _. rewrite Hts. clear Hts HU1.
  pose proof (lookup_lt_Some _ _ _ Hu) as Hlt.
  destruct (decide (i = Z.to_nat (cursor m))) as [-> | Hne].
  - assert (u = t) by congruence. subst u.
    rewrite list_lookup_insert_eq by done.
    eexists; split; [reflexivity |]. split; [by apply timeDisplay_stopped |].
    destruct (decide (Status t = InProgress)); [| done].
    unfold accrue. simpl. by destruct (negb _).
  - exists t. by rewrite list_lookup_insert_ne.
Qed.

(** X10. No action loses or adds time at the instant it is taken: after a
    toggle, a complete or a quit at clock reading [now], every task of the
    store is still there, with the identifier, description and creation
    time it had, and the time the renderer shows for it at [now] is the time
    it showed before the action, whether the action started, paused,
    completed or left the task (the time spent being an [int64]). *)
Theorem actions_keep_shown_time :
  forall k now id m f m' c f',
    mode m = modeViewTasks -> 0 <= cursor m ->
    k = toggleKey \/ k = completeKey \/ Matches k Quit = true ->
    Update (mkEvent (Key k) now id) m f = Some (m', c, f') ->
    length (tasks m') = length (tasks m) /\
    (forall i t,
        tasks m !! i = Some t -> fitsDuration (TimeSpent t) ->
        exists t', tasks m' !! i = Some t' /\
                   timeDisplay now t' = timeDisplay now t /\
                   ID t' = ID t /\ Description t' = Description t /\
                   CreatedAt t' = CreatedAt t).
Proof.
  intros k now id m f m' c f' Hm H0 Hk HU. split.
  - destruct Hk as [-> | [-> | Hk]].
    + destruct (Update_toggle_view now id m f Hm H0) as (m1 & m2 & c2 & H1 & HU2 & Hts & _).
      rewrite HU2 in HU. injection HU as <- _ _. rewrite Hts.
      apply toggleCase_shape in H1 as (ts & [= ->] & Hlen). simpl.
      by rewrite Hlen, clearErr_tasks.
    + destruct (Update_complete_view now id m f Hm H0) as (m1 & m2 & c2 & H1 & HU2 & Hts & _).
      rewrite HU2 in HU. injection HU as <- _ _. rewrite Hts.
      apply completeCase_shape in H1 as (ts & [= ->] & Hlen). simpl.
      by rewrite Hlen, clearErr_tasks.
    + rewrite (Update_quit_any k now id m f Hk Hm) in HU. cbv zeta in HU.
      injection HU as <- _ _.
      destruct (saveTasksToFile f _).2; cbn [tasks setErr setTasks]; unfold pauseAll;
        by rewrite length_fmap.
  - intros i t Ht Hf. destruct Hk as [-> | [-> | Hk]].
    + by eapply Update_toggle_time.
    + by eapply Update_complete_time.
    + destruct (Update_quit_lookup k now id m f i t Hk Hm Ht) as (m1 & c1 & f1 & HU1 & Hi).
      rewrite HU1 in HU. injection HU as <- _ _. rewrite Hi.
      eexists; split; [reflexivity |].
      destruct (decide (Status t = InProgress)) as [Hr | Hr]; [| done].
      rewrite (timeDisplay_running now t Hr), timeDisplay_idle by discriminate.
      unfold accrue. by destruct (negb _).
Qed.

Lemma Time_Sub_mono t1 t2 u : t1 <= t2 -> Time_Sub t1 u <= Time_Sub t2 u.
Proof.
  unfold Time_Sub, minDuration, maxDuration. intros H.
  destruct (Z.ltb_spec (t1 - u) (- 2 ^ 63)); destruct (Z.ltb_spec (t2 - u) (- 2 ^ 63));
    destruct (Z.ltb_spec (2 ^ 63 - 1) (t1 - u)); destruct (Z.ltb_spec (2 ^ 63 - 1) (t2 - u));
    lia.
Qed.

(** X11. The time shown never runs backwards: between two clock readings
    in order, the time the renderer shows for a task does not decrease,
    as long as the time spent plus the running interval fits an [int64]
    at both readings; for a task that is not running, or that has no start
    instant, the time shown does not depend on the clock at all. *)
Theorem shown_time_never_decreases :
  forall now1 now2 t,
    now1 <= now2 ->
    fitsDuration (TimeSpent t + time_Since now1 (LastStartedAt t)) ->
    fitsDuration (TimeSpent t + time_Since now2 (LastStartedAt t)) ->
    timeDisplay now1 t <= timeDisplay now2 t /\
    (Status t <> InProgress \/ LastStartedAt t = 0 ->
     timeDisplay now1 t = TimeSpent t /\ timeDisplay now2 t = TimeSpent t).
Proof.
  intros now1 now2 t Hle H1 H2.
  pose proof (Time_Sub_mono now1 now2 (LastStartedAt t) Hle) as Hmono.
  unfold timeDisplay, Time_IsZero, time_Since, fitsDuration, Duration_add,
    minDuration, maxDuration in *.
  destruct (decide (Status t = InProgress)) as [Hr | Hr].
  - destruct (Z.eqb_spec (LastStartedAt t) 0) as [Hz | Hz]; simpl.
    + split; [lia | done].
    + rewrite !Z.mod_small by lia. split; [lia |]. intros [? | ?]; done.
  - split; [lia | done].
Qed.

End TimeAccounting.

Section Rows.
Context {E : Externals}.

(** X12. What a row shows of its description. Provided the dots measure no
    more than five cells, every row of the rendered list belongs to the task
    at its index and has a budget of five columns or more; a description
    that measures no more than the budget is shown as it is; a wider one is
    cut between two of its runes and followed by "...", the runes kept
    being the longest run from the start whose widths, measured rune by
    rune and added up, stay within the budget less the dots. What is shown
    fits the budget whenever it measures no more than its runes added up
    and the dots; text with clusters of several runes need not. *)
Theorem row_description_cut_by_rune_widths :
  lipgloss_Width (lit "...") <= 5 ->
  forall now m i row,
    renderTasksView now m !! i = Some row ->
    exists t,
      tasks m !! i = Some t /\
      5 <= descAvailableWidth m i /\
      (lipgloss_Width (Description t) <= descAvailableWidth m i ->
       rowDescription row = Description t) /\
      (descAvailableWidth m i < lipgloss_Width (Description t) ->
       exists kept dropped,
         Description t = kept ++ dropped /\
         rowDescription row = kept ++ lit "..." /\
         runesWidth kept <= descAvailableWidth m i - lipgloss_Width (lit "...") /\
         (forall r rest, dropped = r :: rest ->
            descAvailableWidth m i - lipgloss_Width (lit "...")
              < runesWidth kept + runeWidth r) /\
         (lipgloss_Width (kept ++ lit "...")
            <= runesWidth kept + lipgloss_Width (lit "...") ->
          lipgloss_Width (rowDescription row) <= descAvailableWidth m i)).
Proof.
  intros Hdots now m i row Hrow. unfold renderTasksView in Hrow.
  rewrite list_lookup_imap in Hrow.
  destruct (tasks m !! i) as [t |]; [| discriminate]. simpl in Hrow.
  injection Hrow as <-. exists t. split; [done |]. cbn [rowDescription].
  pose proof (descAvailableWidth_floor m i) as Hfloor.
  split; [done |]. split.
  - intros Hfit. unfold descText.
    by destruct (Z.ltb_spec (descAvailableWidth m i) (lipgloss_Width (Description t)));
      [lia |].
  - intros Hwide. fold ellipsis in Hdots |- *.
    destruct (descText_cut (descAvailableWidth m i) (Description t))
      as (kept & dropped & Hdesc & Hshown & Hsum & Hnext); [lia | done |].
    exists kept, dropped. rewrite Hshown.
    split; [done |]. split; [done |]. split; [done |]. split.
    + intros r rest ->. exact Hnext.
    + intros Hsub. lia.
Qed.

Lemma countStatus_cons s t ts :
  countStatus s (t :: ts) =
  (if decide (Status t = s) then 1 else 0) + countStatus s ts.
Proof.
  unfold countStatus. rewrite filter_cons.
  destruct (decide (Status t = s)); simpl length; lia.
Qed.

(** X13. The stats bar counts by status: its three figures are the
    numbers of pending, in-progress and completed tasks of the store;
    paused tasks are in none of them, so that the three figures and the
    paused tasks together never exceed the size of the store, and a store
    of paused tasks only shows three zeros. *)
Theorem stats_bar_counts_by_status :
  forall m,
    renderStatsBar m =
      (countStatus Pending (tasks m), countStatus InProgress (tasks m),
       countStatus Completed (tasks m)) /\
    countStatus Pending (tasks m) + countStatus InProgress (tasks m)
      + countStatus Completed (tasks m) + countStatus Paused (tasks m)
    <= len (tasks m) /\
    (countStatus Paused (tasks m) = len (tasks m) -> renderStatsBar m = (0, 0, 0)).
Proof.
  intros m.
  assert (Htriple : forall a b c a' b' c' : Z,
            a = a' -> b = b' -> c = c' -> (a, b, c) = (a', b', c'))
    by (intros; by subst).
  assert (Hbar : renderStatsBar m =
      (countStatus Pending (tasks m), countStatus InProgress (tasks m),
       countStatus Completed (tasks m))).
  { unfold renderStatsBar.
    assert (H : forall ts p i c,
      fold_left (fun '(p, i, c) task =>
                   match Status task with
                   | Pending => (p + 1, i, c)
                   | InProgress => (p, i + 1, c)
                   | Completed => (p, i, c + 1)
                   | Paused => (p, i, c)
                   end) ts (p, i, c)
      = (p + countStatus Pending ts, i + countStatus InProgress ts,
         c + countStatus Completed ts)).
    { induction ts as [| t ts IH]; intros p i c.
      - unfold countStatus. simpl. apply Htriple; lia.
      - simpl. rewrite !countStatus_cons.
        destruct (Status t); rewrite IH;
          repeat (destruct (decide _); try congruence);
          apply Htriple; lia. }
    rewrite H. apply Htriple; lia. }
  assert (Hsum : forall ts,
            countStatus Pending ts + countStatus InProgress ts
              + countStatus Completed ts + countStatus Paused ts <= len ts).
  { unfold len. induction ts as [| t ts IH]; [unfold countStatus; simpl; lia |].
    rewrite !countStatus_cons. simpl length.
    destruct (Status t); repeat (destruct (decide _); try congruence); lia. }
  specialize (Hsum (tasks m)).
  assert (Hpos : forall s ts, 0 <= countStatus s ts) by (intros; unfold countStatus; lia).
  split; [done |]. split; [done |].
  intros Hall. rewrite Hbar.
  pose proof (Hpos Pending (tasks m)). pose proof (Hpos InProgress (tasks m)).
  pose proof (Hpos Completed (tasks m)).
  apply Htriple; lia.
Qed.

End Rows.

(** ** The duration formatter *)

Lemma Duration_add_exact a b : fitsDuration (a + b) -> Duration_add a b = a + b.
Proof.
  unfold fitsDuration, Duration_add, minDuration, maxDuration. intros H.
  rewrite Z.mod_small; lia.
Qed.

Lemma Duration_sub_exact a b : fitsDuration (a - b) -> Duration_sub a b = a - b.
Proof.
  unfold fitsDuration, Duration_sub, minDuration, maxDuration. intros H.
  rewrite Z.mod_small; lia.
Qed.

Lemma Duration_mul_exact a b : fitsDuration (a * b) -> Duration_mul a b = a * b.
Proof.
  unfold fitsDuration, Duration_mul, minDuration, maxDuration. intros H.
  rewrite Z.mod_small; lia.
Qed.

(** Rounding to the second: the nearest whole second, the half going up. *)
Lemma Duration_Round_second d :
  0 <= d -> d + Second <= maxDuration ->
  Duration_Round d Second = (d + 500000000) / 1000000000 * 1000000000.
Proof.
  intros H0 Hmax. unfold Duration_Round, lessThanHalf, Second in *.
  unfold maxDuration in Hmax.
  destruct (Z.leb_spec 1000000000 0); [lia |].
  destruct (Z.ltb_spec d 0); [lia |].
  assert (Hr : 0 <= Z.rem d 1000000000 < 1000000000)
    by (Z.to_euclidean_division_equations; lia).
  rewrite (Z.mod_small (Z.rem d 1000000000)) by lia.
  rewrite (Z.mod_small 1000000000) by lia.
  rewrite (Z.mod_small (Z.rem d 1000000000 + Z.rem d 1000000000)) by lia.
  destruct (Z.ltb_spec (Z.rem d 1000000000 + Z.rem d 1000000000) 1000000000).
  - rewrite Duration_sub_exact
      by (unfold fitsDuration, minDuration, maxDuration; lia).
    Z.to_euclidean_division_equations; lia.
  - rewrite (Duration_add_exact d 1000000000)
      by (unfold fitsDuration, minDuration, maxDuration; lia).
    rewrite Duration_sub_exact
      by (unfold fitsDuration, minDuration, maxDuration; lia).
    destruct (Z.ltb_spec d (d + 1000000000 - Z.rem d 1000000000)); [| lia].
    Z.to_euclidean_division_equations; lia.
Qed.

Lemma formatDuration_hms_rounded d :
  0 <= d -> d + Second <= maxDuration ->
  let T := (d + 500000000) / 1000000000 in
  formatDuration_hms d = (T / 3600, (T / 60) mod 60, T mod 60) /\
  formatDuration d =
    Sprintf_02d (T / 3600) ++ lit ":" ++ Sprintf_02d ((T / 60) mod 60)
      ++ lit ":" ++ Sprintf_02d (T mod 60).
Proof.
  intros H0 Hmax T.
  assert (Hhms : formatDuration_hms d = (T / 3600, (T / 60) mod 60, T mod 60)).
  { unfold formatDuration_hms. rewrite (Duration_Round_second d H0 Hmax). fold T.
    assert (HT : 0 <= T /\ T * 1000000000 <= d + 500000000).
    { subst T. Z.to_euclidean_division_equations; lia. }
    unfold Hour, Minute, Second, maxDuration in *.
    assert (Hh : Z.quot (T * 1000000000) (60 * (60 * 1000000000)) = T / 3600)
      by (Z.to_euclidean_division_equations; lia).
    rewrite Hh.
    rewrite Duration_mul_exact
      by (unfold fitsDuration, minDuration, maxDuration;
          Z.to_euclidean_division_equations; lia).
    rewrite Duration_sub_exact
      by (unfold fitsDuration, minDuration, maxDuration;
          Z.to_euclidean_division_equations; lia).
    assert (Hm : Z.quot (T * 1000000000 - T / 3600 * (60 * (60 * 1000000000)))
                   (60 * 1000000000) = (T / 60) mod 60)
      by (Z.to_euclidean_division_equations; lia).
    rewrite Hm.
    rewrite Duration_mul_exact
      by (unfold fitsDuration, minDuration, maxDuration;
          Z.to_euclidean_division_equations; lia).
    rewrite Duration_sub_exact
      by (unfold fitsDuration, minDuration, maxDuration;
          Z.to_euclidean_division_equations; lia).
    assert (Hs : Z.quot (T * 1000000000 - T / 3600 * (60 * (60 * 1000000000))
                           - (T / 60) mod 60 * (60 * 1000000000)) 1000000000 = T mod 60)
      by (Z.to_euclidean_division_equations; lia).
    by rewrite Hs. }
  split; [done |]. unfold formatDuration. by rewrite Hhms.
Qed.

(** X14. [formatDuration] on a duration that is not negative (and a second
    below the largest one): with T the duration rounded to whole seconds,
    the half second going up, the hours printed are T / 3600, not wrapped
    at a day, the minutes (T / 60) mod 60 and the seconds T mod 60, each
    with the verb %02d and a colon between them. *)
Theorem formatDuration_rounds_and_splits :
  forall d,
    0 <= d -> d + Second <= maxDuration ->
    let T := (d + 500000000) / 1000000000 in
    formatDuration_hms d = (T / 3600, (T / 60) mod 60, T mod 60) /\
    formatDuration d =
      Sprintf_02d (T / 3600) ++ lit ":" ++ Sprintf_02d ((T / 60) mod 60)
        ++ lit ":" ++ Sprintf_02d (T mod 60) /\
    0 <= (T / 60) mod 60 < 60 /\ 0 <= T mod 60 < 60 /\
    2 * Z.abs (d - T * Second) <= Second.
Proof.
  intros d H0 Hmax T.
  destruct (formatDuration_hms_rounded d H0 Hmax) as [Hhms Hfmt]. fold T in Hhms, Hfmt.
  split; [done |]. split; [done |].
  subst T. unfold Second. Z.to_euclidean_division_equations; lia.
Qed.

Lemma Sprintf_02d_two_digits n :
  0 <= n < 100 -> Sprintf_02d n = [48 + n / 10; 48 + n mod 10].
Proof.
  intros Hn. unfold Sprintf_02d, decimal.
  destruct (Z.ltb_spec n 0); [lia |].
  destruct (Z.ltb_spec n 10) as [Hsmall | Hbig].
  - simpl digitsOf. destruct (Z.ltb_spec n 10); [| lia]. simpl.
    f_equal; [| f_equal]; Z.to_euclidean_division_equations; lia.
  - assert (Hlog : 3 <= Z.log2 n).
    { change 3 with (Z.log2 8). apply Z.log2_le_mono. lia. }
    destruct (Z.to_nat (Z.log2 n)) as [| fuel] eqn:Hfuel; [lia |].
    simpl digitsOf. destruct (Z.ltb_spec n 10); [lia |].
    destruct (Z.ltb_spec (n / 10) 10);
      [| Z.to_euclidean_division_equations; lia].
    reflexivity.
Qed.

(** X15. Below a hundred hours [formatDuration] gives the eight characters
    HH:MM:SS: two decimal digits each for the hours, the minutes and the
    seconds of the rounded duration, zero padded, with colons at the third
    and sixth place. *)
Theorem formatDuration_is_HH_MM_SS :
  forall d,
    0 <= d -> (d + 500000000) / 1000000000 < 360000 ->
    let T := (d + 500000000) / 1000000000 in
    formatDuration d =
      [48 + T / 36000; 48 + (T / 3600) mod 10; 58;
       48 + (T / 600) mod 6; 48 + (T / 60) mod 10; 58;
       48 + (T / 10) mod 6; 48 + T mod 10] /\
    length (formatDuration d) = 8%nat.
Proof.
  intros d H0 HT T.
  assert (Hmax : d + Second <= maxDuration).
  { unfold Second, maxDuration. Z.to_euclidean_division_equations; lia. }
  destruct (formatDuration_hms_rounded d H0 Hmax) as [Hhms Hfmt].
  fold T in Hhms, Hfmt.
  assert (Heq : formatDuration d =
      [48 + T / 36000; 48 + (T / 3600) mod 10; 58;
       48 + (T / 600) mod 6; 48 + (T / 60) mod 10; 58;
       48 + (T / 10) mod 6; 48 + T mod 10]).
  { rewrite Hfmt.
    rewrite !Sprintf_02d_two_digits
      by (subst T; Z.to_euclidean_division_equations; lia).
    clear Hhms Hfmt.
    assert (Hcons : forall (a b : Z) l l', a = b -> l = l' -> a :: l = b :: l')
      by (intros; by subst).
    assert (HT0 : 0 <= T < 360000) by (subst T; Z.to_euclidean_division_equations; lia).
    clearbody T. simpl.
    repeat (apply Hcons;
            [first [reflexivity | Z.to_euclidean_division_equations; lia] |]).
    reflexivity. }
  split; [done |]. by rewrite Heq.
Qed.

Section Startup.
Context {E : Externals}.

#[local] Arguments Matches : simpl never.

Lemma clearsErrors_not_quit k : clearsErrors k = true -> Matches k Quit = false.
Proof.
  unfold clearsErrors, Matches. intros Hk.
  destruct (isRune k 113); [by rewrite andb_false_r in Hk |]. by destruct k.
Qed.

Lemma Update_key_err k now id m f m' c f' :
  Matches k Quit = false ->
  Update (mkEvent (Key k) now id) m f = Some (m', c, f') ->
  err m' = err (clearErr k m).
Proof.
  intros Hnq Hr.
  destruct (Update_inv _ _ _ _ _ _ Hr)
    as [(Hm & _) | [(Hm & _) | (k' & fl & Hk' & Hfl & Hres)]];
    [discriminate | discriminate |].
  cbn [ev_msg] in Hk'. injection Hk' as <-.
  destruct (keyCase_err _ _ _ _ _ Hfl) as [[_ Hquit] | He]; [congruence |].
  rewrite <- He. destruct fl as [mr cr fr | mk cmds].
  - by destruct Hres as (-> & _).
  - by destruct Hres as (_ & _ & c0 & v & -> & Hc).
Qed.

(** X16. A tasks file that cannot be read or decoded: the session starts in
    the list view on an empty store with the input not focused; the load
    error is written to the standard error stream, kept in the session and
    shown by [View]; and the first key other than a quit key removes it. *)
Theorem load_failure_shown_until_next_key :
  forall f0,
    fileState f0 = Unreadable \/ fileState f0 = Malformed ->
    exists m0 e,
      initialModel f0 = (m0, Some e) /\
      tasks m0 = [] /\ cursor m0 = 0 /\ mode m0 = modeViewTasks /\
      Focused (input m0) = false /\
      err m0 = Some e /\ shownError m0 = Some e /\
      (forall k now id m' c f',
          clearsErrors k = true ->
          Update (mkEvent (Key k) now id) m0 f0 = Some (m', c, f') ->
          err m' = None).
Proof.
  intros f0 Hst. unfold initialModel, loadTasksFromFile.
  destruct Hst as [-> | ->]; simpl; do 2 eexists; (split; [reflexivity |]);
    do 6 (split; [reflexivity |]);
    intros k now id m' c f' Hk HU;
    rewrite (Update_key_err _ _ _ _ _ _ _ _ (clearsErrors_not_quit k Hk) HU);
    unfold clearErr; simpl; unfold clearsErrors in Hk; by rewrite Hk.
Qed.


(** X18. A session restarted from the file a quit wrote resumes no timer:
    when the quit could write the file, [initialModel] on the file it left
    loads exactly the store of the quit session, with the cursor at 0 and
    no error recorded or logged; no task of it is in progress, so the time
    shown for every task is its time spent at any clock reading; and it
    opens in the list view, or in the input view when the store is
    empty. *)
Theorem restart_after_quit_resumes_no_timer :
  forall k now id m f m' c f',
    mode m = modeViewTasks -> Matches k Quit = true -> writable f = true ->
    Update (mkEvent (Key k) now id) m f = Some (m', c, f') ->
    exists m0,
      initialModel f' = (m0, None) /\
      tasks m0 = tasks m' /\ cursor m0 = 0 /\ err m0 = None /\
      inProgressCount (tasks m0) = 0%nat /\
      (forall i t later, tasks m0 !! i = Some t -> timeDisplay later t = TimeSpent t) /\
      mode m0 = (if decide (tasks m' = []) then modeAddTask else modeViewTasks).
Proof.
  intros k now id m f m' c f' Hm Hk Hw HU.
  rewrite (Update_quit_any k now id m f Hk Hm) in HU. cbv zeta in HU.
  unfold saveTasksToFile in HU. rewrite Hw in HU. cbn [fst snd] in HU.
  injection HU as <- _ <-. cbn [tasks setTasks setQuitting].
  unfold initialModel, loadTasksFromFile. cbn [fileState].
  set (ts := pauseAll now (tasks m)).
  assert (Hnone : forall i t, ts !! i = Some t -> ~ running t).
  { intros i t. apply pauseAll_none_running. }
  eexists. split; [reflexivity |]. cbn [tasks cursor err mode].
  split; [done |]. split; [done |]. split; [done |].
  split; [by apply inProgressCount_zero |].
  split.
  - intros i t later Hi. apply timeDisplay_idle. by apply (Hnone i t).
  - by destruct ts.
Qed.

End Startup.

Section MissingFile.
Context {E : Externals}.

#[local] Arguments Matches : simpl never.

(** What one message does to a session that holds the error of the missing
    file: the error stays, unless the message is a quit key in the list
    view and the save fails, in which case the save error takes its
    place. *)
Lemma notExist_step ev m f m' c f' :
  err m = Some ErrNotExist ->
  Update ev m f = Some (m', c, f') ->
  err m' = Some ErrNotExist \/
  (exists k, ev_msg ev = Key k /\ Matches k Quit = true /\ mode m = modeViewTasks /\
             writable f = false /\ quitting m' = true /\
             err m' = Some (Errorf errorSave (Errorf errorWriteTasks ErrOS))).
Proof.
  intros Herr HU.
  assert (Hclear : forall k, err (clearErr k m) = Some ErrNotExist).
  { intros k. unfold clearErr. rewrite Herr. simpl. by destruct (negb _ && negb _). }
  destruct (Update_inv _ _ _ _ _ _ HU)
    as [(_ & -> & _) | [(_ & _ & _ & c0 & v & -> & _) | (k & fl & Hk & Hfl & Hres)]];
    [by left | by left |].
  destruct (keyCase_err _ _ _ _ _ Hfl) as [[Hmode Hquit] | He].
  - destruct ev as [msg now id]. cbn [ev_msg] in Hk. subst msg.
    rewrite (Update_quit_any k now id m f Hquit Hmode) in HU. cbv zeta in HU.
    unfold saveTasksToFile in HU. destruct (writable f) eqn:Hw; cbn [fst snd] in HU;
      injection HU as <- _ _.
    + by left.
    + right. exists k. by repeat split.
  - left. rewrite <- (Hclear k), <- He. destruct fl as [mr cr fr | mk cmds].
    + by destruct Hres as (-> & _).
    + by destruct Hres as (_ & _ & c0 & v & -> & _).
Qed.

(** C6. With no tasks file, [initialModel] starts with an empty store in
    the list view and writes nothing to the standard error stream. The
    error of the missing file is kept in the session state, and [View]
    shows no error for a session that holds it, neither on the screen nor
    in the farewell. A message leaves it in the session, with one
    exception: a quit key in the list view whose save fails puts the save
    error in its place, and that one is shown. As the first key of the
    session, a quit key writes the empty store and keeps the error when the
    file can be written, and records the save error when it cannot. *)
Theorem missing_file_starts_empty :
  forall w,
    let f0 := mkFile NoFile w in
    let m0 := (initialModel f0).1 in
    tasks m0 = [] /\
    (initialModel f0).2 = None /\
    err m0 = Some ErrNotExist /\
    mode m0 = modeViewTasks /\
    shownError m0 = None /\
    (forall m, err m = Some ErrNotExist ->
               View m = Initializing \/
               View m = Farewell None \/
               exists stats jalali body help, View m = Screen None stats jalali body help) /\
    (forall ev m f m' c f',
        err m = Some ErrNotExist ->
        Update ev m f = Some (m', c, f') ->
        (err m' = Some ErrNotExist /\ shownError m' = None) \/
        (exists k, ev_msg ev = Key k /\ Matches k Quit = true /\
                   mode m = modeViewTasks /\ writable f = false /\
                   quitting m' = true /\
                   err m' = Some (Errorf errorSave (Errorf errorWriteTasks ErrOS)) /\
                   shownError m' = Some (Errorf errorSave (Errorf errorWriteTasks ErrOS)))) /\
    (forall k now id,
        Matches k Quit = true ->
        exists m',
          Update (mkEvent (Key k) now id) m0 f0
            = Some (m', Single CmdQuit, if w then mkFile (Stored []) true else f0) /\
          tasks m' = [] /\ quitting m' = true /\
          err m' = (if w then Some ErrNotExist
                    else Some (Errorf errorSave (Errorf errorWriteTasks ErrOS))) /\
          shownError m' = (if w then None
                           else Some (Errorf errorSave (Errorf errorWriteTasks ErrOS)))).
Proof.
  intros w f0 m0. subst f0 m0. unfold initialModel, loadTasksFromFile.
  cbn [fileState fst snd]. simpl.
  do 5 (split; [done |]). split; [| split].
  - intros m Hm. unfold View, shownError. rewrite Hm. simpl.
    destruct (ready m); simpl; [| by left].
    destruct (quitting m); [right; by left |].
    right; right. by do 4 eexists.
  - intros ev m f m' c f' Herr HU.
    destruct (notExist_step ev m f m' c f' Herr HU)
      as [He | (k & Hk & Hq & Hm & Hw & Hqt & He)].
    + left. split; [done |]. unfold shownError. by rewrite He.
    + right. exists k. repeat split; try done. unfold shownError. by rewrite He.
  - intros k now id Hk.
    match goal with |- context [Update _ ?m ?f] =>
      rewrite (Update_quit_any k now id m f Hk eq_refl) end.
    cbv zeta. unfold saveTasksToFile. cbn [writable tasks setTasks setQuitting].
    destruct w; cbn [fst snd]; eexists; (split; [reflexivity |]); by repeat split.
Qed.

End MissingFile.

Section Compositions.
Context {E : Externals}.

#[local] Arguments clearErr : simpl never.

Lemma Update_toggle_start now id m f c t :
  mode m = modeViewTasks -> cursor m = Z.of_nat c -> tasks m !! c = Some t ->
  Status t = Pending \/ Status t = Paused ->
  exists m' cmd,
    Update (mkEvent (Key toggleKey) now id) m f = Some (m', cmd, f) /\
    mode m' = modeViewTasks /\ cursor m' = Z.of_nat c /\
    tasks m' !! c = Some (setLastStartedAt now (setStatus InProgress t)).
Proof.
  intros Hm Hc Ht Hst.
  destruct (Update_toggle_at now id m f c t Hm Hc Ht) as (m' & cmd & HU & Hm' & Hc' & Hts).
  exists m', cmd. do 3 (split; [done |]).
  assert (Hts' : tasks m' = <[c := setLastStartedAt now (setStatus InProgress t)]>
                              (pauseOthers now (Z.of_nat c) (tasks m))).
  { destruct Hst as [Hst | Hst]; by rewrite Hst in Hts. }
  rewrite Hts'. apply list_lookup_insert_eq. rewrite pauseOthers_length.
  by eapply lookup_lt_Some.
Qed.

Lemma Update_toggle_pause now id m f c t :
  mode m = modeViewTasks -> cursor m = Z.of_nat c -> tasks m !! c = Some t ->
  Status t = InProgress ->
  exists m' cmd,
    Update (mkEvent (Key toggleKey) now id) m f = Some (m', cmd, f) /\
    mode m' = modeViewTasks /\ cursor m' = Z.of_nat c /\
    tasks m' !! c = Some (accrue now (setStatus Paused t)).
Proof.
  intros Hm Hc Ht Hst.
  destruct (Update_toggle_at now id m f c t Hm Hc Ht) as (m' & cmd & HU & Hm' & Hc' & Hts).
  exists m', cmd. do 3 (split; [done |]).
  rewrite Hts, Hst. apply list_lookup_insert_eq. by eapply lookup_lt_Some.
Qed.

(** X19. The time spent is the sum of the intervals worked: a task that is
    pending or paused, started at t0, paused at t1, resumed at t2 and
    paused at t3, with the cursor left on it, ends paused with its time
    spent increased by exactly (t1 − t0) + (t3 − t2); the pause between t1
    and t2 adds nothing (the clock readings t0 and t2 are not the zero
    time, and the intervals and the sums fit an [int64]). *)
Theorem time_spent_sums_worked_intervals :
  forall t0 t1 t2 t3 id m f c t,
    mode m = modeViewTasks -> cursor m = Z.of_nat c -> tasks m !! c = Some t ->
    Status t = Pending \/ Status t = Paused ->
    t0 <> 0 -> t2 <> 0 ->
    fitsDuration (t1 - t0) -> fitsDuration (TimeSpent t + (t1 - t0)) ->
    fitsDuration (t3 - t2) -> fitsDuration (TimeSpent t + (t1 - t0) + (t3 - t2)) ->
    exists m1 m2 m3 m4 t4,
      run [mkEvent (Key toggleKey) t0 id; mkEvent (Key toggleKey) t1 id;
           mkEvent (Key toggleKey) t2 id; mkEvent (Key toggleKey) t3 id] m f
        = Some [m1; m2; m3; m4] /\
      tasks m4 !! c = Some t4 /\
      Status t4 = Paused /\
      TimeSpent t4 = TimeSpent t + (t1 - t0) + (t3 - t2) /\
      ID t4 = ID t /\ Description t4 = Description t /\ CreatedAt t4 = CreatedAt t.
Proof.
  intros t0 t1 t2 t3 id m f c t Hm Hc Ht Hst Hz0 Hz2 Hf1 Hs1 Hf2 Hs2.
  destruct (Update_toggle_start t0 id m f c t Hm Hc Ht Hst)
    as (m1 & c1 & HU1 & Hm1 & Hc1 & Ht1).
  destruct (Update_toggle_pause t1 id m1 f c _ Hm1 Hc1 Ht1 eq_refl)
    as (m2 & c2 & HU2 & Hm2 & Hc2 & Ht2).
  set (u2 := accrue t1 (setStatus Paused (setLastStartedAt t0 (setStatus InProgress t)))) in *.
  assert (Hu2 : Status u2 = Paused) by (unfold u2; by rewrite accrue_Status).
  assert (Hts2 : TimeSpent u2 = TimeSpent t + (t1 - t0)).
  { unfold u2. rewrite accrue_exact; simpl; done. }
  destruct (Update_toggle_start t2 id m2 f c u2 Hm2 Hc2 Ht2 (or_intror Hu2))
    as (m3 & c3 & HU3 & Hm3 & Hc3 & Ht3).
  destruct (Update_toggle_pause t3 id m3 f c _ Hm3 Hc3 Ht3 eq_refl)
    as (m4 & c4 & HU4 & Hm4 & Hc4 & Ht4).
  exists m1, m2, m3, m4. eexists. split.
  - cbn [run]. rewrite HU1. cbn [mbind option_bind fst snd].
    rewrite HU2. cbn [mbind option_bind fst snd].
    rewrite HU3. cbn [mbind option_bind fst snd].
    rewrite HU4. reflexivity.
  - split; [exact Ht4 |]. split; [by rewrite accrue_Status |].
    split.
    + rewrite accrue_exact; simpl; rewrite ?Hts2; try done.
    + unfold accrue, u2, accrue. simpl.
      repeat (destruct (negb _); simpl); done.
Qed.

Lemma Update_add_eq now id m f :
  mode m = modeViewTasks ->
  Update (mkEvent (Key addKey) now id) m f =
  Some (setHelpMsg (generateHelp modeAddTask)
          (setInput (Focus (SetValue [] (input (clearErr addKey m))))
             (setMode modeAddTask (clearErr addKey m))),
        Single CmdBlink, f).
Proof.
  intros Hm. unfold Update, keyCase. cbn [ev_msg ev_now].
  rewrite clearErr_mode, Hm. reflexivity.
Qed.

Lemma Update_esc_eq now id m f :
  mode m = modeAddTask ->
  Update (mkEvent (Key KeyEsc) now id) m f =
  Some (finish (mkEvent (Key KeyEsc) now id)
          (setHelpMsg (generateHelp modeViewTasks)
             (setInput (SetValue [] (Blur (input (clearErr KeyEsc m))))
                (setMode modeViewTasks (clearErr KeyEsc m)))) [], f).
Proof.
  intros Hm. unfold Update, keyCase. cbn [ev_msg ev_now].
  rewrite clearErr_mode, Hm. reflexivity.
Qed.

(** X20. Opening and leaving the input view: from the list view with a
    valid cursor the add key opens the input view with an empty, focused
    input and returns the blink command; the escape key then brings back
    the list view with the same store and the same cursor, the input empty
    and not focused; and the enter key on a text that is not blank stays
    in the input view, with the input emptied for the next task. None of
    the three touches the file. *)
Theorem input_view_opens_and_closes :
  (forall now id m f,
      mode m = modeViewTasks -> validCursor m ->
      exists m1 m2 cmd,
        Update (mkEvent (Key addKey) now id) m f = Some (m1, Single CmdBlink, f) /\
        mode m1 = modeAddTask /\ input m1 = mkInput [] true (inputWidth (input m)) /\
        tasks m1 = tasks m /\
        Update (mkEvent (Key KeyEsc) now id) m1 f = Some (m2, cmd, f) /\
        mode m2 = modeViewTasks /\ input m2 = mkInput [] false (inputWidth (input m)) /\
        tasks m2 = tasks m /\ cursor m2 = cursor m /\
        helpMsg m2 = generateHelp modeViewTasks) /\
  (forall now id m f m' cmd f',
      mode m = modeAddTask -> ~ blank (Value (input m)) ->
      Update (mkEvent (Key KeyEnter) now id) m f = Some (m', cmd, f') ->
      f' = f /\ mode m' = modeAddTask /\
      input m' = mkInput [] (Focused (input m)) (inputWidth (input m)) /\
      forall i, tasks m' !! S i = tasks m !! i).
Proof.
  split.
  - intros now id m f Hm [H0 Hlt].
    rewrite (Update_add_eq now id m f Hm).
    set (m1 := setHelpMsg _ _).
    assert (Hm1 : mode m1 = modeAddTask) by reflexivity.
    pose proof (Update_esc_eq now id m1 f Hm1) as HU2.
    match type of HU2 with context [finish ?ev ?mm ?cc] =>
      pose proof (finish_shape ev mm cc) as (c0 & v & Hs & _);
      pose proof (finish_cursor_exact ev mm cc) as Hfc;
      destruct (finish ev mm cc) as [m2 cmd] end.
    cbn [fst] in *. exists m1, m2, cmd. subst m2.
    split; [done |]. split; [done |].
    split; [unfold m1; simpl; rewrite clearErr_input; reflexivity |].
    split; [unfold m1; simpl; rewrite clearErr_tasks; reflexivity |].
    split; [done |]. split; [done |].
    split; [simpl; rewrite clearErr_input; unfold m1; simpl;
            rewrite clearErr_input; reflexivity |].
    split; [simpl; rewrite clearErr_tasks; unfold m1; simpl;
            rewrite clearErr_tasks; reflexivity |].
    split; [| done].
    cbn [cursor setViewport setCursor] in *. rewrite Hfc. simpl.
    rewrite clearErr_cursor, clearErr_tasks. unfold m1. simpl.
    rewrite clearErr_cursor, clearErr_tasks. lia.
  - intros now id m f m' cmd f' Hm Hnb HU.
    unfold Update, keyCase in HU. cbn [ev_msg ev_now ev_id] in HU.
    rewrite clearErr_mode, Hm in HU. cbn [Matches] in HU.
    destruct (enterCase now id (clearErr KeyEnter m)) as [fl |] eqn:Hfl; [| discriminate].
    apply enterCase_shape in Hfl. rewrite clearErr_input in Hfl.
    destruct Hfl as [(Hb & _) | (_ & ->)]; [done |].
    cbn [mbind option_bind] in HU.
    match type of HU with context [finish ?ev ?mm ?cc] =>
      pose proof (finish_shape ev mm cc) as (c0 & v & Hs & _);
      destruct (finish ev mm cc) as [m2 cmd2] end.
    cbn [fst] in Hs. injection HU as <- _ <-. subst m2. simpl.
    rewrite clearErr_mode, clearErr_tasks. by repeat split.
Qed.

End Compositions.

(** * More example sessions *)

Lemma cursor_stays_in_store_witness :
  validCursor (viewing threeTasks 2 None screen) /\
  exists r,
    Update (E := plainTerminal) (mkEvent (Key deleteKey) today 0)
      (viewing threeTasks 2 None screen) emptyFile = Some r /\
    validCursor r.1.1.
Proof.
  assert (Hv : validCursor (viewing threeTasks 2 None screen))
    by (unfold validCursor, len; simpl; lia).
  split; [exact Hv |].
  exact (proj1 (@cursor_stays_in_store plainTerminal) _ _ _ Hv).
Defined.

Lemma help_text_follows_mode_witness :
  helpInStep (viewing threeTasks 2 None screen) /\
  exists r,
    Update (E := plainTerminal) (mkEvent (Key addKey) today 0)
      (viewing threeTasks 2 None screen) emptyFile = Some r /\
    mode r.1.1 = modeAddTask /\ helpInStep r.1.1.
Proof.
  assert (Hh : helpInStep (viewing threeTasks 2 None screen)) by reflexivity.
  split; [exact Hh |].
  destruct (Update (E := plainTerminal) (mkEvent (Key addKey) today 0)
              (viewing threeTasks 2 None screen) emptyFile) as [r |] eqn:HU;
    [| vm_compute in HU; discriminate].
  exists r. split; [reflexivity |]. split.
  - vm_compute in HU. injection HU as <-. reflexivity.
  - exact (proj1 (@help_text_follows_mode plainTerminal) _ _ _ _ Hh HU).
Defined.

Lemma only_quit_key_quits_and_saves_witness :
  exists k,
    ev_msg (mkEvent (Key KeyCtrlC) today 0) = Key k /\
    mode (viewing twoTasks 0 None screen) = modeViewTasks /\
    Matches k Quit = true.
Proof.
  destruct (Update (E := plainTerminal) (mkEvent (Key KeyCtrlC) today 0)
              (viewing twoTasks 0 None screen) emptyFile) as [[[m' c] f'] |] eqn:HU;
    [| vm_compute in HU; discriminate].
  apply (@only_quit_key_quits_and_saves plainTerminal _ _ _ _ _ _ HU).
  left. vm_compute in HU. injection HU as _ <- _. reflexivity.
Defined.

Lemma store_changes_only_by_its_keys_witness :
  exists k,
    ev_msg (mkEvent (Key KeyEnter) today 7) = Key k /\
    ((mode (adding twoTasks (lit "Buy milk")) = modeViewTasks /\
      (Matches k Delete || Matches k Toggle || Matches k Complete || Matches k Quit) = true) \/
     (mode (adding twoTasks (lit "Buy milk")) = modeAddTask /\ Matches k Enter = true /\
      ~ blank (Value (input (adding twoTasks (lit "Buy milk")))))).
Proof.
  destruct (Update (E := plainTerminal) (mkEvent (Key KeyEnter) today 7)
              (adding twoTasks (lit "Buy milk")) emptyFile) as [[[m' c] f'] |] eqn:HU;
    [| vm_compute in HU; discriminate].
  apply (@store_changes_only_by_its_keys plainTerminal _ _ _ _ _ _ HU).
  vm_compute in HU. injection HU as <- _ _. discriminate.
Defined.

Lemma next_key_clears_shown_error_witness :
  clearsErrors KeyDown = true /\
  exists m' c f',
    Update (E := plainTerminal) (mkEvent (Key KeyDown) today 0) failedQuit emptyFile
      = Some (m', c, f') /\
    shownError failedQuit <> None /\ shownError m' = None.
Proof.
  split; [reflexivity |].
  destruct (Update (E := plainTerminal) (mkEvent (Key KeyDown) today 0) failedQuit emptyFile)
    as [[[m' c] f'] |] eqn:HU; [| vm_compute in HU; discriminate].
  exists m', c, f'. split; [reflexivity |]. split; [discriminate |].
  exact (proj1 (proj1 (@next_key_clears_shown_error plainTerminal)
                  KeyDown today 0 failedQuit emptyFile m' c f' eq_refl HU)).
Defined.

Lemma delete_removes_task_at_cursor_witness :
  exists m' cmd,
    Update (E := plainTerminal) (mkEvent (Key deleteKey) today 0)
      (viewing threeTasks 2 None screen) emptyFile = Some (m', cmd, emptyFile) /\
    tasks m' = [exampleTask 1 Pending 0 0; exampleTask 2 InProgress (30 * Second) today] /\
    cursor m' = 1.
Proof.
  destruct (@delete_removes_task_at_cursor plainTerminal today 0
              (viewing threeTasks 2 None screen) emptyFile 2%nat
              (exampleTask 3 Completed (45 * Second) today) eq_refl eq_refl eq_refl)
    as (m' & cmd & HU & Hts & _ & _ & _ & Hc & _).
  exists m', cmd. split; [exact HU |]. split; [exact Hts | exact Hc].
Defined.

Lemma delete_last_task_opens_input_witness :
  exists m',
    Update (E := plainTerminal) (mkEvent (Key deleteKey) today 0)
      (viewing [craftedTask] 0 None screen) emptyFile
      = Some (m', Single CmdBlink, emptyFile) /\
    tasks m' = [] /\ mode m' = modeAddTask /\ Focused (input m') = true.
Proof.
  destruct (@delete_last_task_opens_input plainTerminal today 0
              (viewing [craftedTask] 0 None screen) emptyFile craftedTask
              eq_refl eq_refl eq_refl)
    as (m' & HU & Hts & _ & Hm & Hi & _).
  exists m'. split; [exact HU |]. split; [exact Hts |]. split; [exact Hm |].
  rewrite Hi. reflexivity.
Defined.

Lemma navigation_moves_cursor_by_one_witness :
  (exists m' cmd,
      Update (E := plainTerminal) (mkEvent (Key KeyUp) today 0)
        (viewing threeTasks 1 None screen) emptyFile = Some (m', cmd, emptyFile) /\
      cursor m' = 0) /\
  (exists m' cmd,
      Update (E := plainTerminal) (mkEvent (Key KeyDown) today 0)
        (viewing threeTasks 1 None screen) emptyFile = Some (m', cmd, emptyFile) /\
      cursor m' = 2).
Proof.
  assert (Hv : validCursor (viewing threeTasks 1 None screen))
    by (unfold validCursor, len; simpl; lia).
  destruct (@navigation_moves_cursor_by_one plainTerminal today 0
              (viewing threeTasks 1 None screen) emptyFile eq_refl Hv)
    as [(m1 & c1 & HU1 & Hc1 & _) (m2 & c2 & HU2 & Hc2 & _)].
  split; [exists m1, c1 | exists m2, c2]; (split; [assumption |]); assumption.
Defined.

(** A quit as the first key of a session whose file is missing and cannot
    be written. *)
Lemma missing_file_starts_empty_witness :
  exists m',
    Update (E := plainTerminal) (mkEvent (Key quitKey) today 0)
      (initialModel (mkFile NoFile false)).1 (mkFile NoFile false)
      = Some (m', Single CmdQuit, mkFile NoFile false) /\
    err m' = Some (Errorf errorSave (Errorf errorWriteTasks ErrOS)) /\
    shownError m' = Some (Errorf errorSave (Errorf errorWriteTasks ErrOS)).
Proof.
  destruct (proj2 (proj2 (proj2 (proj2 (proj2 (proj2 (proj2
              (@missing_file_starts_empty plainTerminal false)))))))
              quitKey today 0 eq_refl)
    as (m' & HU & _ & _ & He & Hs).
  exists m'. split; [exact HU |]. split; [exact He | exact Hs].
Defined.

Lemma ensureCursorVisible_offset_brackets_cursor_witness :
  YOffset (vp (ensureCursorVisible (viewing twentyTasks 17 None (mkViewport 0 5 80 []))))
    <= 17
  < YOffset (vp (ensureCursorVisible (viewing twentyTasks 17 None (mkViewport 0 5 80 []))))
    + 5.
Proof.
  exact (proj1 (ensureCursorVisible_offset_brackets_cursor
                  (viewing twentyTasks 17 None (mkViewport 0 5 80 []))
                  ltac:(discriminate) ltac:(simpl; lia))).
Defined.

Lemma actions_keep_shown_time_witness :
  exists m' c f' t',
    Update (E := plainTerminal) (mkEvent (Key toggleKey) (today + 5 * Second) 0)
      (viewing twoTasks 0 None screen) emptyFile = Some (m', c, f') /\
    tasks m' !! 1%nat = Some t' /\
    timeDisplay (today + 5 * Second) t' = 35 * Second.
Proof.
  destruct (Update (E := plainTerminal) (mkEvent (Key toggleKey) (today + 5 * Second) 0)
              (viewing twoTasks 0 None screen) emptyFile) as [[[m' c] f'] |] eqn:HU;
    [| vm_compute in HU; discriminate].
  destruct (proj2 (@actions_keep_shown_time plainTerminal toggleKey (today + 5 * Second) 0
                     (viewing twoTasks 0 None screen) emptyFile m' c f'
                     eq_refl ltac:(simpl; lia) (or_introl eq_refl) HU)
              1%nat (exampleTask 2 InProgress (30 * Second) today) eq_refl
              ltac:(unfold fitsDuration; vm_compute; split; discriminate))
    as (t' & Ht' & Htime & _).
  exists m', c, f', t'. split; [reflexivity |]. split; [exact Ht' |].
  rewrite Htime. reflexivity.
Defined.

Lemma shown_time_never_decreases_witness :
  timeDisplay (today + 5 * Second) (exampleTask 2 InProgress (30 * Second) today)
  <= timeDisplay (today + 9 * Second) (exampleTask 2 InProgress (30 * Second) today).
Proof.
  exact (proj1 (shown_time_never_decreases (today + 5 * Second) (today + 9 * Second)
                  (exampleTask 2 InProgress (30 * Second) today)
                  ltac:(unfold today, Second; lia)
                  ltac:(unfold fitsDuration; vm_compute; split; discriminate)
                  ltac:(unfold fitsDuration; vm_compute; split; discriminate))).
Defined.

Lemma row_description_cut_by_rune_widths_witness :
  exists row kept dropped,
    renderTasksView (E := plainTerminal) today (viewing threeTasks 1 None narrowScreen) !! 0%nat
      = Some row /\
    lit "write report" = kept ++ dropped /\
    rowDescription row = kept ++ lit "..." /\
    runesWidth (E := plainTerminal) kept
      <= descAvailableWidth (E := plainTerminal) (viewing threeTasks 1 None narrowScreen) 0 - 3 /\
    lipgloss_Width (Externals := plainTerminal) (rowDescription row)
      <= descAvailableWidth (E := plainTerminal) (viewing threeTasks 1 None narrowScreen) 0.
Proof.
  destruct (renderTasksView (E := plainTerminal) today (viewing threeTasks 1 None narrowScreen)
              !! 0%nat) as [row |] eqn:Hrow; [| vm_compute in Hrow; discriminate].
  destruct (@row_description_cut_by_rune_widths plainTerminal ltac:(vm_compute; discriminate)
              today (viewing threeTasks 1 None narrowScreen) 0%nat row Hrow)
    as (t & Ht & _ & _ & Hwide).
  simpl in Ht. injection Ht as <-.
  destruct (Hwide ltac:(vm_compute; reflexivity))
    as (kept & dropped & Hdesc & Hshown & Hsum & _ & _).
  exists row, kept, dropped.
  split; [reflexivity |]. split; [exact Hdesc |]. split; [exact Hshown |].
  split; [exact Hsum |].
  vm_compute in Hrow. injection Hrow as <-. vm_compute. discriminate.
Defined.

(** A store of paused tasks only. *)
Lemma stats_bar_counts_by_status_witness :
  renderStatsBar
    (viewing [exampleTask 1 Paused (30 * Second) today; exampleTask 2 Paused 0 0]
       0 None screen)
  = (0, 0, 0).
Proof.
  exact (proj2 (proj2 (stats_bar_counts_by_status
                         (viewing [exampleTask 1 Paused (30 * Second) today;
                                   exampleTask 2 Paused 0 0] 0 None screen)))
           eq_refl).
Defined.

Lemma formatDuration_rounds_and_splits_witness :
  formatDuration_hms (3725 * Second + 500000000) = (1, 2, 6).
Proof.
  exact (proj1 (formatDuration_rounds_and_splits (3725 * Second + 500000000)
                  ltac:(unfold Second; lia)
                  ltac:(unfold Second, maxDuration; lia))).
Defined.

Lemma formatDuration_is_HH_MM_SS_witness :
  formatDuration (3725 * Second + 500000000) = lit "01:02:06".
Proof.
  exact (proj1 (formatDuration_is_HH_MM_SS (3725 * Second + 500000000)
                  ltac:(unfold Second; lia)
                  ltac:(vm_compute; reflexivity))).
Defined.

Lemma load_failure_shown_until_next_key_witness :
  exists m0 e,
    initialModel garbledFile = (m0, Some e) /\
    tasks m0 = [] /\ shownError m0 = Some e /\
    e = Errorf errorUnmarshalTasks ErrJSON.
Proof.
  destruct (@load_failure_shown_until_next_key plainTerminal garbledFile
              (or_intror eq_refl))
    as (m0 & e & Hinit & Hts & _ & _ & _ & _ & Hshown & _).
  exists m0, e. split; [exact Hinit |]. split; [exact Hts |]. split; [exact Hshown |].
  vm_compute in Hinit. injection Hinit as _ <-. reflexivity.
Defined.


Lemma restart_after_quit_resumes_no_timer_witness :
  exists m' c f' m0,
    Update (E := plainTerminal) (mkEvent (Key quitKey) (today + 5 * Second) 0)
      (viewing twoTasks 0 None screen) emptyFile = Some (m', c, f') /\
    initialModel f' = (m0, None) /\
    tasks m0 = [exampleTask 1 Pending 0 0; exampleTask 2 Paused (35 * Second) today] /\
    inProgressCount (tasks m0) = 0%nat.
Proof.
  destruct (Update (E := plainTerminal) (mkEvent (Key quitKey) (today + 5 * Second) 0)
              (viewing twoTasks 0 None screen) emptyFile) as [[[m' c] f'] |] eqn:HU;
    [| vm_compute in HU; discriminate].
  destruct (@restart_after_quit_resumes_no_timer plainTerminal quitKey (today + 5 * Second) 0
              (viewing twoTasks 0 None screen) emptyFile m' c f' eq_refl eq_refl eq_refl HU)
    as (m0 & Hinit & Hts & _ & _ & Hcount & _).
  exists m', c, f', m0. split; [reflexivity |]. split; [exact Hinit |].
  split; [| exact Hcount].
  rewrite Hts. vm_compute in HU. injection HU as <- _ _. reflexivity.
Defined.

Lemma time_spent_sums_worked_intervals_witness :
  exists m1 m2 m3 m4 t4,
    run (E := plainTerminal)
      [mkEvent (Key toggleKey) today 0; mkEvent (Key toggleKey) (today + 5 * Second) 0;
       mkEvent (Key toggleKey) (today + 60 * Second) 0;
       mkEvent (Key toggleKey) (today + 67 * Second) 0]
      (viewing [exampleTask 1 Paused (30 * Second) 0] 0 None screen) emptyFile
      = Some [m1; m2; m3; m4] /\
    tasks m4 !! 0%nat = Some t4 /\ Status t4 = Paused /\ TimeSpent t4 = 42 * Second.
Proof.
  destruct (@time_spent_sums_worked_intervals plainTerminal
              today (today + 5 * Second) (today + 60 * Second) (today + 67 * Second) 0
              (viewing [exampleTask 1 Paused (30 * Second) 0] 0 None screen) emptyFile
              0%nat (exampleTask 1 Paused (30 * Second) 0)
              eq_refl eq_refl eq_refl (or_intror eq_refl)
              ltac:(unfold today; lia) ltac:(unfold today, Second; lia)
              ltac:(unfold fitsDuration; vm_compute; split; discriminate)
              ltac:(unfold fitsDuration; vm_compute; split; discriminate)
              ltac:(unfold fitsDuration; vm_compute; split; discriminate)
              ltac:(unfold fitsDuration; vm_compute; split; discriminate))
    as (m1 & m2 & m3 & m4 & t4 & Hrun & Ht4 & Hst & Hts & _).
  exists m1, m2, m3, m4, t4. split; [exact Hrun |]. split; [exact Ht4 |].
  split; [exact Hst |]. rewrite Hts. vm_compute. reflexivity.
Defined.

Lemma input_view_opens_and_closes_witness :
  exists m1 m2 cmd,
    Update (E := plainTerminal) (mkEvent (Key addKey) today 0)
      (viewing threeTasks 1 None screen) emptyFile = Some (m1, Single CmdBlink, emptyFile) /\
    mode m1 = modeAddTask /\
    Update (E := plainTerminal) (mkEvent (Key KeyEsc) today 0) m1 emptyFile
      = Some (m2, cmd, emptyFile) /\
    mode m2 = modeViewTasks /\ tasks m2 = threeTasks /\ cursor m2 = 1.
Proof.
  assert (Hv : validCursor (viewing threeTasks 1 None screen))
    by (unfold validCursor, len; simpl; lia).
  destruct (proj1 (@input_view_opens_and_closes plainTerminal) today 0
              (viewing threeTasks 1 None screen) emptyFile eq_refl Hv)
    as (m1 & m2 & cmd & HU1 & Hm1 & _ & _ & HU2 & Hm2 & _ & Hts & Hc & _).
  exists m1, m2, cmd. split; [exact HU1 |]. split; [exact Hm1 |].
  split; [exact HU2 |]. split; [exact Hm2 |]. split; [exact Hts | exact Hc].
Defined.
